(** * AgentID Python SDK: verification and permission-evaluation core

    A shallow embedding of [sdks/python/agentid]: the expiring cache
    ([cache.py]), the request signer ([signature.py]), the server-side
    verifier and the permission evaluator ([verifier.py]), the client-side
    credential handle ([credential.py]) and the event handler of the
    revocation watch ([revocation.py]).

    Conventions of the embedding.
    - A Python [bytes] is a Rocq [string], and a Python [str] is the
      Rocq [string] of its UTF-8 encoding, so that [s.encode("utf-8")] is
      [s] itself; a [str] with a lone surrogate, which has no encoding, is
      outside the model.  [int(s)] and [hmac.compare_digest] are modelled
      on every text; [lower] and [upper] change the case of the ASCII
      letters.  [int] is [Z].
    - [time.time()] is an input of every operation that reads the clock, and
      a Python [float] is a rational [Q].  The operations compute with exact
      sums and differences; where the rounding of a sum decides the answer,
      the sum is a parameter ([Cache.set_at]) and [Py.float_add] is the sum
      that IEEE doubles give.  Infinities are outside the model; the
      [OverflowError] of an [int] too large for a [float] is in it.
    - A [dict] used as a map is a [gmap]; a [dict] whose insertion order
      matters (request headers) is an association list.
    - A function that can raise returns [result exn A]. *)

From Stdlib Require Import ZArith QArith Qabs Qminmax Lqa Lia.
From Stdlib Require Import String Ascii List Bool.
From Stdlib Require Import DecimalString DecimalPos DecimalZ.
From stdpp Require Import gmap strings list fin_maps.

Local Open Scope string_scope.
Local Open Scope Z_scope.

(** ** Python values and built-ins used by the SDK *)

(** The outcome of a call that can raise. *)
Inductive result (E A : Type) : Type :=
  | Return (a : A)
  | Raise (e : E).
Arguments Return {E A} a.
Arguments Raise {E A} e.

(** [exceptions.py], with the built-in and pydantic exceptions that the
    modelled code can let escape. *)
Inductive exn : Type :=
  | AgentIDError (message : string) (details : list (string * option string))
  | CredentialNotFoundError (message : string)
  | CredentialExpiredError (message : string)
  | CredentialRevokedError (message : string)
  | CredentialInvalidError (message : string)
  | AuthenticationError (message : string)
  | RateLimitError (message : string) (retry_after : option Z)
  | NetworkError (message : string)
  | SignatureError (message : string)
  | ValueError
  | TypeError
  | AttributeError
  | OverflowError
  | ValidationError.

(** A value of a [dict[str, Any]] context. *)
Inductive pyval : Type :=
  | PInt (z : Z)
  | PFloat (q : Q)
  | PStr (s : string).

(** An f-string, kept as its parts: literal text and formatted values. *)
Inductive fpart : Type :=
  | Lit (s : string)
  | Fmt (v : pyval).

Module Py.

(** Truthiness of a [str]: only the empty string is falsy. *)
Definition str_truthy (s : string) : bool :=
  match s with EmptyString => false | String _ _ => true end.

(** Truthiness of a [str | None] value, as in [if not credential_id]. *)
Definition opt_truthy (o : option string) : bool :=
  match o with None => false | Some s => str_truthy s end.

Definition between (lo hi : nat) (c : ascii) : bool :=
  let n := nat_of_ascii c in (lo <=? n)%nat && (n <=? hi)%nat.

Definition lower_char (c : ascii) : ascii :=
  if between 65 90 c then ascii_of_nat (nat_of_ascii c + 32) else c.

Definition upper_char (c : ascii) : ascii :=
  if between 97 122 c then ascii_of_nat (nat_of_ascii c - 32) else c.

Fixpoint map_chars (f : ascii -> ascii) (s : string) : string :=
  match s with
  | EmptyString => EmptyString
  | String c s' => String (f c) (map_chars f s')
  end.

(** [str.lower()] and [str.upper()]. *)
Definition lower : string -> string := map_chars lower_char.
Definition upper : string -> string := map_chars upper_char.

(** [str(n)] for an [int]. *)
Definition str_of_int (z : Z) : string := NilZero.string_of_int (Z.to_int z).

(** Whitespace skipped by [int(s)] around the number: tab, line feed,
    vertical tab, form feed, carriage return and space. *)
Definition is_space (c : ascii) : bool :=
  between 9 13 c || (nat_of_ascii c =? 32)%nat.

Definition is_digit (c : ascii) : bool := between 48 57 c.

Fixpoint lstrip (s : string) : string :=
  match s with
  | EmptyString => EmptyString
  | String c s' => if is_space c then lstrip s' else s
  end.

Fixpoint rstrip (s : string) : string :=
  match s with
  | EmptyString => EmptyString
  | String c s' =>
      match rstrip s' with
      | EmptyString => if is_space c then EmptyString else String c EmptyString
      | r => String c r
      end
  end.

(** The digits of a decimal literal: at least one digit, single
    underscores allowed between digits only; the result has the
    underscores removed. *)
Fixpoint digits (after_digit : bool) (s : string) : option string :=
  match s with
  | EmptyString => if after_digit then Some EmptyString else None
  | String c s' =>
      if is_digit c then String c <$> digits true s'
      else if Ascii.eqb c "_"
           then (if after_digit then digits false s' else None)
           else None
  end.

(** A string of decimal digits. *)
Definition only_digits (s : string) : Prop :=
  Forall (λ c, is_digit c = true) (list_ascii_of_string s).

Definition unsigned (s : string) : option Z :=
  d ← digits false s; Z.of_uint <$> NilEmpty.uint_of_string d.

(** A base-10 literal of ASCII characters: white space, an optional
    sign, the digits, white space. *)
Definition parse_int (s : string) : option Z :=
  match rstrip (lstrip s) with
  | String "+" r => unsigned r
  | String "-" r => Z.opp <$> unsigned r
  | r => unsigned r
  end.

(** The number of a byte. *)
Definition code (c : ascii) : Z := Z.of_N (N_of_ascii c).

(** [s.isascii()] *)
Definition is_ascii (s : string) : bool :=
  forallb (λ c, code c <? 128) (list_ascii_of_string s).

(** A continuation byte of UTF-8, which carries six bits. *)
Definition is_continuation (c : ascii) : bool :=
  (128 <=? code c) && (code c <? 192).

(** The white space of Unicode above ASCII. *)
Definition unicode_space (cp : Z) : bool :=
  bool_decide (cp ∈ [0x85; 0xA0; 0x1680; 0x2028; 0x2029; 0x202F; 0x205F;
                     0x3000])
  || ((0x2000 <=? cp) && (cp <=? 0x200A)).

(** The digit zero of every script above ASCII that has decimal digits
    (Unicode 14.0, the database of CPython 3.11); the nine other digits
    follow each one. *)
Definition decimal_zeros : list Z :=
  [ 0x660; 0x6F0; 0x7C0; 0x966; 0x9E6; 0xA66; 0xAE6; 0xB66; 0xBE6; 0xC66;
    0xCE6; 0xD66; 0xDE6; 0xE50; 0xED0; 0xF20; 0x1040; 0x1090; 0x17E0;
    0x1810; 0x1946; 0x19D0; 0x1A80; 0x1A90; 0x1B50; 0x1BB0; 0x1C40; 0x1C50;
    0xA620; 0xA8D0; 0xA900; 0xA9D0; 0xA9F0; 0xAA50; 0xABF0; 0xFF10;
    0x104A0; 0x10D30; 0x11066; 0x110F0; 0x11136; 0x111D0; 0x112F0; 0x11450;
    0x114D0; 0x11650; 0x116C0; 0x11730; 0x118E0; 0x11950; 0x11C50; 0x11D50;
    0x11DA0; 0x16A60; 0x16AC0; 0x16B50; 0x1D7CE; 0x1D7D8; 0x1D7E2; 0x1D7EC;
    0x1D7F6; 0x1E140; 0x1E2F0; 0x1E950; 0x1FBF0 ].

(** The value of a decimal digit above ASCII. *)
Definition unicode_decimal (cp : Z) : option Z :=
  (λ zero, cp - zero)
    <$> List.find (λ zero, (zero <=? cp) && (cp <? zero + 10)) decimal_zeros.

(** What [int] makes of a character above ASCII before it parses: white
    space becomes a space and a decimal digit its ASCII digit; any other
    character ends the text with a [?], which no literal holds. *)
Definition translated (cp : Z) (rest : string) : string :=
  if unicode_space cp then String " " rest
  else
    match unicode_decimal cp with
    | Some d => String (ascii_of_nat (48 + Z.to_nat d)) rest
    | None => "?"
    end.

(** The translation of a text that is not ASCII, character by character;
    the characters below 127 are kept.  The bytes are decoded as UTF-8:
    one byte below 128, or a lead byte and one, two or three continuation
    bytes, in the shortest form and outside the surrogates. *)
Fixpoint translate (s : string) : string :=
  match s with
  | EmptyString => EmptyString
  | String a s1 =>
      if code a <? 127 then String a (translate s1)
      else if code a <? 0xC2 then "?"
      else
        match s1 with
        | EmptyString => "?"
        | String b s2 =>
            if negb (is_continuation b) then "?"
            else if code a <? 0xE0
            then translated ((code a - 0xC0) * 64 + (code b - 128))
                   (translate s2)
            else
              match s2 with
              | EmptyString => "?"
              | String c s3 =>
                  if negb (is_continuation c) then "?"
                  else if code a <? 0xF0
                  then
                    let cp := (code a - 0xE0) * 4096 + (code b - 128) * 64
                              + (code c - 128) in
                    if (cp <? 0x800) || ((0xD800 <=? cp) && (cp <=? 0xDFFF))
                    then "?"
                    else translated cp (translate s3)
                  else
                    match s3 with
                    | EmptyString => "?"
                    | String d s4 =>
                        if negb (is_continuation d) then "?"
                        else
                          let cp := (code a - 0xF0) * 262144
                                    + (code b - 128) * 4096
                                    + (code c - 128) * 64 + (code d - 128) in
                          if (cp <? 0x10000) || (0x10FFFF <? cp) then "?"
                          else translated cp (translate s4)
                    end
              end
        end
  end.

(** The ASCII text that [int] parses: an ASCII text is taken as it is. *)
Definition ascii_decimal (s : string) : string :=
  if is_ascii s then s else translate s.

(** [int(s)] in base 10, the interpreter's limit on the number of digits
    left out: [None] stands for [ValueError]. *)
Definition int (s : string) : option Z := parse_int (ascii_decimal s).

(** [sys.int_info.default_max_str_digits] *)
Definition max_str_digits : nat := 4300.

(** The number of digits of a literal, whatever else it holds. *)
Definition digit_count (s : string) : nat :=
  length (List.filter is_digit (list_ascii_of_string s)).

(** [int(s)] as the interpreter runs it by default: a literal of more
    than 4300 digits, leading zeros included, is a [ValueError] whatever
    its value. *)
Definition int_limited (s : string) : option Z :=
  if (max_str_digits <? digit_count (ascii_decimal s))%nat then None
  else int s.

(** [int(x)] for a [float]: truncation towards zero. *)
Definition int_of_float (q : Q) : Z := Z.quot (Qnum q) (Z.pos (Qden q)).

(** The least [int] too large for a [float]: half a unit in the last
    place above the largest double. *)
Definition float_limit : Z := 2 ^ 1024 - 2 ^ 970.

(** The conversion of an [int] operand in arithmetic with a [float]:
    [None] stands for [OverflowError]. *)
Definition float_of_int (z : Z) : option Q :=
  if Z.abs z <? float_limit then Some (inject_Z z) else None.

(** The double nearest to a rational, ties to the even significand
    (IEEE 754 binary64, subnormal numbers included).  A magnitude beyond
    the largest double has no finite rounding; the result is then not a
    double. *)
Definition float_round (q : Q) : Q :=
  let n := Z.abs (Qnum q) in
  let d := Z.pos (Qden q) in
  if n =? 0 then 0%Q
  else
    let e0 := Z.log2 n - Z.log2 d in
    let e := if (if 0 <=? e0 then d * 2 ^ e0 <=? n else d <=? n * 2 ^ (- e0))
             then e0 else e0 - 1 in
    let k := Z.max (e - 52) (-1074) in
    let num := if 0 <=? k then n else n * 2 ^ (- k) in
    let den := if 0 <=? k then d * 2 ^ k else d in
    let m := num / den in
    let r := num mod den in
    let m := if 2 * r <? den then m
             else if den <? 2 * r then m + 1
             else if Z.even m then m else m + 1 in
    let m := Z.sgn (Qnum q) * m in
    if 0 <=? k then inject_Z (m * 2 ^ k) else Qmake m (Z.to_pos (2 ^ (- k))).

(** [x + y] for two [float]s: the exact sum, rounded. *)
Definition float_add (x y : Q) : Q := float_round (x + y).

(** Truthiness of [int | None], [float | None], [list | None] and
    [dict | None] values. *)
Definition int_truthy (o : option Z) : bool :=
  match o with None => false | Some z => negb (Z.eqb z 0) end.

Definition float_truthy (o : option Q) : bool :=
  match o with None => false | Some q => negb (Qeq_bool q 0) end.

Definition list_truthy {A} (o : option (list A)) : bool :=
  match o with None | Some [] => false | Some (_ :: _) => true end.

Definition truthy (v : pyval) : bool :=
  match v with
  | PInt z => negb (Z.eqb z 0)
  | PFloat q => negb (Qeq_bool q 0)
  | PStr s => str_truthy s
  end.

(** [v > limit] for a [float] limit: numbers compare by value, a [str]
    against a [float] raises [TypeError]. *)
Definition gt_float (v : pyval) (limit : Q) : result exn bool :=
  match v with
  | PInt z => Return (negb (Qle_bool (inject_Z z) limit))
  | PFloat q => Return (negb (Qle_bool q limit))
  | PStr _ => Raise TypeError
  end.

(** [v in xs] for a list of strings. *)
Definition str_in (s : string) (xs : list string) : bool :=
  existsb (String.eqb s) xs.

Definition val_in (v : pyval) (xs : list string) : bool :=
  match v with PStr s => str_in s xs | _ => false end.

(** [hmac.compare_digest(a, b)] for two [str]s: equality, and a
    [TypeError] when one of them holds a character that is not ASCII. *)
Definition compare_digest (a b : string) : result exn bool :=
  if is_ascii a && is_ascii b then Return (String.eqb a b)
  else Raise TypeError.

(** The text of an f-string; [repr_float] is the text of a [float]. *)
Definition format (repr_float : Q -> string) (v : pyval) : string :=
  match v with
  | PInt z => str_of_int z
  | PFloat q => repr_float q
  | PStr s => s
  end.

Definition render (repr_float : Q -> string) (f : list fpart) : string :=
  foldr (λ p acc,
           match p with
           | Lit s => s ++ acc
           | Fmt v => format repr_float v ++ acc
           end) "" f.

End Py.

(** ** Expiring cache ([cache.py]) *)

Module Cache.

Section Store.
(** The cached value: a Python [dict]. *)
Context {V : Type}.

(** [CacheEntry]: [created_at] is filled by [default_factory=time.time];
    the two clock readings of one [set] call are the same reading. *)
Record CacheEntry : Type := mkEntry {
  value : V;
  expires_at : Q;
  created_at : Q;
}.

(** [time.time() >= self.expires_at] *)
Definition is_expired (now : Q) (e : CacheEntry) : bool :=
  Qle_bool (expires_at e) now.

(** [max(0, self.expires_at - time.time())] *)
Definition time_to_live (now : Q) (e : CacheEntry) : Q :=
  Qmax 0 (expires_at e - now).

(** [CredentialCache]: the store and the default TTL; the re-entrant lock
    makes every method one atomic step, which is what a function is. *)
Record CredentialCache : Type := mkCache {
  _cache : gmap string CacheEntry;
  _default_ttl : Q;
}.

(** [CredentialCache(default_ttl)] *)
Definition new (default_ttl : Q) : CredentialCache :=
  {| _cache := ∅; _default_ttl := default_ttl |}.

Definition with_store (c : CredentialCache) (m : gmap string CacheEntry)
  : CredentialCache :=
  {| _cache := m; _default_ttl := _default_ttl c |}.

(** [get]: a missing key gives [None]; an expired entry is deleted and
    gives [None]; otherwise the stored value. *)
Definition get (now : Q) (key : string) (c : CredentialCache)
  : CredentialCache * option V :=
  match _cache c !! key with
  | None => (c, None)
  | Some entry =>
      if is_expired now entry
      then (with_store c (base.delete key (_cache c)), None)
      else (c, Some (value entry))
  end.

(** [set]: [ttl is None] selects the default TTL. *)
Definition set (now : Q) (key : string) (v : V) (ttl : option Q)
    (c : CredentialCache) : CredentialCache :=
  let ttl := match ttl with None => _default_ttl c | Some t => t end in
  with_store c
    (<[key := {| value := v; expires_at := now + ttl; created_at := now |}]>
       (_cache c)).

(** [delete]: whether the key was there. *)
Definition delete (key : string) (c : CredentialCache)
  : CredentialCache * bool :=
  match _cache c !! key with
  | Some _ => (with_store c (base.delete key (_cache c)), true)
  | None => (c, false)
  end.

Definition clear (c : CredentialCache) : CredentialCache := with_store c ∅.

(** [cleanup_expired]: the expired keys are collected first, then deleted;
    the result is their number. *)
Definition cleanup_expired (now : Q) (c : CredentialCache)
  : CredentialCache * nat :=
  let expired := filter (λ kv, is_expired now kv.2 = true) (_cache c) in
  (with_store c (filter (λ kv, is_expired now kv.2 = false) (_cache c)),
   base.size expired).

Definition size (c : CredentialCache) : nat := base.size (_cache c).

(** [get_ttl]: the remaining seconds of an entry that has not expired. *)
Definition get_ttl (now : Q) (key : string) (c : CredentialCache)
  : option Q :=
  match _cache c !! key with
  | None => None
  | Some entry =>
      if is_expired now entry then None else Some (time_to_live now entry)
  end.

End Store.

Arguments CacheEntry : clear implicits.
Arguments CredentialCache : clear implicits.

End Cache.

(** ** Data model ([types.py]) *)

Module Types.

Inductive CredentialStatus : Type := ACTIVE | EXPIRED | REVOKED.

Record IssuerInfo : Type := {
  issuer_id : string;
  name : string;
  issuer_type : option string;
  domain : option string;
  is_verified : bool;
}.

Record PermissionConditions : Type := {
  valid_hours : option (gmap string string);
  valid_days : option (list string);
  max_requests_per_minute : option Z;
  max_requests_per_day : option Z;
  max_records_per_request : option Z;
  allowed_fields : option (list string);
  allowed_regions : option (list string);
  max_transaction_amount : option Q;
  daily_spend_limit : option Q;
  requires_approval : bool;
  approval_webhook : option string;
}.

Record Permission : Type := {
  resource : string;
  actions : list string;
  conditions : option PermissionConditions;
}.

(** An element of [list[str | Permission]]; a [dict] element is the
    [Permission] that the code builds from it. *)
Inductive permission_entry : Type :=
  | PermStr (s : string)
  | PermObj (p : Permission).

(** Instants are seconds on the clock that [time.time()] reads. *)
Record CredentialConstraints : Type := {
  valid_from : Q;
  valid_until : Q;
  allowed_domains : option (list string);
  rate_limit : option Z;
}.

(** The opaque [metadata] dict is left out. *)
Record CredentialPayload : Type := {
  credential_id : string;
  agent_id : string;
  agent_name : string;
  agent_type : option string;
  issuer : IssuerInfo;
  permissions : list permission_entry;
  constraints : CredentialConstraints;
  signature : string;
}.

(** [PermissionPolicyInfo]; its fields [id], [name], [version]. *)
Record PermissionPolicyInfo : Type := {
  policy_id : string;
  policy_name : string;
  policy_version : Z;
}.

Record VerificationResult : Type := {
  valid : bool;
  credential : option CredentialPayload;
  error : option string;
  error_code : option string;
  trust_score : option Z;
  issuer_verified : option bool;
  permission_policy : option PermissionPolicyInfo;
  live_permissions : option bool;
}.

(** [VerificationResult(valid=False, error=..., error_code=...)] *)
Definition rejected (err code : string) : VerificationResult :=
  {| valid := false; credential := None; error := Some err;
     error_code := Some code; trust_score := None; issuer_verified := None;
     permission_policy := None; live_permissions := None |}.

(** What [model_dump()] returns and the cache stores: the dict of a
    verification result or of a credential payload.  Both are non-empty
    dicts, hence truthy. *)
Inductive dump : Type :=
  | DumpVerification (r : VerificationResult)
  | DumpCredential (p : CredentialPayload).

(** Building [VerificationResult] or [CredentialPayload] from a cached
    dict: pydantic rebuilds the model from its own dump and rejects
    the other one. *)
Definition load_verification (d : dump) : result exn VerificationResult :=
  match d with
  | DumpVerification r => Return r
  | DumpCredential _ => Raise ValidationError
  end.

Definition load_credential (d : dump) : result exn CredentialPayload :=
  match d with
  | DumpCredential p => Return p
  | DumpVerification _ => Raise ValidationError
  end.

End Types.

(** ** HTTP exchange with the remote authority ([httpx]) *)

Module Http.

(** The JSON object of a verification response, with the fields of the
    wire contract; a field that is absent or [null] is [None], a field
    that is present has the contract's type. *)
Record ResponseData : Type := {
  d_valid : option bool;
  d_credential : option Types.CredentialPayload;
  d_error : option string;
  d_error_code : option string;
  d_trust_score : option Z;
  d_issuer_verified : option bool;
  d_permission_policy : option Types.PermissionPolicyInfo;
  d_live_permissions : option bool;
}.

(** What [response.json()] does: raise (the text of the exception is
    kept), return a JSON value that is not an object, or return an
    object. *)
Inductive Body : Type :=
  | NotJson (err : string)
  | JsonOther
  | JsonObject (d : ResponseData).

Record Response : Type := {
  status_code : Z;
  retry_after : option string;   (* [response.headers.get("Retry-After")] *)
  body : Body;
}.

(** [response.is_success]: a 2xx status. *)
Definition is_success (r : Response) : bool :=
  (200 <=? status_code r) && (status_code r <=? 299).

(** The outcome of one [httpx.post]: [httpx.RequestError] (with its
    text) or a response. *)
Inductive Outcome : Type :=
  | RequestError (err : string)
  | Responded (r : Response).

(** A request that was sent: [POST url] with [{"credential_id": ...}]. *)
Record Request : Type := {
  url : string;
  credential_id : string;
  authorization : option string;
}.

(** Building [VerificationResult] from the response object: [valid]
    is the one required field. *)
Definition validate (d : ResponseData) : result exn Types.VerificationResult :=
  match d_valid d with
  | None => Raise ValidationError
  | Some v =>
      Return {| Types.valid := v;
                Types.credential := d_credential d;
                Types.error := d_error d;
                Types.error_code := d_error_code d;
                Types.trust_score := d_trust_score d;
                Types.issuer_verified := d_issuer_verified d;
                Types.permission_policy := d_permission_policy d;
                Types.live_permissions := d_live_permissions d |}
  end.

(** [retry_after=int(retry_after) if retry_after else None];
    [int] can raise [ValueError]. *)
Definition rate_limited (r : Response) : exn :=
  match retry_after r with
  | Some (String _ _ as s) =>
      match Py.int s with
      | Some n => RateLimitError "Rate limit exceeded" (Some n)
      | None => ValueError
      end
  | _ => RateLimitError "Rate limit exceeded" None
  end.

End Http.

(** ** [bytes.hex] and [base64.b64encode]

    The two encodings of a digest, on the bits of its bytes. *)

Module Encoding.

(** The number whose binary digits are given, most significant first. *)
Definition of_bits (bs : list bool) : nat :=
  fold_left (λ acc (b : bool), 2 * acc + (if b then 1 else 0))%nat bs 0%nat.

Definition hex_digit (b3 b2 b1 b0 : bool) : ascii :=
  nth (of_bits [b3; b2; b1; b0]) (list_ascii_of_string "0123456789abcdef")
    "0"%char.

(** [b.hex()]: two lower-case digits per byte. *)
Fixpoint hexlify (s : string) : string :=
  match s with
  | EmptyString => EmptyString
  | String (Ascii b0 b1 b2 b3 b4 b5 b6 b7) s' =>
      String (hex_digit b7 b6 b5 b4)
        (String (hex_digit b3 b2 b1 b0) (hexlify s'))
  end.

Definition b64_digit (b5 b4 b3 b2 b1 b0 : bool) : ascii :=
  nth (of_bits [b5; b4; b3; b2; b1; b0])
    (list_ascii_of_string
       "ABCDEFGHIJKLMNOPQRSTUVWXYZabcdefghijklmnopqrstuvwxyz0123456789+/")
    "="%char.

(** [base64.b64encode(b).decode("utf-8")]: three bytes give four digits,
    and a last group of one or two bytes is padded with ["="]. *)
Fixpoint b64encode (s : string) : string :=
  match s with
  | EmptyString => EmptyString
  | String (Ascii a0 a1 a2 a3 a4 a5 a6 a7) EmptyString =>
      String (b64_digit a7 a6 a5 a4 a3 a2)
        (String (b64_digit a1 a0 false false false false) "==")
  | String (Ascii a0 a1 a2 a3 a4 a5 a6 a7)
      (String (Ascii b0 b1 b2 b3 b4 b5 b6 b7) EmptyString) =>
      String (b64_digit a7 a6 a5 a4 a3 a2)
        (String (b64_digit a1 a0 b7 b6 b5 b4)
           (String (b64_digit b3 b2 b1 b0 false false) "="))
  | String (Ascii a0 a1 a2 a3 a4 a5 a6 a7)
      (String (Ascii b0 b1 b2 b3 b4 b5 b6 b7)
         (String (Ascii c0 c1 c2 c3 c4 c5 c6 c7) rest)) =>
      String (b64_digit a7 a6 a5 a4 a3 a2)
        (String (b64_digit a1 a0 b7 b6 b5 b4)
           (String (b64_digit b3 b2 b1 b0 c7 c6)
              (String (b64_digit c5 c4 c3 c2 c1 c0) (b64encode rest))))
  end.

(** The six bits that a Base64 digit stands for, by search in the
    alphabet. *)
Definition sextets : list (list bool) :=
  b5 ← [false; true]; b4 ← [false; true]; b3 ← [false; true];
  b2 ← [false; true]; b1 ← [false; true]; b0 ← [false; true];
  [[b5; b4; b3; b2; b1; b0]].

Definition b64_digit_of (bs : list bool) : ascii :=
  match bs with
  | [b5; b4; b3; b2; b1; b0] => b64_digit b5 b4 b3 b2 b1 b0
  | _ => "="%char
  end.

Definition b64_value (c : ascii) : option (list bool) :=
  List.find (λ bs, Ascii.eqb (b64_digit_of bs) c) sextets.

End Encoding.

(** ** [hashlib.sha256] and [hmac]

    SHA-256 (FIPS 180-4) and HMAC (RFC 2104) on byte strings, written out
    so that signatures can be computed. *)

Module Hashlib.

Local Open Scope N_scope.
Local Open Scope list_scope.

Definition bytes_of_string (s : string) : list N :=
  map N_of_ascii (list_ascii_of_string s).

Definition string_of_bytes (l : list N) : string :=
  string_of_list_ascii (map ascii_of_N l).

Definition mask32 : N := 4294967295.
Definition add32 (x y : N) : N := N.land (x + y) mask32.
Definition rotr (n x : N) : N :=
  N.land (N.lor (N.shiftr x n) (N.shiftl x (32 - n))) mask32.
Definition shr (n x : N) : N := N.shiftr x n.
Definition not32 (x : N) : N := N.lxor x mask32.
Definition xor3 (x y z : N) : N := N.lxor (N.lxor x y) z.

Definition Ch (x y z : N) : N := N.lxor (N.land x y) (N.land (not32 x) z).
Definition Maj (x y z : N) : N := xor3 (N.land x y) (N.land x z) (N.land y z).
Definition Sigma0 (x : N) : N := xor3 (rotr 2 x) (rotr 13 x) (rotr 22 x).
Definition Sigma1 (x : N) : N := xor3 (rotr 6 x) (rotr 11 x) (rotr 25 x).
Definition sigma0 (x : N) : N := xor3 (rotr 7 x) (rotr 18 x) (shr 3 x).
Definition sigma1 (x : N) : N := xor3 (rotr 17 x) (rotr 19 x) (shr 10 x).

Definition is_prime (n : nat) : bool :=
  (1 <? n)%nat && forallb (λ d, negb (n mod d =? 0)%nat) (seq 2 (n - 2)).

Definition primes (count : nat) : list N :=
  map N.of_nat (firstn count (List.filter is_prime (seq 2 400))).

(** The integer cube root, one bit at a time from bit 35 down. *)
Definition icbrt (n : N) : N :=
  fold_left (λ r b, let c := r + N.shiftl 1 b in
                    if c * c * c <=? n then c else r)
    (rev (map N.of_nat (seq 0 36))) 0.

(** The round constants: the first 32 bits of the fractional parts of the
    cube roots of the first 64 primes. *)
Definition K : list N :=
  Eval vm_compute in
    map (λ p, N.land (icbrt (N.shiftl p 96)) mask32) (primes 64).

(** The initial hash value: the same of the square roots of the first 8
    primes. *)
Definition H0 : list N :=
  Eval vm_compute in
    map (λ p, N.land (N.sqrt (N.shiftl p 64)) mask32) (primes 8).

(** The [count] low bytes of [x], most significant first. *)
Definition be_bytes (count : nat) (x : N) : list N :=
  map (λ i, N.land (N.shiftr x (8 * N.of_nat i)) 255) (rev (seq 0 count)).

Definition be_word (bs : list N) : N := fold_left (λ acc b, acc * 256 + b) bs 0.

(** The message, the byte [0x80], zero bytes up to 56 modulo 64, and the
    bit length on eight bytes. *)
Definition pad (msg : list N) : list N :=
  let len := length msg in
  let zeros := ((119 - len mod 64) mod 64)%nat in
  msg ++ [128] ++ repeat 0 zeros ++ be_bytes 8 (8 * N.of_nat len).

Fixpoint chunks (size fuel : nat) (l : list N) : list (list N) :=
  match fuel with
  | O => []
  | S fuel =>
      match l with
      | [] => []
      | _ => firstn size l :: chunks size fuel (skipn size l)
      end
  end.

(** The message schedule, most recent word first. *)
Fixpoint extend (k : nat) (recent : list N) : list N :=
  match k with
  | O => recent
  | S k =>
      let w :=
        add32 (add32 (sigma1 (nth 1 recent 0)) (nth 6 recent 0))
              (add32 (sigma0 (nth 14 recent 0)) (nth 15 recent 0)) in
      extend k (w :: recent)
  end.

Definition schedule (block : list N) : list N :=
  rev (extend 48 (rev (map be_word (chunks 4 16 block)))).

Definition round (st : list N) (kw : N * N) : list N :=
  match st with
  | [a; b; c; d; e; f; g; h] =>
      let t1 := add32 (add32 (add32 (add32 h (Sigma1 e)) (Ch e f g)) kw.1) kw.2 in
      let t2 := add32 (Sigma0 a) (Maj a b c) in
      [add32 t1 t2; a; b; c; add32 d t1; e; f; g]
  | _ => st
  end.

Definition compress (hs : list N) (block : list N) : list N :=
  zip_with add32 hs (fold_left round (combine K (schedule block)) hs).

Definition sha256_bytes (msg : list N) : list N :=
  let padded := pad msg in
  let final := fold_left compress (chunks 64 (length padded) padded) H0 in
  concat (map (be_bytes 4) final).

Definition hmac_bytes (key msg : list N) : list N :=
  let key := if (64 <? length key)%nat then sha256_bytes key else key in
  let key := key ++ repeat 0 (64 - length key)%nat in
  sha256_bytes (map (N.lxor 0x5c) key
                  ++ sha256_bytes (map (N.lxor 0x36) key ++ msg)).

(** [hashlib.sha256(b).digest()] *)
Definition sha256_digest (b : string) : string :=
  string_of_bytes (sha256_bytes (bytes_of_string b)).

(** [hashlib.sha256(b).hexdigest()] *)
Definition sha256_hexdigest (b : string) : string :=
  Encoding.hexlify (sha256_digest b).

(** [hmac.new(key, msg, hashlib.sha256).digest()] *)
Definition hmac_sha256 (key msg : string) : string :=
  string_of_bytes (hmac_bytes (bytes_of_string key) (bytes_of_string msg)).

End Hashlib.

(** ** Request signing ([signature.py]) *)

Module Signature.

(** A request body: [str] or [bytes]; [None] is the absent body. *)
Inductive payload : Type :=
  | Text (s : string)
  | Bytes (b : string).

(** [body.encode("utf-8")] for a [str], the bytes themselves otherwise. *)
Definition to_bytes (b : payload) : string :=
  match b with Text s => s | Bytes b => b end.

(** Truthiness of [str | bytes | None]. *)
Definition body_truthy (body : option payload) : bool :=
  match body with
  | None => false
  | Some b => Py.str_truthy (to_bytes b)
  end.

Definition nl : string := String (ascii_of_nat 10) EmptyString.

(** [RequestSigner]: the credential id and the optional HMAC secret. *)
Record RequestSigner : Type := {
  credential_id : string;
  signing_secret : option string;
}.

Section Primitives.
(** [hashlib.sha256(b).digest()] and
    [hmac.new(key, msg, hashlib.sha256).digest()]. *)
Variable sha256_digest : string -> string.
Variable hmac_sha256 : string -> string -> string.

(** [hashlib.sha256(body).hexdigest()], the digest in hexadecimal. *)
Definition body_hash (body : option payload) : string :=
  match body with
  | Some b =>
      if body_truthy body
      then Encoding.hexlify (sha256_digest (to_bytes b))
      else ""
  | None => ""
  end.

Definition signing_string (method url : string) (body : option payload)
    (timestamp : Z) (credential_id : string) : string :=
  (Py.upper method ++ nl ++ url ++ nl ++ Py.str_of_int timestamp ++ nl
     ++ credential_id ++ nl ++ body_hash body)%string.

Definition generate_request_signature (method url : string)
    (body : option payload) (timestamp : Z) (credential_id : string)
    (secret : option string) : string :=
  let signing_string :=
    signing_string method url body timestamp credential_id in
  let signature :=
    match secret with
    | Some (String _ _ as key) => hmac_sha256 key signing_string
    | _ => sha256_digest signing_string
    end in
  Encoding.b64encode signature.

(** [verify_request_signature]; [now] is the reading of
    [time.time()]. *)
Definition verify_request_signature (now : Q) (signature method url : string)
    (body : option payload) (timestamp : Z) (credential_id : string)
    (secret : option string) (max_age_seconds : Z) : result exn bool :=
  let current_time := Py.int_of_float now in
  if Z.abs (current_time - timestamp) >? max_age_seconds
  then Raise (SignatureError
                ("Request timestamp too old (max age: "
                   ++ Py.str_of_int max_age_seconds ++ "s)")%string)
  else
    let expected :=
      generate_request_signature method url body timestamp credential_id
        secret in
    Py.compare_digest signature expected.

(** [RequestSigner.sign_request]; [now] is the reading of
    [time.time()] and [nonce] the token that [generate_nonce()] draws.
    The result is the dict of the four headers, in insertion order. *)
Definition sign_request (self : RequestSigner) (now : Q) (nonce : string)
    (method url : string) (body : option payload)
  : list (string * string) :=
  let timestamp := Py.int_of_float now in
  let signature :=
    generate_request_signature method url body timestamp
      (credential_id self) (signing_secret self) in
  [ ("X-AgentID-Credential", credential_id self);
    ("X-AgentID-Timestamp", Py.str_of_int timestamp);
    ("X-AgentID-Nonce", nonce);
    ("X-AgentID-Signature", signature) ].

End Primitives.

End Signature.

(** ** Verifier and permission evaluator ([verifier.py]) *)

Module Verifier.

(** The state of a call: the shared cache after it, the requests it sent
    to the remote authority, and what it returned or raised. *)
Record Outcome (A : Type) : Type := mkOutcome {
  cache_after : Cache.CredentialCache Types.dump;
  calls : list Http.Request;
  returned : result exn A;
}.
Arguments mkOutcome {A}.
Arguments cache_after {A}.
Arguments calls {A}.
Arguments returned {A}.

(** [CredentialVerifier]; the cache is shared by reference and is
    threaded through the calls. *)
Record CredentialVerifier : Type := {
  api_base : string;
  cache_ttl : Q;
  verify_signature : bool;
  signature_max_age : Z;
}.

(** The dict comprehension [{k.lower(): v for k, v in headers.items()}]:
    a later header overwrites an earlier one with the same lowered name. *)
Definition normalized (headers : list (string * string)) : gmap string string :=
  foldl (λ m kv, <[Py.lower kv.1 := kv.2]> m) ∅ headers.

Definition _extract_credential_info (headers : list (string * string))
  : option string * option string * option string * option string :=
  let normalized := normalized headers in
  (normalized !! "x-agentid-credential",
   normalized !! "x-agentid-timestamp",
   normalized !! "x-agentid-nonce",
   normalized !! "x-agentid-signature").

Definition _handle_response (response : Http.Response)
  : result exn Types.VerificationResult :=
  if Http.status_code response =? 429
  then Raise (Http.rate_limited response)
  else
    match Http.body response with
    | Http.NotJson e => Raise (AgentIDError ("Invalid response: " ++ e) [])
    | Http.JsonOther => Raise TypeError
    | Http.JsonObject data => Http.validate data
    end.

Definition cache_key (credential_id : string) : string :=
  ("verify:" ++ credential_id)%string.

Definition verify_request_to (self : CredentialVerifier) (credential_id : string)
  : Http.Request :=
  {| Http.url := (api_base self ++ "/verify")%string;
     Http.credential_id := credential_id;
     Http.authorization := None |}.

(** [verify_credential]; [t_get] and [t_set] are the clock readings of
    the cache lookup and of the cache store, [net] the outcome of the
    [httpx.post] if it is reached. *)
Definition verify_credential (self : CredentialVerifier) (t_get t_set : Q)
    (net : Http.Outcome) (credential_id : string) (use_cache : bool)
    (cache : Cache.CredentialCache Types.dump)
  : Outcome Types.VerificationResult :=
  let '(cache, cached) :=
    if use_cache then Cache.get t_get (cache_key credential_id) cache
    else (cache, None) in
  match cached with
  | Some d => mkOutcome cache [] (Types.load_verification d)
  | None =>
      let sent := [verify_request_to self credential_id] in
      match net with
      | Http.RequestError e =>
          mkOutcome cache sent
            (Raise (NetworkError ("Failed to verify credential: " ++ e)))
      | Http.Responded response =>
          match _handle_response response with
          | Raise e => mkOutcome cache sent (Raise e)
          | Return result =>
              let cache :=
                if use_cache && Types.valid result
                then Cache.set t_set (cache_key credential_id)
                       (Types.DumpVerification result) (Some (cache_ttl self))
                       cache
                else cache in
              mkOutcome cache sent (Return result)
          end
      end
  end.

(** [verify_credential_async]: the same steps around an awaited post. *)
Definition verify_credential_async (self : CredentialVerifier) (t_get t_set : Q)
    (net : Http.Outcome) (credential_id : string) (use_cache : bool)
    (cache : Cache.CredentialCache Types.dump)
  : Outcome Types.VerificationResult :=
  let '(cache, cached) :=
    if use_cache then Cache.get t_get (cache_key credential_id) cache
    else (cache, None) in
  match cached with
  | Some d => mkOutcome cache [] (Types.load_verification d)
  | None =>
      let sent := [verify_request_to self credential_id] in
      match net with
      | Http.RequestError e =>
          mkOutcome cache sent
            (Raise (NetworkError ("Failed to verify credential: " ++ e)))
      | Http.Responded response =>
          let result := _handle_response response in
          match result with
          | Raise e => mkOutcome cache sent (Raise e)
          | Return result =>
              if use_cache && Types.valid result
              then mkOutcome
                     (Cache.set t_set (cache_key credential_id)
                        (Types.DumpVerification result)
                        (Some (cache_ttl self)) cache)
                     sent (Return result)
              else mkOutcome cache sent (Return result)
          end
      end
  end.

(** The early [return VerificationResult(...)] of [verify_request]:
    nothing is sent and the cache is not touched. *)
Definition early (cache : Cache.CredentialCache Types.dump)
    (r : Types.VerificationResult) : Outcome Types.VerificationResult :=
  mkOutcome cache [] (Return r).

(** [abs(time.time() - ts) > self.signature_max_age], with [ts] as the
    subtraction converts it. *)
Definition stale (self : CredentialVerifier) (now ts : Q) : bool :=
  negb (Qle_bool (Qabs (now - ts)) (inject_Z (signature_max_age self))).

(** [verify_request]; [now] is the clock reading of the freshness test.
    [method], [url], [body] and the nonce are accepted and not used.  Only
    [ValueError] is caught around the freshness test: the [OverflowError]
    of the subtraction escapes. *)
Definition verify_request (self : CredentialVerifier) (now t_get t_set : Q)
    (net : Http.Outcome) (headers : list (string * string))
    (method url : string) (body : option Signature.payload)
    (cache : Cache.CredentialCache Types.dump)
  : Outcome Types.VerificationResult :=
  let '(credential_id, timestamp, nonce, signature) :=
    _extract_credential_info headers in
  match credential_id with
  | Some (String _ _ as credential_id) =>
      if verify_signature self
      then
        match timestamp, signature with
        | Some (String _ _ as timestamp), Some (String _ _) =>
            match Py.int timestamp with
            | Some ts =>
                match Py.float_of_int ts with
                | Some ts =>
                    if stale self now ts
                    then early cache
                           (Types.rejected "Request signature expired"
                              "SIGNATURE_EXPIRED")
                    else verify_credential self t_get t_set net credential_id
                           true cache
                | None => mkOutcome cache [] (Raise OverflowError)
                end
            | None =>
                early cache
                  (Types.rejected "Invalid timestamp" "INVALID_TIMESTAMP")
            end
        | _, _ =>
            early cache
              (Types.rejected "Missing signature headers" "MISSING_SIGNATURE")
        end
      else verify_credential self t_get t_set net credential_id true cache
  | _ =>
      early cache
        (Types.rejected "Missing X-AgentID-Credential header"
           "MISSING_CREDENTIAL")
  end.

Definition verify_request_async (self : CredentialVerifier) (now t_get t_set : Q)
    (net : Http.Outcome) (headers : list (string * string))
    (method url : string) (body : option Signature.payload)
    (cache : Cache.CredentialCache Types.dump)
  : Outcome Types.VerificationResult :=
  let '(credential_id, timestamp, nonce, signature) :=
    _extract_credential_info headers in
  match credential_id with
  | Some (String _ _ as credential_id) =>
      if verify_signature self
      then
        match timestamp, signature with
        | Some (String _ _ as timestamp), Some (String _ _) =>
            match Py.int timestamp with
            | Some ts =>
                match Py.float_of_int ts with
                | Some ts =>
                    if stale self now ts
                    then early cache
                           (Types.rejected "Request signature expired"
                              "SIGNATURE_EXPIRED")
                    else verify_credential_async self t_get t_set net
                           credential_id true cache
                | None => mkOutcome cache [] (Raise OverflowError)
                end
            | None =>
                early cache
                  (Types.rejected "Invalid timestamp" "INVALID_TIMESTAMP")
            end
        | _, _ =>
            early cache
              (Types.rejected "Missing signature headers" "MISSING_SIGNATURE")
        end
      else verify_credential_async self t_get t_set net credential_id true
             cache
  | _ =>
      early cache
        (Types.rejected "Missing X-AgentID-Credential header"
           "MISSING_CREDENTIAL")
  end.

(** *** [check_permission] *)

(** The returned dict: ["granted"] and, on denial, ["reason"]. *)
Record decision : Type := {
  granted : bool;
  reason : option (list fpart);
}.

Definition grant : decision := {| granted := true; reason := None |}.
Definition deny (why : list fpart) : decision :=
  {| granted := false; reason := Some why |}.

(** The amount test of the conditions block: [Some d] is [return d]. *)
Definition check_amount (conditions : Types.PermissionConditions)
    (context : gmap string pyval) : result exn (option decision) :=
  match Types.max_transaction_amount conditions with
  | Some limit =>
      if Py.float_truthy (Some limit)
      then
        match context !! "amount" with
        | Some amount =>
            if Py.truthy amount
            then
              match Py.gt_float amount limit with
              | Return true =>
                  Return (Some (deny [Lit "Amount "; Fmt amount;
                                      Lit " exceeds limit "; Fmt (PFloat limit)]))
              | Return false => Return None
              | Raise e => Raise e
              end
            else Return None
        | None => Return None
        end
      else Return None
  | None => Return None
  end.

(** The region test of the conditions block. *)
Definition check_region (conditions : Types.PermissionConditions)
    (context : gmap string pyval) : option decision :=
  match Types.allowed_regions conditions with
  | Some allowed =>
      if Py.list_truthy (Some allowed)
      then
        match context !! "region" with
        | Some region =>
            if Py.truthy region && negb (Py.val_in region allowed)
            then Some (deny [Lit "Region "; Fmt region; Lit " not allowed"])
            else None
        | None => None
        end
      else None
  | None => None
  end.

(** The block under [if perm.conditions and context:].  The tests on
    [valid_hours] and [max_requests_per_minute] are [pass] in the source;
    the amount test comes before the region test. *)
Definition check_conditions (conditions : Types.PermissionConditions)
    (context : gmap string pyval) : result exn (option decision) :=
  match check_amount conditions context with
  | Raise e => Raise e
  | Return (Some d) => Return (Some d)
  | Return None => Return (check_region conditions context)
  end.

Section Evaluator.
(** [fnmatch.fnmatch(name, pat)] *)
Variable fnmatch : string -> string -> bool.

(** What a structured permission that applies returns. *)
Definition decide_conditions (perm : Types.Permission)
    (context : option (gmap string pyval)) : result exn decision :=
  match Types.conditions perm, context with
  | Some conditions, Some context =>
      if (size context =? 0)%nat then Return grant
      else
        match check_conditions conditions context with
        | Raise e => Raise e
        | Return (Some d) => Return d
        | Return None => Return grant
        end
  | _, _ => Return grant
  end.

(** The loop of [check_permission] over the permissions in order. *)
Fixpoint check_permission (permissions : list Types.permission_entry)
    (resource action : string) (context : option (gmap string pyval))
  : result exn decision :=
  match permissions with
  | [] =>
      Return (deny [Lit "No permission for "; Fmt (PStr action);
                    Lit " on "; Fmt (PStr resource)])
  | Types.PermStr perm :: rest =>
      if String.eqb perm "*" || String.eqb perm action
      then Return grant
      else check_permission rest resource action context
  | Types.PermObj perm :: rest =>
      if negb (fnmatch resource (Types.resource perm))
      then check_permission rest resource action context
      else if negb (Py.str_in action (Types.actions perm))
              && negb (Py.str_in "*" (Types.actions perm))
      then check_permission rest resource action context
      else decide_conditions perm context
  end.

End Evaluator.

(** A matcher for patterns made of literal characters, [*] (any run of
    characters) and [?] (any one character): [fnmatch] on POSIX for
    patterns without a bracket expression. *)
Fixpoint glob (pat name : string) : bool :=
  match pat with
  | EmptyString => match name with EmptyString => true | _ => false end
  | String c pat' =>
      if Ascii.eqb c "*"
      then
        (fix star (name : string) : bool :=
           glob pat' name
           || match name with
              | EmptyString => false
              | String _ name' => star name'
              end) name
      else
        match name with
        | EmptyString => false
        | String d name' =>
            (Ascii.eqb c "?" || Ascii.eqb c d) && glob pat' name'
        end
  end.

Definition fnmatch_glob (name pat : string) : bool := glob pat name.

End Verifier.

(** ** Credential handle ([credential.py]) *)

Module Credential.

(** [AgentCredential]: configuration and the mutable fields
    [_credential_data], [_last_fetch], [_status]. *)
Record AgentCredential : Type := {
  credential_id : string;
  api_key : option string;
  api_base : string;
  auto_refresh : bool;
  refresh_threshold : Q;
  _signer : Signature.RequestSigner;
  _credential_data : option Types.CredentialPayload;
  _last_fetch : Q;
  _status : option Types.CredentialStatus;
}.

(** [AgentCredential(credential_id, ...)] with the default arguments. *)
Definition new (credential_id : string) (signing_secret : option string)
  : AgentCredential :=
  {| credential_id := credential_id;
     api_key := None;
     api_base := "https://agentid.dev/api";
     auto_refresh := true;
     refresh_threshold := 300;
     _signer := {| Signature.credential_id := credential_id;
                   Signature.signing_secret := signing_secret |};
     _credential_data := None;
     _last_fetch := 0;
     _status := None |}.

Definition with_state (self : AgentCredential)
    (data : option Types.CredentialPayload) (last_fetch : Q)
    (status : option Types.CredentialStatus) : AgentCredential :=
  {| credential_id := credential_id self;
     api_key := api_key self;
     api_base := api_base self;
     auto_refresh := auto_refresh self;
     refresh_threshold := refresh_threshold self;
     _signer := _signer self;
     _credential_data := data;
     _last_fetch := last_fetch;
     _status := status |}.

Definition cache_key (self : AgentCredential) : string :=
  ("credential:" ++ credential_id self)%string.

Definition is_loaded (self : AgentCredential) : bool :=
  match _credential_data self with Some _ => true | None => false end.

(** [time_to_expiry]: [max(0, (valid_until - now).total_seconds())]. *)
Definition time_to_expiry (self : AgentCredential) (now : Q) : Q :=
  match _credential_data self with
  | None => 0
  | Some data =>
      Qmax 0 (Types.valid_until (Types.constraints data) - now)
  end.

(** [needs_refresh]: [time_to_expiry < refresh_threshold]. *)
Definition needs_refresh (self : AgentCredential) (now : Q) : bool :=
  negb (Qle_bool (refresh_threshold self) (time_to_expiry self now)).

Definition is_expired (self : AgentCredential) (now : Q) : bool :=
  match _credential_data self with
  | None => true
  | Some data => Qle_bool (Types.valid_until (Types.constraints data)) now
  end.

Definition is_active (self : AgentCredential) (now : Q) : bool :=
  match _status self with
  | Some Types.ACTIVE => negb (is_expired self now)
  | _ => false
  end.

(** The request of [_fetch_credential_sync]: the bearer token is added
    when an API key is set. *)
Definition fetch_request (self : AgentCredential) : Http.Request :=
  {| Http.url := (api_base self ++ "/verify")%string;
     Http.credential_id := credential_id self;
     Http.authorization :=
       match api_key self with
       | Some (String _ _ as key) => Some ("Bearer " ++ key)%string
       | _ => None
       end |}.

Definition _handle_verify_response (self : AgentCredential)
    (response : Http.Response) : result exn Types.VerificationResult :=
  if Http.status_code response =? 429
  then Raise (Http.rate_limited response)
  else if Http.status_code response =? 401
  then Raise (AuthenticationError "Invalid API key")
  else
    match Http.body response with
    | Http.NotJson e =>
        Raise (AgentIDError ("Invalid response from API: " ++ e) [])
    | Http.JsonOther =>
        if Http.status_code response =? 404
        then Raise (CredentialNotFoundError
                      ("Credential not found: " ++ credential_id self))
        else Raise AttributeError
    | Http.JsonObject data =>
        if (Http.status_code response =? 404)
           || bool_decide (Http.d_error_code data = Some "CREDENTIAL_NOT_FOUND")
        then Raise (CredentialNotFoundError
                      ("Credential not found: " ++ credential_id self))
        else if negb (Http.is_success response)
        then Raise (AgentIDError (default "Unknown error" (Http.d_error data))
                      [("error_code", Http.d_error_code data)])
        else Http.validate data
    end.

(** [_fetch_credential_sync] and [_fetch_credential_async]. *)
Definition _fetch_credential (self : AgentCredential) (net : Http.Outcome)
  : result exn Types.VerificationResult :=
  match net with
  | Http.RequestError e =>
      Raise (NetworkError ("Failed to connect to AgentID API: " ++ e))
  | Http.Responded response => _handle_verify_response self response
  end.

(** [x or fallback] for an optional string. *)
Definition or_else (x : option string) (fallback : string) : string :=
  match x with Some (String _ _ as s) => s | _ => fallback end.

(** [_update_from_result]: the handle and the cache after the call, and
    the exception if one is raised; [now] is the clock reading. *)
Definition _update_from_result (self : AgentCredential) (now : Q)
    (result : Types.VerificationResult)
    (cache : Cache.CredentialCache Types.dump)
  : AgentCredential * Cache.CredentialCache Types.dump * option exn :=
  if negb (Types.valid result)
  then
    if bool_decide (Types.error_code result = Some "CREDENTIAL_EXPIRED")
    then (with_state self (_credential_data self) (_last_fetch self)
            (Some Types.EXPIRED),
          cache,
          Some (CredentialExpiredError
                  (or_else (Types.error result) "Credential expired")))
    else if bool_decide (Types.error_code result = Some "CREDENTIAL_REVOKED")
    then (with_state self (_credential_data self) (_last_fetch self)
            (Some Types.REVOKED),
          cache,
          Some (CredentialRevokedError
                  (or_else (Types.error result) "Credential revoked")))
    else (self, cache,
          Some (CredentialInvalidError
                  (or_else (Types.error result) "Credential invalid")))
  else
    let self := with_state self (Types.credential result) now
                  (Some Types.ACTIVE) in
    match _credential_data self with
    | Some data =>
        let ttl := Qmin (time_to_expiry self now) 3600 in
        (self,
         Cache.set now (cache_key self) (Types.DumpCredential data) (Some ttl)
           cache,
         None)
    | None => (self, cache, None)
    end.

(** The state of a [load]: the handle and the shared cache after it, the
    requests sent, and what it returned or raised. *)
Record Outcome : Type := mkOutcome {
  self_after : AgentCredential;
  cache_after : Cache.CredentialCache Types.dump;
  calls : list Http.Request;
  returned : result exn Types.CredentialPayload;
}.

(** The part of [load] after the cache: fetch, update, return. *)
Definition fetch_and_update (self : AgentCredential) (t_upd : Q)
    (net : Http.Outcome) (cache : Cache.CredentialCache Types.dump) : Outcome :=
  let sent := [fetch_request self] in
  match _fetch_credential self net with
  | Raise e => mkOutcome self cache sent (Raise e)
  | Return result =>
      let '(self, cache, raised) := _update_from_result self t_upd result cache in
      match raised with
      | Some e => mkOutcome self cache sent (Raise e)
      | None =>
          match _credential_data self with
          | None =>
              mkOutcome self cache sent
                (Raise (CredentialInvalidError "No credential data returned"))
          | Some data => mkOutcome self cache sent (Return data)
          end
      end
  end.

(** [load] and [load_async]; [t_get] is the clock reading while the cache
    is consulted, [t_upd] the reading after the response. *)
Definition load (self : AgentCredential) (t_get t_upd : Q)
    (net : Http.Outcome) (force : bool)
    (cache : Cache.CredentialCache Types.dump) : Outcome :=
  if force then fetch_and_update self t_upd net cache
  else
    let '(cache, cached) := Cache.get t_get (cache_key self) cache in
    match cached with
    | Some d =>
        match Types.load_credential d with
        | Raise e => mkOutcome self cache [] (Raise e)
        | Return data =>
            let self := with_state self (Some data) (_last_fetch self)
                          (Some Types.ACTIVE) in
            if negb (needs_refresh self t_get)
            then mkOutcome self cache [] (Return data)
            else fetch_and_update self t_upd net cache
        end
    | None => fetch_and_update self t_upd net cache
    end.

Definition load_async := load.

(** [get_headers]: the headers of [self._signer.sign_request]; the two
    digests are those of [Signature]. *)
Definition get_headers (sha256_digest : string -> string)
    (hmac_sha256 : string -> string -> string) (self : AgentCredential)
    (now : Q) (nonce method url : string) (body : option Signature.payload)
  : list (string * string) :=
  Signature.sign_request sha256_digest hmac_sha256 (_signer self) now nonce
    method url body.

End Credential.

(** ** Revocation watch ([revocation.py]): the event handler *)

Module Revocation.

Record RevocationEvent : Type := {
  credential_id : string;
  revoked_at : string;
  reason : option string;
}.

(** The part of [RevocationSubscriber] that the event handler uses: the
    revoked set and the callback, whose exceptions are swallowed. *)
Record RevocationSubscriber : Type := {
  on_revocation : option (RevocationEvent -> result exn unit);
  _revoked_credentials : gset string;
}.

Definition is_revoked (self : RevocationSubscriber) (credential_id : string)
  : bool :=
  bool_decide (credential_id ∈ _revoked_credentials self).

(** [_handle_revocation_event]: record the id, delete the two cache
    keys, notify the callback and ignore what it raises. *)
Definition _handle_revocation_event (self : RevocationSubscriber)
    (event : RevocationEvent) (cache : Cache.CredentialCache Types.dump)
  : RevocationSubscriber * Cache.CredentialCache Types.dump :=
  let self :=
    {| on_revocation := on_revocation self;
       _revoked_credentials :=
         {[ credential_id event ]} ∪ _revoked_credentials self |} in
  let cache := (Cache.delete ("verify:" ++ credential_id event) cache).1 in
  let cache := (Cache.delete ("cred:" ++ credential_id event) cache).1 in
  let _ :=
    match on_revocation self with
    | Some callback =>
        match callback event with Return _ => tt | Raise _ => tt end
    | None => tt
    end in
  (self, cache).

End Revocation.

(** ** [str] methods with an argument *)

Module Str.

(** [s.startswith(prefix)] *)
Definition startswith (prefix s : string) : bool := String.prefix prefix s.

(** [s.lstrip(c)] and [s.rstrip(c)] for a one-character argument. *)
Fixpoint lstrip (c : ascii) (s : string) : string :=
  match s with
  | EmptyString => EmptyString
  | String d s' => if Ascii.eqb d c then lstrip c s' else s
  end.

Fixpoint rstrip (c : ascii) (s : string) : string :=
  match s with
  | EmptyString => EmptyString
  | String d s' =>
      match rstrip c s' with
      | EmptyString => if Ascii.eqb d c then EmptyString else String d EmptyString
      | r => String d r
      end
  end.

End Str.

(** ** Revocation watch ([revocation.py]): connection state and polling *)

Module Watch.

Inductive ConnectionState : Type :=
  | DISCONNECTED
  | CONNECTING
  | CONNECTED
  | RECONNECTING.

(** [RevocationSubscriber] with the fields that polling and the
    connection state use; [handler] holds those of the event handler. *)
Record RevocationSubscriber : Type := {
  handler : Revocation.RevocationSubscriber;
  api_base : string;
  credential_ids : gset string;
  on_connection_change : option (bool -> result exn unit);
  _state : ConnectionState;
  _last_revocation_check : Q;
}.

Definition with_state (self : RevocationSubscriber) (state : ConnectionState)
  : RevocationSubscriber :=
  {| handler := handler self; api_base := api_base self;
     credential_ids := credential_ids self;
     on_connection_change := on_connection_change self;
     _state := state;
     _last_revocation_check := _last_revocation_check self |}.


(** [state == ConnectionState.CONNECTED] *)
Definition connected (state : ConnectionState) : bool :=
  match state with CONNECTED => true | _ => false end.

Definition is_connected (self : RevocationSubscriber) : bool :=
  connected (_state self).

(** [_set_state]: the subscriber after the call and the arguments with
    which [on_connection_change] was called; what the callback raises is
    swallowed. *)
Definition _set_state (self : RevocationSubscriber) (state : ConnectionState)
  : RevocationSubscriber * list bool :=
  let was_connected := connected (_state self) in
  let self := with_state self state in
  let is_now_connected := connected state in
  if negb (Bool.eqb was_connected is_now_connected)
  then
    match on_connection_change self with
    | Some callback =>
        let _ := match callback is_now_connected with
                 | Return _ => tt
                 | Raise _ => tt
                 end in
        (self, [is_now_connected])
    | None => (self, [])
    end
  else (self, []).

(** An element of the ["revocations"] list of a poll response: a JSON
    object whose fields, where present, are strings; [None] is a field
    that is absent. *)
Record RawRevocation : Type := {
  raw_credential_id : option string;
  raw_revoked_at : option string;
  raw_reason : option string;
}.

(** What [response.json()] does on a poll response: raise, return a value
    that is not an object, or return an object, of which the
    ["revocations"] list is read ([None]: the key is absent). *)
Inductive Body : Type :=
  | NotJson (err : string)
  | JsonOther
  | JsonObject (revocations : option (list RawRevocation)).

(** The outcome of [httpx.get]: an exception (with its text) or a
    response. *)
Inductive Outcome : Type :=
  | RequestError (err : string)
  | Responded (status_code : Z) (body : Body).

(** The request of a poll: [GET url] with the query parameters. *)
Record Request : Type := {
  url : string;
  since : string;
  ids : option (gset string);
}.






End Watch.

(** ** HTTP client wrapper ([client.py]) *)

Module Client.

Record AgentClient : Type := {
  credential : Credential.AgentCredential;
  base_url : option string;
  timeout : Q;
}.

(** [_build_url]: an absolute URL is kept; a path is joined to the base
    URL with one slash; without base URL the path is kept. *)
Definition _build_url (self : AgentClient) (path : string) : string :=
  if Str.startswith "http://" path || Str.startswith "https://" path
  then path
  else
    match base_url self with
    | Some (String _ _ as base) =>
        (Str.rstrip "/" base ++ "/" ++ Str.lstrip "/" path)%string
    | _ => path
    end.

End Client.

(** ** FastAPI middleware and dependencies ([integrations/fastapi.py]) *)

Module FastApi.

(** What the middleware reads of a request. *)
Record Request : Type := {
  path : string;
  method : string;
  url : string;
  headers : list (string * string);
  body : string;
}.

(** [AgentIDConfig]; a policy returns its verdict or raises, and the
    text of what it raises is kept. *)
Record AgentIDConfig : Type := {
  required : bool;
  min_trust_score : option Z;
  required_permissions : list string;
  exclude_paths : list string;
  policy : option (Types.CredentialPayload -> Request -> result string bool);
  api_base : option string;
  cache_ttl : Q;
  verify_signature : bool;
  signature_max_age : Z;
}.

(** The verifier that [AgentIDMiddleware.__init__] builds; the
    constructor strips the slashes at the end of the base URL. *)
Definition verifier_of (config : AgentIDConfig) : Verifier.CredentialVerifier :=
  {| Verifier.api_base :=
       Str.rstrip "/"
         match api_base config with
         | Some (String _ _ as base) => base
         | _ => "https://agentid.dev/api"
         end;
     Verifier.cache_ttl := cache_ttl config;
     Verifier.verify_signature := verify_signature config;
     Verifier.signature_max_age := signature_max_age config |}.

(** A value of the JSON content of a response. *)
Inductive value : Type :=
  | VStr (s : string)
  | VInt (z : Z)
  | VNone
  | VText (f : list fpart).

(** [request.state]: the attributes that the middleware sets and the
    dependencies read with [getattr(..., None)]. *)
Record State : Type := {
  _agentid_verification : option Types.VerificationResult;
  _agentid_credential : option Types.CredentialPayload;
}.

(** What [dispatch] answers: the answer of the application to the
    request with its state, or a JSON response of its own. *)
Inductive Response : Type :=
  | CallNext (state : State)
  | JSONResponse (status_code : Z) (content : list (string * value)).

(** [str(e)] for an [AgentIDError] or one of its subclasses; [None] for
    the other exceptions. *)
Definition agentid_error (e : exn) : option string :=
  match e with
  | AgentIDError m _ | CredentialNotFoundError m | CredentialExpiredError m
  | CredentialRevokedError m | CredentialInvalidError m
  | AuthenticationError m | RateLimitError m _ | NetworkError m
  | SignatureError m => Some m
  | ValueError | TypeError | AttributeError | OverflowError
  | ValidationError => None
  end.

(** [_is_excluded] *)
Definition _is_excluded (config : AgentIDConfig) (path : string) : bool :=
  existsb (λ excluded,
             String.eqb path excluded
             || Str.startswith (Str.rstrip "/" excluded ++ "/") path)
    (exclude_paths config).

Definition opt_int (o : option Z) : value :=
  match o with Some z => VInt z | None => VNone end.

Definition opt_text (o : option (list fpart)) : value :=
  match o with Some f => VText f | None => VNone end.

Section Checks.
(** [fnmatch.fnmatch(name, pat)] *)
Variable fnmatch : string -> string -> bool.

(** The loop over the required permissions: the first one that
    [check_permission] does not grant, with the decision. *)
Fixpoint first_denied (permissions : list Types.permission_entry)
    (resource : string) (required : list string)
  : result exn (option (string * Verifier.decision)) :=
  match required with
  | [] => Return None
  | permission :: rest =>
      match Verifier.check_permission fnmatch permissions resource permission
              None with
      | Raise e => Raise e
      | Return allowed =>
          if negb (Verifier.granted allowed)
          then Return (Some (permission, allowed))
          else first_denied permissions resource rest
      end
  end.

Definition permission_denied (denied : string * Verifier.decision)
  : list (string * value) :=
  [ ("error", VStr "Permission denied"); ("code", VStr "PERMISSION_DENIED");
    ("required", VStr denied.1);
    ("reason", opt_text (Verifier.reason denied.2)) ].

Definition insufficient_trust (required : Z) (actual : option Z)
  : list (string * value) :=
  [ ("error", VStr "Insufficient trust score");
    ("code", VStr "INSUFFICIENT_TRUST_SCORE");
    ("required", VInt required); ("actual", opt_int actual) ].

(** [trust_score is None or trust_score < minimum] *)
Definition below (trust_score : option Z) (minimum : Z) : bool :=
  match trust_score with
  | None => true
  | Some score => score <? minimum
  end.

(** The part of [dispatch] after the verification: the checks on a
    result, in the order of the source. *)
Definition enforce (config : AgentIDConfig) (request : Request)
    (verified : Types.VerificationResult) : result exn Response :=
  if negb (Types.valid verified)
  then
    if required config
    then Return
           (JSONResponse 401
              [ ("error",
                 VStr (Credential.or_else (Types.error verified)
                         "Invalid credential"));
                ("code",
                 VStr (Credential.or_else (Types.error_code verified)
                         "INVALID_CREDENTIAL")) ])
    else Return (CallNext {| _agentid_verification := Some verified;
                             _agentid_credential := None |})
  else
    let state := {| _agentid_verification := Some verified;
                    _agentid_credential := Types.credential verified |} in
    let low :=
      match min_trust_score config with
      | Some minimum =>
          if below (Types.trust_score verified) minimum
          then Some minimum else None
      | None => None
      end in
    match low with
    | Some minimum =>
        Return
          (JSONResponse 403
             (insufficient_trust minimum (Types.trust_score verified)))
    | None =>
        let denied :=
          match required_permissions config, Types.credential verified with
          | _ :: _, Some credential =>
              first_denied (Types.permissions credential) (path request)
                (required_permissions config)
          | _, _ => Return None
          end in
        match denied with
        | Raise e => Raise e
        | Return (Some d) => Return (JSONResponse 403 (permission_denied d))
        | Return None =>
            match policy config, Types.credential verified with
            | Some policy, Some credential =>
                match policy credential request with
                | Return allowed =>
                    if negb allowed
                    then Return
                           (JSONResponse 403
                              [ ("error", VStr "Policy denied");
                                ("code", VStr "POLICY_DENIED") ])
                    else Return (CallNext state)
                | Raise text =>
                    Return
                      (JSONResponse 500
                         [ ("error", VStr ("Policy error: " ++ text));
                           ("code", VStr "POLICY_ERROR") ])
                end
            | _, _ => Return (CallNext state)
            end
        end
    end.

(** [AgentIDMiddleware.dispatch]; the clock readings and the network
    outcome are those of the verification. *)
Definition dispatch (config : AgentIDConfig) (now t_get t_set : Q)
    (net : Http.Outcome) (request : Request)
    (cache : Cache.CredentialCache Types.dump) : Verifier.Outcome Response :=
  if _is_excluded config (path request)
  then Verifier.mkOutcome cache []
         (Return (CallNext {| _agentid_verification := None;
                              _agentid_credential := None |}))
  else
    let body :=
      if Py.str_in (method request) ["POST"; "PUT"; "PATCH"]
      then Some (Signature.Bytes (body request)) else None in
    let out :=
      Verifier.verify_request_async (verifier_of config) now t_get t_set net
        (headers request) (method request) (url request) body cache in
    let answer :=
      match Verifier.returned out with
      | Return verified => enforce config request verified
      | Raise e =>
          match agentid_error e with
          | Some text =>
              if required config
              then Return
                     (JSONResponse 500
                        [ ("error", VStr text);
                          ("code", VStr "INTERNAL_ERROR") ])
              else enforce config request
                     {| Types.valid := false; Types.credential := None;
                        Types.error := Some text; Types.error_code := None;
                        Types.trust_score := None;
                        Types.issuer_verified := None;
                        Types.permission_policy := None;
                        Types.live_permissions := None |}
          | None => Raise e
          end
      end in
    Verifier.mkOutcome (Verifier.cache_after out) (Verifier.calls out) answer.

(** An [HTTPException] with its status and detail. *)
Record HTTPException : Type := {
  status_code : Z;
  detail : list (string * value);
}.

Definition no_credential : HTTPException :=
  {| status_code := 401;
     detail := [ ("error", VStr "No credential");
                 ("code", VStr "NO_CREDENTIAL") ] |}.

(** The dependency of [require_credential(min_trust_score)]: the
    credential, or the [HTTPException] raised. *)
Definition require_credential (min_trust_score : option Z) (state : State)
  : result HTTPException Types.CredentialPayload :=
  match _agentid_credential state with
  | None => Raise no_credential
  | Some credential =>
      match min_trust_score with
      | Some minimum =>
          let trust_score :=
            match _agentid_verification state with
            | Some verification => Types.trust_score verification
            | None => None
            end in
          if below trust_score minimum
          then Raise {| status_code := 403;
                        detail := insufficient_trust minimum trust_score |}
          else Return credential
      | None => Return credential
      end
  end.

(** [require_trust_score(min_score)] *)
Definition require_trust_score (min_score : Z) :=
  require_credential (Some min_score).

(** The dependency of [require_permission] for the permissions given;
    the outer result is an exception of [check_permission]. *)
Definition require_permission (permissions : list string) (state : State)
    (path : string)
  : result exn (result HTTPException Types.CredentialPayload) :=
  match _agentid_credential state with
  | None => Return (Raise no_credential)
  | Some credential =>
      match first_denied (Types.permissions credential) path permissions with
      | Raise e => Raise e
      | Return (Some d) =>
          Return (Raise {| status_code := 403;
                           detail := permission_denied d |})
      | Return None => Return (Return credential)
      end
  end.

(** The dependency of [require_verified_issuer()]. *)
Definition require_verified_issuer (state : State)
  : result HTTPException Types.CredentialPayload :=
  match _agentid_credential state with
  | None => Raise no_credential
  | Some credential =>
      if negb (Types.is_verified (Types.issuer credential))
      then Raise {| status_code := 403;
                    detail :=
                      [ ("error", VStr "Issuer not verified");
                        ("code", VStr "ISSUER_NOT_VERIFIED");
                        ("issuer",
                         VStr (Types.name (Types.issuer credential))) ] |}
      else Return credential
  end.

End Checks.

End FastApi.

(** ** Vocabulary of the statements *)

Module Spec.



(** Two header maps with the same names in the same order, whose values
    agree everywhere except under the signature name, where both values
    are non-empty. *)
Definition differ_only_in_signature (h1 h2 : list (string * string)) : Prop :=
  Forall2 (λ kv1 kv2,
             kv1.1 = kv2.1
             ∧ if decide (Py.lower kv1.1 = "x-agentid-signature")
               then kv1.2 ≠ "" ∧ kv2.2 ≠ ""
               else kv1.2 = kv2.2) h1 h2.

(** Two normalized header dicts that agree outside the signature name and
    are both truthy or both falsy under it. *)
Definition agree_up_to_signature (m1 m2 : gmap string string) : Prop :=
  (∀ name, name ≠ "x-agentid-signature" -> m1 !! name = m2 !! name)
  ∧ Py.opt_truthy (m1 !! "x-agentid-signature")
    = Py.opt_truthy (m2 !! "x-agentid-signature").

(** [f] does not collide on the pair [x], [y]. *)
Definition collision_free {A B : Type} (f : A -> B) (x y : A) : Prop :=
  x ≠ y -> f x ≠ f y.

(** The digest that signs a signing string: HMAC-SHA256 under a non-empty
    secret, plain SHA-256 otherwise. *)
Definition mac (sha256_digest : string -> string)
    (hmac_sha256 : string -> string -> string)
    (secret : option string) (signing_string : string) : string :=
  match secret with
  | Some (String _ _ as key) => hmac_sha256 key signing_string
  | _ => sha256_digest signing_string
  end.

(** One call of [verify_credential] or [verify_credential_async], with
    the clock readings and the network outcome it meets. *)
Record call : Type := {
  is_async : bool;
  credential_id : string;
  use_cache : bool;
  t_get : Q;
  t_set : Q;
  net : Http.Outcome;
}.

Definition exec (self : Verifier.CredentialVerifier) (k : call)
    (cache : Cache.CredentialCache Types.dump)
  : Verifier.Outcome Types.VerificationResult :=
  if is_async k
  then Verifier.verify_credential_async self (t_get k) (t_set k) (net k)
         (credential_id k) (use_cache k) cache
  else Verifier.verify_credential self (t_get k) (t_set k) (net k)
         (credential_id k) (use_cache k) cache.

(** The cache after a sequence of calls. *)
Definition run (self : Verifier.CredentialVerifier) (ks : list call)
    (cache : Cache.CredentialCache Types.dump)
  : Cache.CredentialCache Types.dump :=
  foldl (λ c k, Verifier.cache_after (exec self k c)) cache ks.

(** An entry written by the verifier: the dump of a result with
    [valid=True], expiring [ttl] seconds after it was created. *)
Definition verified_entry (ttl : Q) (e : Cache.CacheEntry Types.dump) : Prop :=
  ∃ r, Cache.value e = Types.DumpVerification r
       ∧ Types.valid r = true
       ∧ Cache.expires_at e = (Cache.created_at e + ttl)%Q.

End Spec.

(** ** Vocabulary of the permission statements *)

Module PermSpec.

(** A structured permission applies when the resource matches its pattern
    and the action is among its actions or covered by ["*"]. *)
Definition applies (fnmatch : string -> string -> bool)
    (perm : Types.Permission) (resource action : string) : bool :=
  fnmatch resource (Types.resource perm)
  && (Py.str_in action (Types.actions perm)
      || Py.str_in "*" (Types.actions perm)).

(** An entry that the loop passes over: a string that is neither ["*"] nor
    the action, or a structured permission that does not apply. *)
Definition skipped (fnmatch : string -> string -> bool)
    (resource action : string) (entry : Types.permission_entry) : bool :=
  match entry with
  | Types.PermStr s => negb (String.eqb s "*" || String.eqb s action)
  | Types.PermObj p => negb (applies fnmatch p resource action)
  end.

(** What the entry that stops the loop returns. *)
Definition verdict (entry : Types.permission_entry)
    (context : option (gmap string pyval)) : result exn Verifier.decision :=
  match entry with
  | Types.PermStr _ => Return Verifier.grant
  | Types.PermObj p => Verifier.decide_conditions p context
  end.

(** The denial that ends an exhausted list. *)
Definition no_permission (resource action : string) : Verifier.decision :=
  Verifier.deny [Lit "No permission for "; Fmt (PStr action);
                 Lit " on "; Fmt (PStr resource)].


Definition with_conditions (p : Types.Permission)
    (c : option Types.PermissionConditions) : Types.Permission :=
  {| Types.resource := Types.resource p;
     Types.actions := Types.actions p;
     Types.conditions := c |}.

(** Conditions with only an amount limit and a region allow-list. *)
Definition conditions (limit : option Q) (regions : option (list string))
  : Types.PermissionConditions :=
  {| Types.valid_hours := None; Types.valid_days := None;
     Types.max_requests_per_minute := None;
     Types.max_requests_per_day := None;
     Types.max_records_per_request := None;
     Types.allowed_fields := None;
     Types.allowed_regions := regions;
     Types.max_transaction_amount := limit;
     Types.daily_spend_limit := None;
     Types.requires_approval := false;
     Types.approval_webhook := None |}.

End PermSpec.

(** ** Vocabulary of the signing statements *)

Module SignSpec.

(** A text without a line feed, the separator of the signing string. *)
Definition one_line (s : string) : bool :=
  forallb (λ c, negb (Ascii.eqb c (ascii_of_nat 10))) (list_ascii_of_string s).

(** Two methods that differ in the case of their letters at most. *)
Definition same_method (m1 m2 : string) : Prop := Py.upper m1 = Py.upper m2.

(** Two bodies with the same bytes, or both empty or absent. *)
Definition same_body (b1 b2 : option Signature.payload) : Prop :=
  (Signature.body_truthy b1 = false ∧ Signature.body_truthy b2 = false)
  ∨ ∃ x y, b1 = Some x ∧ b2 = Some y
           ∧ Signature.to_bytes x = Signature.to_bytes y.

(** Two secrets that are equal, or both empty or absent. *)
Definition same_secret (s1 s2 : option string) : Prop :=
  s1 = s2 ∨ (Py.opt_truthy s1 = false ∧ Py.opt_truthy s2 = false).

End SignSpec.

(** ** Vocabulary of the revocation watch statements *)

Module WatchSpec.

(** The subscriber after a sequence of [_set_state] calls, and the
    notifications that [on_connection_change] received, in order. *)
Fixpoint set_states (self : Watch.RevocationSubscriber)
    (states : list Watch.ConnectionState)
  : Watch.RevocationSubscriber * list bool :=
  match states with
  | [] => (self, [])
  | state :: rest =>
      let '(self, first) := Watch._set_state self state in
      let '(self, later) := set_states self rest in
      (self, (first ++ later)%list)
  end.

(** A list of booleans that starts with the negation of [previous] and
    in which every element is the negation of the one before it. *)
Fixpoint alternates (previous : bool) (notes : list bool) : Prop :=
  match notes with
  | [] => True
  | note :: rest => note = negb previous ∧ alternates note rest
  end.




End WatchSpec.

(** ** Vocabulary of the client and middleware statements *)

Module WebSpec.

(** A URL that [_build_url] takes as absolute. *)
Definition absolute (path : string) : bool :=
  Str.startswith "http://" path || Str.startswith "https://" path.

(** [AgentClient(credential_id, base_url=base_url)] *)
Definition client (credential_id : string) (base_url : option string)
  : Client.AgentClient :=
  {| Client.credential := Credential.new credential_id None;
     Client.base_url := base_url;
     Client.timeout := 30 |}.

(** [AgentIDConfig(...)] with the given requirements and paths, no policy
    and the default verifier options, signature checks apart. *)
Definition config (required : bool) (min_trust_score : option Z)
    (required_permissions exclude_paths : list string) (verify_signature : bool)
  : FastApi.AgentIDConfig :=
  {| FastApi.required := required;
     FastApi.min_trust_score := min_trust_score;
     FastApi.required_permissions := required_permissions;
     FastApi.exclude_paths := exclude_paths;
     FastApi.policy := None;
     FastApi.api_base := None;
     FastApi.cache_ttl := 300;
     FastApi.verify_signature := verify_signature;
     FastApi.signature_max_age := 300 |}.

(** The verification that [dispatch] runs on a request. *)
Definition verification (config : FastApi.AgentIDConfig) (now t_get t_set : Q)
    (net : Http.Outcome) (request : FastApi.Request)
    (cache : Cache.CredentialCache Types.dump)
  : Verifier.Outcome Types.VerificationResult :=
  Verifier.verify_request_async (FastApi.verifier_of config) now t_get t_set
    net (FastApi.headers request) (FastApi.method request)
    (FastApi.url request)
    (if Py.str_in (FastApi.method request) ["POST"; "PUT"; "PATCH"]
     then Some (Signature.Bytes (FastApi.body request)) else None)
    cache.

(** [check_permission] grants the permission on the path. *)
Definition granted (fnmatch : string -> string -> bool)
    (credential : Types.CredentialPayload) (path permission : string) : Prop :=
  ∃ d, Verifier.check_permission fnmatch (Types.permissions credential) path
         permission None = Return d
       ∧ Verifier.granted d = true.

End WebSpec.

(** ** Concrete inputs used by the examples *)

Module Samples.

(** [CredentialVerifier()] with its default arguments. *)
Definition verifier : Verifier.CredentialVerifier :=
  {| Verifier.api_base := "https://agentid.dev/api";
     Verifier.cache_ttl := 300;
     Verifier.verify_signature := true;
     Verifier.signature_max_age := 300 |}.

(** [CredentialCache()] *)
Definition empty_cache : Cache.CredentialCache Types.dump := Cache.new 300.

Definition issuer : Types.IssuerInfo :=
  {| Types.issuer_id := "issuer_123"; Types.name := "Test Issuer";
     Types.issuer_type := None; Types.domain := None;
     Types.is_verified := true |}.

(** The payload of credential [cred_X], valid for thirty days from the
    clock reading [1700000000]. *)
Definition payload : Types.CredentialPayload :=
  {| Types.credential_id := "cred_X"; Types.agent_id := "agent_123";
     Types.agent_name := "Test Agent"; Types.agent_type := Some "assistant";
     Types.issuer := issuer;
     Types.permissions := [Types.PermStr "read"; Types.PermStr "write"];
     Types.constraints :=
       {| Types.valid_from := 1700000000; Types.valid_until := 1702592000;
          Types.allowed_domains := None; Types.rate_limit := None |};
     Types.signature := "test_signature" |}.

(** A [200] response [{"valid": true, "credential": {...}, "trust_score": 85}]. *)
Definition ok_response : Http.Response :=
  {| Http.status_code := 200; Http.retry_after := None;
     Http.body :=
       Http.JsonObject
         {| Http.d_valid := Some true; Http.d_credential := Some payload;
            Http.d_error := None; Http.d_error_code := None;
            Http.d_trust_score := Some 85; Http.d_issuer_verified := None;
            Http.d_permission_policy := None;
            Http.d_live_permissions := None |} |}.


(** The structured permissions of the tests. *)
Definition users_read : Types.Permission :=
  {| Types.resource := "https://api.example.com/users/*";
     Types.actions := ["read"]; Types.conditions := None |}.

Definition admin_read_write : Types.Permission :=
  {| Types.resource := "https://api.example.com/admin/*";
     Types.actions := ["read"; "write"]; Types.conditions := None |}.

(** Payments up to [10000], from the regions [US] and [EU]. *)
Definition payments : Types.Permission :=
  {| Types.resource := "https://api.example.com/payments/*";
     Types.actions := ["write"];
     Types.conditions :=
       Some (PermSpec.conditions (Some 10000%Q) (Some ["US"; "EU"])) |}.

(** A response with a JSON object that reports a failure. *)
Definition failure_response (status : Z) (err code : option string)
  : Http.Response :=
  {| Http.status_code := status; Http.retry_after := None;
     Http.body :=
       Http.JsonObject
         {| Http.d_valid := Some false; Http.d_credential := None;
            Http.d_error := err; Http.d_error_code := code;
            Http.d_trust_score := None; Http.d_issuer_verified := None;
            Http.d_permission_policy := None;
            Http.d_live_permissions := None |} |}.

(** [AgentCredential("cred_X")] *)
Definition handle : Credential.AgentCredential := Credential.new "cred_X" None.

(** [RevocationSubscriber()] before any event. *)
Definition subscriber : Revocation.RevocationSubscriber :=
  {| Revocation.on_revocation := None;
     Revocation._revoked_credentials := ∅ |}.

Definition revocation_of_cred_X : Revocation.RevocationEvent :=
  {| Revocation.credential_id := "cred_X";
     Revocation.revoked_at := "2023-11-14T22:15:00Z";
     Revocation.reason := None |}.

(** [RequestSigner("cred_test", signing_secret="secret")] *)
Definition signer : Signature.RequestSigner :=
  {| Signature.credential_id := "cred_test";
     Signature.signing_secret := Some "secret" |}.

(** [sign_request] and [verify_request_signature] on [hashlib] and
    [hmac]. *)
Definition sign_request :=
  Signature.sign_request Hashlib.sha256_digest Hashlib.hmac_sha256.

Definition generate_request_signature :=
  Signature.generate_request_signature Hashlib.sha256_digest
    Hashlib.hmac_sha256.

Definition verify_request_signature :=
  Signature.verify_request_signature Hashlib.sha256_digest
    Hashlib.hmac_sha256.

(** The text [sig_é]: its last character is the two bytes [C3 A9]. *)
Definition non_ascii_signature : string :=
  ("sig_" ++ String (ascii_of_nat 195) (String (ascii_of_nat 169) ""))%string.

(** The decimal text of [10 ** 400]. *)
Definition huge_timestamp : string :=
  String "1" (string_of_list_ascii (repeat "0"%char 400)).

End Samples.

(** * Properties *)

(** ** Python built-ins *)

Lemma append_empty_r (s : string) : (s ++ "")%string = s.
Proof.
  induction s as [|c s IH]; [done|].
  change (String c (s ++ "")%string = String c s). by rewrite IH.
Qed.

Lemma append_inj_l (p s1 s2 : string) :
  (p ++ s1)%string = (p ++ s2)%string -> s1 = s2.
Proof.
  induction p as [|c p IH]; [done|].
  change ((String c p ++ s1)%string) with (String c (p ++ s1)%string).
  change ((String c p ++ s2)%string) with (String c (p ++ s2)%string).
  intros [= H]. by apply IH.
Qed.

Section IntOfStr.

Local Open Scope string_scope.

Local Abbreviation only_digits := Py.only_digits.

Lemma only_digits_cons c s :
  only_digits (String c s) <-> Py.is_digit c = true ∧ only_digits s.
Proof.
  unfold Py.only_digits. simpl. split.
  - by inversion 1.
  - intros [Hc Hs]. by constructor.
Qed.

Lemma string_of_uint_digits d : only_digits (NilEmpty.string_of_uint d).
Proof.
  induction d; simpl; first [ by constructor | by apply only_digits_cons ].
Qed.

Lemma string_of_uint_nonempty d :
  d ≠ Decimal.Nil -> NilEmpty.string_of_uint d ≠ "".
Proof. by destruct d. Qed.

Lemma digit_not_space c : Py.is_digit c = true -> Py.is_space c = false.
Proof. destruct c as [[] [] [] [] [] [] [] []]; by vm_compute. Qed.

Lemma lstrip_digits s : only_digits s -> Py.lstrip s = s.
Proof.
  destruct s as [|c s]; [done|]. intros [Hc _]%only_digits_cons.
  simpl. by rewrite (digit_not_space c Hc).
Qed.

Lemma rstrip_digits s : only_digits s -> Py.rstrip s = s.
Proof.
  induction s as [|c s IH]; [done|]. intros [Hc Hs]%only_digits_cons.
  simpl. rewrite (IH Hs). destruct s; [|done].
  by rewrite (digit_not_space c Hc).
Qed.

Lemma digits_of_digits s b :
  only_digits s -> (b = true ∨ s ≠ "") -> Py.digits b s = Some s.
Proof.
  revert b. induction s as [|c s IH]; intros b Hs Hb.
  - destruct Hb as [->|]; done.
  - apply only_digits_cons in Hs as [Hc Hs]. simpl. rewrite Hc.
    rewrite (IH true Hs); [done | by left].
Qed.

Lemma unsigned_of_uint d :
  d ≠ Decimal.Nil ->
  Py.unsigned (NilEmpty.string_of_uint d) = Some (Z.of_uint d).
Proof.
  intros Hd. unfold Py.unsigned.
  rewrite digits_of_digits;
    [| apply string_of_uint_digits | right; by apply string_of_uint_nonempty].
  simpl. by rewrite NilEmpty.usu.
Qed.

Lemma digit_is_ascii c : Py.is_digit c = true -> (Py.code c <? 128)%Z = true.
Proof. destruct c as [[] [] [] [] [] [] [] []]; by vm_compute. Qed.

Lemma is_ascii_cons c s :
  Py.is_ascii (String c s) = (Py.code c <? 128)%Z && Py.is_ascii s.
Proof. reflexivity. Qed.

Lemma is_ascii_digits s : only_digits s -> Py.is_ascii s = true.
Proof.
  induction s as [|c s IH]; [done|]. intros [Hc Hs]%only_digits_cons.
  by rewrite is_ascii_cons, (digit_is_ascii c Hc), IH.
Qed.

(** [int] takes an ASCII text as it is. *)
Lemma int_ascii s : Py.is_ascii s = true -> Py.int s = Py.parse_int s.
Proof. intros H. unfold Py.int, Py.ascii_decimal. by rewrite H. Qed.

Lemma int_of_digits s :
  only_digits s -> s ≠ "" -> Py.int s = Py.unsigned s.
Proof.
  intros Hs Hne. rewrite int_ascii by by apply is_ascii_digits.
  unfold Py.parse_int. rewrite (lstrip_digits s Hs), (rstrip_digits s Hs).
  destruct s as [|c s]; [done|]. apply only_digits_cons in Hs as [Hc _].
  destruct c as [[] [] [] [] [] [] [] []]; try reflexivity; discriminate Hc.
Qed.

Lemma int_of_minus_digits s :
  only_digits s -> s ≠ "" -> Py.int (String "-" s) = Z.opp <$> Py.unsigned s.
Proof.
  intros Hs Hne. rewrite int_ascii
    by (rewrite is_ascii_cons; by rewrite is_ascii_digits).
  unfold Py.parse_int.
  change (Py.lstrip (String "-" s)) with (String "-" s).
  change (Py.rstrip (String "-" s))
    with (match Py.rstrip s with
          | EmptyString => String "-" EmptyString
          | r => String "-" r
          end).
  rewrite (rstrip_digits s Hs). by destruct s.
Qed.

(** [int(str(n)) == n] for every [int]. *)
Lemma int_str_of_int z : Py.int (Py.str_of_int z) = Some z.
Proof.
  unfold Py.str_of_int. destruct z as [|p|p]; [reflexivity| |].
  - simpl. pose proof (DecimalPos.Unsigned.to_uint_nonnil p) as Hnil.
    assert (Hs : NilZero.string_of_uint (Pos.to_uint p)
                 = NilEmpty.string_of_uint (Pos.to_uint p))
      by by destruct (Pos.to_uint p).
    rewrite Hs, int_of_digits, unsigned_of_uint;
      [| done | apply string_of_uint_digits | by apply string_of_uint_nonempty].
    unfold Z.of_uint. by rewrite DecimalPos.Unsigned.of_to.
  - simpl. pose proof (DecimalPos.Unsigned.to_uint_nonnil p) as Hnil.
    assert (Hs : NilZero.string_of_uint (Pos.to_uint p)
                 = NilEmpty.string_of_uint (Pos.to_uint p))
      by by destruct (Pos.to_uint p).
    rewrite Hs, int_of_minus_digits, unsigned_of_uint;
      [| done | apply string_of_uint_digits | by apply string_of_uint_nonempty].
    unfold Z.of_uint. by rewrite DecimalPos.Unsigned.of_to.
Qed.

End IntOfStr.

(** [int] on decimal literals and on strings that it rejects. *)
Example int_accepts :
  Py.int "1_000" = Some 1000 ∧ Py.int " 12 " = Some 12 ∧ Py.int "+5" = Some 5
  ∧ Py.int "-0" = Some 0 ∧ Py.int "00" = Some 0 ∧ Py.int "0_0" = Some 0
  ∧ Py.int (String (ascii_of_nat 11) "12") = Some 12
  ∧ Py.int "1699999400" = Some 1699999400.
Proof. vm_compute. repeat split. Qed.

Example int_rejects :
  Py.int "" = None ∧ Py.int "-" = None ∧ Py.int "0x10" = None
  ∧ Py.int "1__0" = None ∧ Py.int "_1" = None ∧ Py.int "1_" = None
  ∧ Py.int "+ 1" = None ∧ Py.int "1.5" = None ∧ Py.int "--1" = None
  ∧ Py.int "1 2" = None ∧ Py.int "not_a_number" = None
  ∧ Py.int (String (ascii_of_nat 28) "12") = None.
Proof. vm_compute. repeat split. Qed.

(** ** The cache *)

Section CacheFacts.
Context {V : Type}.
Implicit Types (c : Cache.CredentialCache V) (e : Cache.CacheEntry V).

Lemma is_expired_true now e :
  Cache.is_expired now e = true <-> (Cache.expires_at e <= now)%Q.
Proof. unfold Cache.is_expired. apply Qle_bool_iff. Qed.

Lemma is_expired_false now e :
  Cache.is_expired now e = false <-> (now < Cache.expires_at e)%Q.
Proof.
  rewrite <- not_true_iff_false, is_expired_true. split.
  - apply Qnot_le_lt.
  - apply Qlt_not_le.
Qed.

Lemma get_miss now k c :
  Cache._cache c !! k = None -> Cache.get now k c = (c, None).
Proof. intros H. unfold Cache.get. by rewrite H. Qed.

Lemma get_fresh now k c e :
  Cache._cache c !! k = Some e -> (now < Cache.expires_at e)%Q ->
  Cache.get now k c = (c, Some (Cache.value e)).
Proof.
  intros H Hlt. unfold Cache.get. rewrite H.
  by apply is_expired_false in Hlt as ->.
Qed.

Lemma get_expired now k c e :
  Cache._cache c !! k = Some e -> (Cache.expires_at e <= now)%Q ->
  Cache.get now k c = (Cache.with_store c (delete k (Cache._cache c)), None).
Proof.
  intros H Hle. unfold Cache.get. rewrite H.
  by apply is_expired_true in Hle as ->.
Qed.

Lemma set_lookup now k v ttl c :
  Cache._cache (Cache.set now k v ttl c) !! k
  = Some (Cache.mkEntry v
            (now + match ttl with None => Cache._default_ttl c | Some t => t end)
            now).
Proof. unfold Cache.set. simpl. apply lookup_insert_eq. Qed.

Lemma set_lookup_ne now k k' v ttl c :
  k ≠ k' ->
  Cache._cache (Cache.set now k v ttl c) !! k' = Cache._cache c !! k'.
Proof. intros H. unfold Cache.set. simpl. by apply lookup_insert_ne. Qed.

(** A value that was stored is read back at every clock reading before
    its expiry. *)
Lemma get_set_before_expiry now k v t c t' :
  (t' < now + t)%Q ->
  Cache.get t' k (Cache.set now k v (Some t) c)
  = (Cache.set now k v (Some t) c, Some v).
Proof.
  intros Hlt.
  pose proof (set_lookup now k v (Some t) c) as Hk.
  by rewrite (get_fresh _ _ _ _ Hk).
Qed.

Lemma get_store_subseteq now k c :
  Cache._cache (Cache.get now k c).1 ⊆ Cache._cache c.
Proof.
  unfold Cache.get. destruct (Cache._cache c !! k) as [e|] eqn:Hk; [|done].
  destruct (Cache.is_expired now e); simpl; [apply delete_subseteq | done].
Qed.

Lemma get_default_ttl now k c :
  Cache._default_ttl (Cache.get now k c).1 = Cache._default_ttl c.
Proof.
  unfold Cache.get. destruct (Cache._cache c !! k) as [e|]; [|done].
  by destruct (Cache.is_expired now e).
Qed.

End CacheFacts.



(** ** The encodings of a digest *)

Lemma hex_digit_inj a b c d a' b' c' d' :
  Encoding.hex_digit a b c d = Encoding.hex_digit a' b' c' d' ->
  a = a' ∧ b = b' ∧ c = c' ∧ d = d'.
Proof.
  destruct a, b, c, d, a', b', c', d'; intros H;
    first [ discriminate H | done ].
Qed.

Lemma b64_value_digit a b c d e f :
  Encoding.b64_value (Encoding.b64_digit a b c d e f)
  = Some [a; b; c; d; e; f].
Proof. destruct a, b, c, d, e, f; vm_compute; reflexivity. Qed.

Lemma b64_digit_inj a b c d e f a' b' c' d' e' f' :
  Encoding.b64_digit a b c d e f = Encoding.b64_digit a' b' c' d' e' f' ->
  a = a' ∧ b = b' ∧ c = c' ∧ d = d' ∧ e = e' ∧ f = f'.
Proof.
  intros H. apply (f_equal Encoding.b64_value) in H.
  rewrite !b64_value_digit in H.
  by injection H as -> -> -> -> -> ->.
Qed.

Lemma b64_digit_not_pad a b c d e f :
  Encoding.b64_digit a b c d e f ≠ "="%char.
Proof. destruct a, b, c, d, e, f; discriminate. Qed.

(** Induction on a string three characters at a time. *)
Lemma string_ind3 (P : string -> Prop) :
  P "" ->
  (∀ a, P (String a "")) ->
  (∀ a b, P (String a (String b ""))) ->
  (∀ a b c s, P s -> P (String a (String b (String c s)))) ->
  ∀ s, P s.
Proof.
  intros H0 H1 H2 H3 s.
  assert (P s ∧ (∀ a, P (String a s)) ∧ (∀ a b, P (String a (String b s))))
    as H.
  { induction s as [|c s (IH0 & IH1 & IH2)]; [by auto|].
    split; [apply IH1|]. split; [intros a; apply IH2|].
    intros a b. by apply H3. }
  apply H.
Qed.

(** Equal encodings, digit by digit. *)
Ltac digits :=
  repeat match goal with
         | H : String _ _ = String _ _ |- _ => injection H as ? H
         | H : Encoding.b64_digit _ _ _ _ _ _ = "="%char |- _ =>
             by apply b64_digit_not_pad in H
         | H : "="%char = Encoding.b64_digit _ _ _ _ _ _ |- _ =>
             by apply eq_sym, b64_digit_not_pad in H
         | H : Encoding.b64_digit _ _ _ _ _ _
               = Encoding.b64_digit _ _ _ _ _ _ |- _ =>
             apply b64_digit_inj in H; destruct H as (? & ? & ? & ? & ? & ?)
         | H : Encoding.hex_digit _ _ _ _ = Encoding.hex_digit _ _ _ _ |- _ =>
             apply hex_digit_inj in H; destruct H as (? & ? & ? & ?)
         end.

(** Base64 loses nothing: two byte strings with the same encoding are
    equal. *)
Lemma b64encode_inj s1 s2 :
  Encoding.b64encode s1 = Encoding.b64encode s2 -> s1 = s2.
Proof.
  revert s2. pattern s1. revert s1. apply string_ind3.
  1: intros [|x [|y [|z s2]]].
  5: intros a [|x [|y [|z s2]]].
  9: intros a b [|x [|y [|z s2]]].
  13: intros a b c s1 IH [|x [|y [|z s2]]].
  all: repeat match goal with c : ascii |- _ => destruct c end; simpl;
    intros H; try done; digits; subst; try done.
  f_equal. f_equal. f_equal. by apply IH.
Qed.

(** Nor does the hexadecimal form. *)
Lemma hexlify_inj s1 s2 :
  Encoding.hexlify s1 = Encoding.hexlify s2 -> s1 = s2.
Proof.
  revert s2. induction s1 as [|x s1 IH]; intros [|y s2];
    try destruct x; try destruct y; simpl; intros H; try done.
  digits. subst. f_equal. by apply IH.
Qed.

(** ** Request signing *)

(** Digests of [hashlib] and [hmac] on reference inputs, in hexadecimal
    and in Base64. *)
Example sha256_abc :
  Hashlib.sha256_hexdigest "abc"
  = "ba7816bf8f01cfea414140de5dae2223b00361a396177a9cb410ff61f20015ad".
Proof. vm_compute. reflexivity. Qed.

Example sha256_empty :
  Hashlib.sha256_hexdigest ""
  = "e3b0c44298fc1c149afbf4c8996fb92427ae41e4649b934ca495991b7852b855".
Proof. vm_compute. reflexivity. Qed.

Example sha256_two_blocks :
  Hashlib.sha256_hexdigest
    "aaaaaaaaaaaaaaaaaaaaaaaaaaaaaaaaaaaaaaaaaaaaaaaaaaaaaaaaaaaaaaaa"
  = "ffe054fe7ae0cb6dc65c3af9b61d5209f439851db43d0ba5997337df154668eb".
Proof. vm_compute. reflexivity. Qed.

Example sha256_55_bytes :
  Hashlib.sha256_hexdigest
    "aaaaaaaaaaaaaaaaaaaaaaaaaaaaaaaaaaaaaaaaaaaaaaaaaaaaaaa"
  = "9f4390f8d30c2dd92ec9f095b65e2b9ae9b0a925a5258e241c9f1e910f734318".
Proof. vm_compute. reflexivity. Qed.

Example sha256_56_bytes :
  Hashlib.sha256_hexdigest
    "aaaaaaaaaaaaaaaaaaaaaaaaaaaaaaaaaaaaaaaaaaaaaaaaaaaaaaaa"
  = "b35439a4ac6f0948b6d6f9e3c6af0f5f590ce20f1bde7090ef7970686ec6738a".
Proof. vm_compute. reflexivity. Qed.

Example hmac_secret_hello :
  Encoding.b64encode (Hashlib.hmac_sha256 "secret" "hello")
  = "iKqz7ejTrflNJquQ07r9SiCDBww7zOnAFO4EpEOEfAs=".
Proof. vm_compute. reflexivity. Qed.

Example hmac_long_key :
  Encoding.b64encode
    (Hashlib.hmac_sha256
       "kkkkkkkkkkkkkkkkkkkkkkkkkkkkkkkkkkkkkkkkkkkkkkkkkkkkkkkkkkkkkkkkkkkkkk"
       "hello")
  = "c0c/k31MGB7WqofOl9bbfccy4Z3UPmDIq37jrtLZ9LA=".
Proof. vm_compute. reflexivity. Qed.

Example b64_padding :
  Encoding.b64encode "a" = "YQ==" ∧ Encoding.b64encode "ab" = "YWI="
  ∧ Encoding.b64encode "abc" = "YWJj"
  ∧ Encoding.b64encode "abcd" = "YWJjZA==".
Proof. vm_compute. repeat split. Qed.

Example hexlify_abc : Encoding.hexlify "abc" = "616263".
Proof. reflexivity. Qed.

Lemma b64_digit_ascii a b c d e f :
  (Py.code (Encoding.b64_digit a b c d e f) <? 128) = true.
Proof. destruct a, b, c, d, e, f; reflexivity. Qed.

(** A Base64 text is ASCII. *)
Lemma b64encode_ascii s : Py.is_ascii (Encoding.b64encode s) = true.
Proof.
  pattern s. revert s. apply string_ind3.
  - reflexivity.
  - intros [a0 a1 a2 a3 a4 a5 a6 a7]. simpl Encoding.b64encode.
    by rewrite !is_ascii_cons, !b64_digit_ascii.
  - intros [a0 a1 a2 a3 a4 a5 a6 a7] [b0 b1 b2 b3 b4 b5 b6 b7].
    simpl Encoding.b64encode. by rewrite !is_ascii_cons, !b64_digit_ascii.
  - intros [a0 a1 a2 a3 a4 a5 a6 a7] [b0 b1 b2 b3 b4 b5 b6 b7]
      [c0 c1 c2 c3 c4 c5 c6 c7] s IH.
    simpl Encoding.b64encode. by rewrite !is_ascii_cons, !b64_digit_ascii, IH.
Qed.

Lemma compare_digest_ascii a b :
  Py.is_ascii b = true ->
  Py.compare_digest a b
  = if Py.is_ascii a then Return (String.eqb a b) else Raise TypeError.
Proof.
  intros Hb. unfold Py.compare_digest. rewrite Hb.
  by destruct (Py.is_ascii a).
Qed.

Section SignatureFacts.
Variable sha256_digest : string -> string.
Variable hmac_sha256 : string -> string -> string.

Local Abbreviation generate :=
  (Signature.generate_request_signature sha256_digest hmac_sha256).
Local Abbreviation verify :=
  (Signature.verify_request_signature sha256_digest hmac_sha256).

Lemma generate_mac method url body timestamp credential_id secret :
  generate method url body timestamp credential_id secret
  = Encoding.b64encode
      (Spec.mac sha256_digest hmac_sha256 secret
         (Signature.signing_string sha256_digest method url body timestamp
            credential_id)).
Proof. reflexivity. Qed.

Lemma generate_ascii method url body timestamp credential_id secret :
  Py.is_ascii (generate method url body timestamp credential_id secret) = true.
Proof. apply b64encode_ascii. Qed.

(** A fresh timestamp: the comparison of the signature with the expected
    one, which is ASCII. *)
Lemma verify_fresh_ascii now signature method url body timestamp credential_id
    secret max_age :
  Z.abs (Py.int_of_float now - timestamp) <= max_age ->
  verify now signature method url body timestamp credential_id secret max_age
  = if Py.is_ascii signature
    then Return (String.eqb signature
                   (generate method url body timestamp credential_id secret))
    else Raise TypeError.
Proof.
  intros Hfresh. unfold Signature.verify_request_signature.
  destruct (Z.abs (Py.int_of_float now - timestamp) >? max_age) eqn:Hgt.
  - apply Z.gtb_gt in Hgt. lia.
  - apply compare_digest_ascii, generate_ascii.
Qed.


Lemma verify_fresh now signature method url body timestamp credential_id secret
    max_age :
  Z.abs (Py.int_of_float now - timestamp) <= max_age ->
  verify now signature method url body timestamp credential_id secret max_age
  = Py.compare_digest signature
      (generate method url body timestamp credential_id secret).
Proof.
  intros Hfresh. unfold Signature.verify_request_signature.
  destruct (Z.abs (Py.int_of_float now - timestamp) >? max_age) eqn:Hgt; [|done].
  apply Z.gtb_gt in Hgt. lia.
Qed.

(** Two signing strings that differ only in the body are equal only when
    the two body hashes are. *)
Lemma signing_string_inj method url body1 body2 timestamp credential_id :
  Signature.signing_string sha256_digest method url body1 timestamp
    credential_id
  = Signature.signing_string sha256_digest method url body2 timestamp
      credential_id ->
  Signature.body_hash sha256_digest body1
  = Signature.body_hash sha256_digest body2.
Proof.
  unfold Signature.signing_string. intros H.
  repeat apply append_inj_l in H. exact H.
Qed.

End SignatureFacts.



(** C4, the claim as stated fails: on a fresh timestamp, a supplied
    signature with a character that is not ASCII does not give [False]
    but the [TypeError] of [hmac.compare_digest]. *)
Lemma verify_request_signature_non_ascii :
  let answer :=
    Samples.verify_request_signature 1234567900 Samples.non_ascii_signature
      "GET" "https://api.example.com/data" None 1234567890 "cred_test"
      (Some "secret") 300 in
  Z.abs (Py.int_of_float 1234567900 - 1234567890) <= 300
  ∧ Py.is_ascii Samples.non_ascii_signature = false
  ∧ answer = Raise TypeError
  ∧ (∀ b, answer ≠ Return b)
  ∧ ∀ message, answer ≠ Raise (SignatureError message).
Proof.
  intros answer.
  assert (Hanswer : answer = Raise TypeError) by (vm_compute; reflexivity).
  split; [vm_compute; discriminate|]. split; [reflexivity|].
  split; [exact Hanswer|]. rewrite Hanswer. by split.
Qed.

(** Staleness is tested on whole seconds: a request that is 300.9 seconds
    old passes a maximal age of 300. *)
Example staleness_is_tested_on_whole_seconds :
  Samples.verify_request_signature (12345681909 # 10) "wrong_signature" "GET"
    "https://api.example.com/data" None 1234567890 "cred_test"
    (Some "secret") 300
  = Return false.
Proof. vm_compute. reflexivity. Qed.

(** C3.  The four headers of [RequestSigner.sign_request] carry the
    credential id, the decimal timestamp, the nonce and the signature, and
    [verify_request_signature] accepts that signature for the same method,
    URL, body and secret, the timestamp read back from the header, and any
    clock reading within the freshness window.  With a non-empty body
    altered into another non-empty body, it returns false, as long as
    SHA-256 does not collide on the two bodies and the signing digest
    (HMAC-SHA256 under the secret, SHA-256 without one) does not collide on
    the two signing strings. *)
Theorem sign_request_roundtrip
    (sha256_digest : string -> string)
    (hmac_sha256 : string -> string -> string)
    (signer : Signature.RequestSigner) (now : Q) (nonce method url : string)
    (body : option Signature.payload) (later : Q) (max_age_seconds : Z) :
  let headers :=
    Signature.sign_request sha256_digest hmac_sha256 signer now nonce
      method url body in
  let verify signature body timestamp :=
    Signature.verify_request_signature sha256_digest hmac_sha256 later
      signature method url body timestamp (Signature.credential_id signer)
      (Signature.signing_secret signer) max_age_seconds in
  Z.abs (Py.int_of_float later - Py.int_of_float now) <= max_age_seconds ->
  ∃ timestamp_text signature timestamp,
    headers = [ ("X-AgentID-Credential", Signature.credential_id signer);
                ("X-AgentID-Timestamp", timestamp_text);
                ("X-AgentID-Nonce", nonce);
                ("X-AgentID-Signature", signature) ]
    ∧ Verifier._extract_credential_info headers
      = (Some (Signature.credential_id signer), Some timestamp_text,
         Some nonce, Some signature)
    ∧ Py.int timestamp_text = Some timestamp
    ∧ verify signature body timestamp = Return true
    ∧ ∀ b b',
        body = Some b ->
        Signature.body_truthy (Some b) = true ->
        Signature.body_truthy (Some b') = true ->
        Signature.to_bytes b' ≠ Signature.to_bytes b ->
        Spec.collision_free sha256_digest
          (Signature.to_bytes b) (Signature.to_bytes b') ->
        Spec.collision_free
          (Spec.mac sha256_digest hmac_sha256
             (Signature.signing_secret signer))
          (Signature.signing_string sha256_digest method url (Some b)
             timestamp (Signature.credential_id signer))
          (Signature.signing_string sha256_digest method url (Some b')
             timestamp (Signature.credential_id signer)) ->
        verify signature (Some b') timestamp = Return false.
Proof.
  intros headers verify Hfresh.
  exists (Py.str_of_int (Py.int_of_float now)).
  exists (Signature.generate_request_signature sha256_digest hmac_sha256
            method url body (Py.int_of_float now)
            (Signature.credential_id signer) (Signature.signing_secret signer)).
  exists (Py.int_of_float now).
  split; [reflexivity|]. split; [reflexivity|].
  split; [apply int_str_of_int|]. split.
  - subst verify. simpl. rewrite verify_fresh_ascii by done.
    by rewrite generate_ascii, String.eqb_refl.
  - intros b b' -> Hb Hb' Haltered Hsha Hmac.
    subst verify. simpl. rewrite verify_fresh_ascii by done.
    rewrite generate_ascii. f_equal.
    apply String.eqb_neq. rewrite !generate_mac.
    intros Hsame%b64encode_inj. revert Hsame. apply Hmac.
    intros Hsame%signing_string_inj.
    unfold Signature.body_hash in Hsame. rewrite Hb, Hb' in Hsame.
    apply hexlify_inj in Hsame. by apply Hsha in Hsame.
Qed.

(** C3 with SHA-256 and HMAC computed: the signed headers of a
    request, their acceptance 110 seconds later, and the rejection of the
    same signature for a body with one byte changed. *)
Lemma sign_request_roundtrip_witness :
  let body := Some (Signature.Text "amount=100&to=alice") in
  let altered := Some (Signature.Text "amount=900&to=alice") in
  let signature := "pzhXu/8brf4GliNNGssO/xkt8Ye/XhFAr+tixFcz+G4=" in
  Samples.sign_request Samples.signer 1234567890 "Zm9vYmFy" "post"
    "https://api.example.com/data" body
  = [ ("X-AgentID-Credential", "cred_test");
      ("X-AgentID-Timestamp", "1234567890");
      ("X-AgentID-Nonce", "Zm9vYmFy");
      ("X-AgentID-Signature", signature) ]
  ∧ Samples.verify_request_signature 1234568000 signature "post"
      "https://api.example.com/data" body 1234567890 "cred_test"
      (Some "secret") 300
    = Return true
  ∧ Samples.verify_request_signature 1234568000 signature "post"
      "https://api.example.com/data" altered 1234567890 "cred_test"
      (Some "secret") 300
    = Return false.
Proof.
  intros body altered signature.
  destruct (sign_request_roundtrip Hashlib.sha256_digest
              Hashlib.hmac_sha256
              Samples.signer 1234567890 "Zm9vYmFy" "post"
              "https://api.example.com/data" body 1234568000 300)
    as (text & sig & timestamp & Hheaders & _ & Hint & Haccept & Htamper).
  - vm_compute. discriminate.
  - vm_compute in Hheaders. injection Hheaders as <- <-.
    vm_compute in Hint. injection Hint as <-.
    split; [|split].
    + vm_compute. reflexivity.
    + exact Haccept.
    + apply (Htamper (Signature.Text "amount=100&to=alice")
               (Signature.Text "amount=900&to=alice")).
      * reflexivity.
      * reflexivity.
      * reflexivity.
      * discriminate.
      * intros _. vm_compute. discriminate.
      * intros _. vm_compute. discriminate.
Defined.

(** The signatures that the SDK computes on these inputs. *)
Example signature_with_secret :
  Samples.generate_request_signature "post" "https://api.example.com/data"
    (Some (Signature.Text "amount=100&to=alice")) 1234567890 "cred_test"
    (Some "secret")
  = "pzhXu/8brf4GliNNGssO/xkt8Ye/XhFAr+tixFcz+G4=".
Proof. vm_compute. reflexivity. Qed.

Example signature_without_secret :
  Samples.generate_request_signature "GET" "https://api.example.com/data"
    None 1234567890 "cred_test" None
  = "ziLlw/7X3su9bdz0MgAN8JGlYlyGHoNbNZSAQeiC0S0=".
Proof. vm_compute. reflexivity. Qed.

Example signature_of_altered_body :
  Samples.generate_request_signature "post" "https://api.example.com/data"
    (Some (Signature.Text "amount=900&to=alice")) 1234567890 "cred_test"
    (Some "secret")
  = "CyAMLXT1AO5bhWq0uCRqusqTIW0LC/PXaqg/LAnD8K0=".
Proof. vm_compute. reflexivity. Qed.

(** ** The verifier: local checks of [verify_request] *)

Section VerifyRequestFacts.
Implicit Types (self : Verifier.CredentialVerifier).
Implicit Types (headers : list (string * string)).
Implicit Types (cache : Cache.CredentialCache Types.dump).

Lemma verify_credential_async_eq self t_get t_set net id use_cache cache :
  Verifier.verify_credential_async self t_get t_set net id use_cache cache
  = Verifier.verify_credential self t_get t_set net id use_cache cache.
Proof.
  unfold Verifier.verify_credential_async, Verifier.verify_credential.
  destruct (if use_cache then _ else _) as [c1 [d|]]; [reflexivity|].
  destruct net as [e|response]; [reflexivity|].
  destruct (Verifier._handle_response response) as [r|e]; [|reflexivity].
  by destruct (use_cache && Types.valid r).
Qed.

Lemma verify_request_async_eq self now t_get t_set net headers method url body cache :
  Verifier.verify_request_async self now t_get t_set net headers method url body cache
  = Verifier.verify_request self now t_get t_set net headers method url body cache.
Proof.
  unfold Verifier.verify_request_async, Verifier.verify_request.
  destruct (Verifier._extract_credential_info headers) as [[[cid ts] nonce] sig].
  by repeat (first [ rewrite verify_credential_async_eq | case_match ]).
Qed.



Lemma float_of_int_fits n :
  Z.abs n < Py.float_limit -> Py.float_of_int n = Some (inject_Z n).
Proof.
  intros Hfits. unfold Py.float_of_int.
  by rewrite (proj2 (Z.ltb_lt _ _) Hfits).
Qed.



End VerifyRequestFacts.

(** The cases of [tests/test_verifier.py] on header extraction. *)
Example test_extract_credential_info :
  Verifier._extract_credential_info
    [ ("X-AgentID-Credential", "cred_123");
      ("X-AgentID-Timestamp", "1234567890");
      ("X-AgentID-Nonce", "abc123");
      ("X-AgentID-Signature", "sig_xyz");
      ("Content-Type", "application/json") ]
  = (Some "cred_123", Some "1234567890", Some "abc123", Some "sig_xyz").
Proof. vm_compute. reflexivity. Qed.

Example test_extract_credential_info_case_insensitive :
  Verifier._extract_credential_info
    [ ("x-agentid-credential", "cred_123");
      ("x-agentid-timestamp", "1234567890") ]
  = (Some "cred_123", Some "1234567890", None, None).
Proof. vm_compute. reflexivity. Qed.




(** A timestamp of 401 digits is an [int] too large for the subtraction
    from the clock reading: [verify_request] raises [OverflowError]. *)
Example verify_request_huge_timestamp :
  Verifier.returned
    (Verifier.verify_request Samples.verifier 1700000000 1700000000 1700000000
       (Http.Responded Samples.ok_response)
       [ ("X-AgentID-Credential", "cred_123");
         ("X-AgentID-Timestamp", Samples.huge_timestamp);
         ("X-AgentID-Signature", "sig_abc") ]
       "GET" "https://api.example.com/data" None Samples.empty_cache)
  = Raise OverflowError.
Proof. vm_compute. reflexivity. Qed.

(** ** The verifier: the signature value is not examined *)

Section SignatureValue.

Lemma foldl_agree_up_to_signature h1 h2 (m1 m2 : gmap string string) :
  Spec.differ_only_in_signature h1 h2 ->
  Spec.agree_up_to_signature m1 m2 ->
  Spec.agree_up_to_signature
    (foldl (λ m kv, <[Py.lower kv.1 := kv.2]> m) m1 h1)
    (foldl (λ m kv, <[Py.lower kv.1 := kv.2]> m) m2 h2).
Proof.
  intros Hdiff. revert m1 m2.
  induction Hdiff as [|[k1 v1] [k2 v2] h1 h2 [Hk Hv] _ IH]; intros m1 m2 [Hne Hsig];
    [by split|].
  simpl in *. subst k2. apply IH. split.
  - intros name Hname.
    destruct (decide (Py.lower k1 = name)) as [<-|Hk].
    + rewrite decide_False in Hv by done. subst v2.
      by rewrite !lookup_insert_eq.
    + rewrite !lookup_insert_ne by done. by apply Hne.
  - destruct (decide (Py.lower k1 = "x-agentid-signature")) as [Heq|Hk].
    + destruct Hv as [Hv1 Hv2]. rewrite Heq.
      rewrite !lookup_insert_eq.
      by destruct v1, v2.
    + by rewrite !lookup_insert_ne.
Qed.

Lemma normalized_agree h1 h2 :
  Spec.differ_only_in_signature h1 h2 ->
  Spec.agree_up_to_signature (Verifier.normalized h1) (Verifier.normalized h2).
Proof.
  intros H. apply foldl_agree_up_to_signature; [done|]. by split.
Qed.

End SignatureValue.

(** C2.  Two calls of [verify_request] (or of [verify_request_async]) on
    the same verifier, cache, clock readings and network outcome, whose
    header maps differ only in the non-empty value of the signature header,
    have the same outcome: the same result, the same requests sent, the same
    cache afterwards.  The outcome does not depend on the method, the URL or
    the body either: no signature is recomputed from them. *)
Theorem verify_request_ignores_signature_value
    (self : Verifier.CredentialVerifier) (now t_get t_set : Q)
    (net : Http.Outcome) (h1 h2 : list (string * string))
    (method1 url1 method2 url2 : string)
    (body1 body2 : option Signature.payload)
    (cache : Cache.CredentialCache Types.dump) :
  Spec.differ_only_in_signature h1 h2 ->
  Verifier.verify_request self now t_get t_set net h1 method1 url1 body1 cache
  = Verifier.verify_request self now t_get t_set net h2 method2 url2 body2 cache
  ∧ Verifier.verify_request_async self now t_get t_set net h1 method1 url1
      body1 cache
    = Verifier.verify_request_async self now t_get t_set net h2 method2 url2
        body2 cache.
Proof.
  intros Hdiff.
  assert (Hsync :
    Verifier.verify_request self now t_get t_set net h1 method1 url1 body1 cache
    = Verifier.verify_request self now t_get t_set net h2 method2 url2 body2 cache).
  { destruct (normalized_agree h1 h2 Hdiff) as [Hne Hsig].
    unfold Verifier.verify_request, Verifier._extract_credential_info.
    rewrite (Hne "x-agentid-credential"), (Hne "x-agentid-timestamp") by done.
    destruct (Verifier.normalized h2 !! "x-agentid-credential") as [[|c s]|];
      [reflexivity| |reflexivity].
    destruct (Verifier.verify_signature self); [|reflexivity].
    destruct (Verifier.normalized h2 !! "x-agentid-timestamp") as [[|a ts]|];
      [reflexivity| |reflexivity].
    destruct (Verifier.normalized h1 !! "x-agentid-signature") as [[|? ?]|],
             (Verifier.normalized h2 !! "x-agentid-signature") as [[|? ?]|];
      try discriminate Hsig; reflexivity. }
  split; [exact Hsync|].
  by rewrite !verify_request_async_eq.
Qed.

(** C2 on a signed request and on the same request with a forged
    signature value. *)
Lemma verify_request_ignores_signature_value_witness :
  let h s := [ ("X-AgentID-Credential", "cred_X");
               ("X-AgentID-Timestamp", "1700000000");
               ("X-AgentID-Nonce", "abc123");
               ("X-AgentID-Signature", s) ] in
  Verifier.verify_request Samples.verifier 1700000010 1700000010 1700000011
    (Http.Responded Samples.ok_response) (h "c2lnbmVk") "POST"
    "https://api.example.com/data" None Samples.empty_cache
  = Verifier.verify_request Samples.verifier 1700000010 1700000010 1700000011
      (Http.Responded Samples.ok_response) (h "forged") "POST"
      "https://api.example.com/data" None Samples.empty_cache.
Proof.
  intros h.
  apply (verify_request_ignores_signature_value Samples.verifier).
  unfold h. repeat constructor; simpl; discriminate.
Defined.

(** ** The verifier: what it writes to the cache *)

Section VerifierCache.
Implicit Types (self : Verifier.CredentialVerifier).
Implicit Types (cache : Cache.CredentialCache Types.dump).

(** The cache after one call: what the lookup left of it, or that with
    one more entry, the dump of the valid result under the verifier's key
    and TTL. *)
Lemma exec_cache_after self k cache :
  let out := Spec.exec self k cache in
  Cache._cache (Verifier.cache_after out) ⊆ Cache._cache cache
  ∨ ∃ r c1,
      Verifier.returned out = Return r
      ∧ Types.valid r = true
      ∧ Cache._cache c1 ⊆ Cache._cache cache
      ∧ Verifier.cache_after out
        = Cache.set (Spec.t_set k) (Verifier.cache_key (Spec.credential_id k))
            (Types.DumpVerification r) (Some (Verifier.cache_ttl self)) c1.
Proof.
  unfold Spec.exec.
  assert (Hsame :
    (if Spec.is_async k
     then Verifier.verify_credential_async self (Spec.t_get k) (Spec.t_set k)
            (Spec.net k) (Spec.credential_id k) (Spec.use_cache k) cache
     else Verifier.verify_credential self (Spec.t_get k) (Spec.t_set k)
            (Spec.net k) (Spec.credential_id k) (Spec.use_cache k) cache)
    = Verifier.verify_credential self (Spec.t_get k) (Spec.t_set k)
        (Spec.net k) (Spec.credential_id k) (Spec.use_cache k) cache).
  { destruct (Spec.is_async k); [apply verify_credential_async_eq | done]. }
  rewrite Hsame. clear Hsame. unfold Verifier.verify_credential.
  set (looked := if Spec.use_cache k
                 then Cache.get (Spec.t_get k)
                        (Verifier.cache_key (Spec.credential_id k)) cache
                 else (cache, None)).
  assert (Hsub : Cache._cache looked.1 ⊆ Cache._cache cache).
  { subst looked. destruct (Spec.use_cache k); [apply get_store_subseteq | done]. }
  destruct looked as [c1 [d|]]; simpl in Hsub; [by left|].
  destruct (Spec.net k) as [e|response]; [by left|].
  destruct (Verifier._handle_response response) as [r|e]; [|by left].
  destruct (Spec.use_cache k && Types.valid r) eqn:Hw; [|by left].
  apply andb_true_iff in Hw as [_ Hvalid].
  right. by exists r, c1.
Qed.


(** The same for the entries under [verify:] keys of a cache that other
    components write to under other keys. *)
Lemma exec_keeps_verify_keys self k cache :
  (∀ id e, Cache._cache cache !! Verifier.cache_key id = Some e ->
     Spec.verified_entry (Verifier.cache_ttl self) e) ->
  ∀ id e,
    Cache._cache (Verifier.cache_after (Spec.exec self k cache))
      !! Verifier.cache_key id = Some e ->
    Spec.verified_entry (Verifier.cache_ttl self) e.
Proof.
  intros Hinv id e.
  destruct (exec_cache_after self k cache) as [Hsub|(r & c1 & _ & Hvalid & Hsub & ->)].
  - intros He. apply (Hinv id). by eapply lookup_weaken.
  - destruct (decide (Verifier.cache_key (Spec.credential_id k)
                      = Verifier.cache_key id)) as [<-|Hne].
    + rewrite set_lookup. intros [= <-]. by exists r.
    + rewrite set_lookup_ne by done. intros He.
      apply (Hinv id). by eapply lookup_weaken.
Qed.

Lemma run_keeps_verify_keys self ks cache :
  (∀ id e, Cache._cache cache !! Verifier.cache_key id = Some e ->
     Spec.verified_entry (Verifier.cache_ttl self) e) ->
  ∀ id e,
    Cache._cache (Spec.run self ks cache) !! Verifier.cache_key id = Some e ->
    Spec.verified_entry (Verifier.cache_ttl self) e.
Proof.
  revert cache. induction ks as [|k ks IH]; intros cache Hinv; [exact Hinv|].
  simpl. apply IH. by apply exec_keeps_verify_keys.
Qed.

End VerifierCache.



(** ** The permission evaluator *)

Section EvaluatorFacts.
Variable fnmatch : string -> string -> bool.
Implicit Types (permissions before after : list Types.permission_entry).
Implicit Types (context : option (gmap string pyval)).

Lemma skipped_cons entry rest resource action context :
  PermSpec.skipped fnmatch resource action entry = true ->
  Verifier.check_permission fnmatch (entry :: rest) resource action context
  = Verifier.check_permission fnmatch rest resource action context.
Proof.
  destruct entry as [s|p]; simpl.
  - by intros ->%negb_true_iff.
  - unfold PermSpec.applies. intros H%negb_true_iff.
    destruct (fnmatch resource (Types.resource p)); [|done]. simpl in *.
    apply orb_false_iff in H as [-> ->]. done.
Qed.

Lemma stopping_cons entry rest resource action context :
  PermSpec.skipped fnmatch resource action entry = false ->
  Verifier.check_permission fnmatch (entry :: rest) resource action context
  = PermSpec.verdict entry context.
Proof.
  destruct entry as [s|p]; simpl.
  - by intros ->%negb_false_iff.
  - unfold PermSpec.applies. intros H%negb_false_iff.
    apply andb_true_iff in H as [-> H]. simpl.
    apply orb_true_iff in H as [->| ->]; simpl; [done|].
    by rewrite andb_false_r.
Qed.

(** The loop: the first entry that is not passed over decides. *)
Lemma check_permission_first before entry after resource action context :
  Forall (λ e, PermSpec.skipped fnmatch resource action e = true) before ->
  PermSpec.skipped fnmatch resource action entry = false ->
  Verifier.check_permission fnmatch (before ++ entry :: after) resource action
    context
  = PermSpec.verdict entry context.
Proof.
  intros Hbefore Hentry.
  induction Hbefore as [|e before He _ IH]; simpl app.
  - by apply stopping_cons.
  - by rewrite skipped_cons.
Qed.

Lemma check_permission_exhausted permissions resource action context :
  Forall (λ e, PermSpec.skipped fnmatch resource action e = true) permissions ->
  Verifier.check_permission fnmatch permissions resource action context
  = Return (PermSpec.no_permission resource action).
Proof.
  induction 1 as [|e permissions He _ IH]; [done|].
  by rewrite skipped_cons.
Qed.

Lemma string_stops s resource action :
  PermSpec.skipped fnmatch resource action (Types.PermStr s) = false
  <-> s = "*" ∨ s = action.
Proof.
  simpl. rewrite negb_false_iff, orb_true_iff, !String.eqb_eq. done.
Qed.

End EvaluatorFacts.

(** C5.  [check_permission] walks the permissions in the order given and
    the first entry that is not passed over decides; a bare string is not
    passed over exactly when it is ["*"] or the action, whatever the
    resource, and then grants; a structured permission is passed over
    exactly when the resource does not match its pattern or the action is
    neither in its actions nor covered by ["*"]; a list whose entries are
    all passed over gives [granted=False] with the reason
    ["No permission for <action> on <resource>"]. *)
Theorem check_permission_first_match
    (fnmatch : string -> string -> bool)
    (before after : list Types.permission_entry)
    (resource action : string) (context : option (gmap string pyval)) :
  Forall (λ e, PermSpec.skipped fnmatch resource action e = true) before ->
  (∀ entry,
     PermSpec.skipped fnmatch resource action entry = false ->
     Verifier.check_permission fnmatch (before ++ entry :: after) resource
       action context
     = PermSpec.verdict entry context)
  ∧ (∀ s resource',
       (PermSpec.skipped fnmatch resource' action (Types.PermStr s) = false
        <-> s = "*" ∨ s = action)
       ∧ PermSpec.verdict (Types.PermStr s) context = Return Verifier.grant)
  ∧ (∀ p,
       PermSpec.skipped fnmatch resource action (Types.PermObj p) = true
       <-> ¬ (fnmatch resource (Types.resource p) = true
              ∧ (In action (Types.actions p) ∨ In "*" (Types.actions p))))
  ∧ (∃ d,
       Verifier.check_permission fnmatch before resource action context
       = Return d
       ∧ Verifier.granted d = false
       ∧ ∀ repr_float,
           option_map (Py.render repr_float) (Verifier.reason d)
           = Some ("No permission for " ++ action ++ " on " ++ resource)%string).
Proof.
  intros Hbefore. split; [|split; [|split]].
  - intros entry Hentry. by apply check_permission_first.
  - intros s resource'. split; [apply string_stops | reflexivity].
  - intros p. simpl. unfold PermSpec.applies, Py.str_in.
    rewrite negb_true_iff, <- not_true_iff_false, andb_true_iff, orb_true_iff.
    rewrite !existsb_exists.
    assert (Hin : ∀ a, (∃ x, In x (Types.actions p) ∧ String.eqb a x = true)
                       <-> In a (Types.actions p)).
    { intros a. split.
      - intros (x & Hx & ->%String.eqb_eq). exact Hx.
      - intros Ha. exists a. split; [exact Ha | apply String.eqb_refl]. }
    by rewrite !Hin.
  - exists (PermSpec.no_permission resource action). split; [|split].
    + by apply check_permission_exhausted.
    + reflexivity.
    + intros repr_float. simpl. by rewrite append_empty_r.
Qed.

(** C5 on a list where the third entry is the first that applies. *)
Lemma check_permission_first_match_witness :
  Verifier.check_permission Verifier.fnmatch_glob
    [Types.PermStr "read"; Types.PermObj Samples.users_read;
     Types.PermObj Samples.admin_read_write; Types.PermStr "*"]
    "https://api.example.com/admin/settings" "write" None
  = Return Verifier.grant.
Proof.
  destruct (check_permission_first_match Verifier.fnmatch_glob
              [Types.PermStr "read"; Types.PermObj Samples.users_read]
              [Types.PermStr "*"]
              "https://api.example.com/admin/settings" "write" None)
    as [Hfirst _].
  - repeat constructor.
  - apply (Hfirst (Types.PermObj Samples.admin_read_write)). reflexivity.
Defined.

Section ConditionFacts.
Variable fnmatch : string -> string -> bool.








End ConditionFacts.




(** An empty allow-list is falsy and switches the region test off; an
    empty region counts as no region. *)
Example empty_allow_list_is_not_enforced :
  Verifier.check_permission Verifier.fnmatch_glob
    [Types.PermObj
       (PermSpec.with_conditions Samples.payments
          (Some (PermSpec.conditions None (Some []))))]
    "https://api.example.com/payments/new" "write"
    (Some {[ "region" := PStr "CN" ]})
  = Return Verifier.grant.
Proof. vm_compute. reflexivity. Qed.

Example empty_region_is_not_checked :
  Verifier.check_permission Verifier.fnmatch_glob
    [Types.PermObj Samples.payments]
    "https://api.example.com/payments/new" "write"
    (Some {[ "region" := PStr "" ]})
  = Return Verifier.grant.
Proof. vm_compute. reflexivity. Qed.

(** The cases of [tests/test_verifier.py]. *)
Example test_simple_string_permission_match :
  Verifier.check_permission Verifier.fnmatch_glob
    [Types.PermStr "read"; Types.PermStr "write"] "any" "read" None
  = Return Verifier.grant.
Proof. reflexivity. Qed.

Example test_simple_string_permission_no_match :
  Verifier.check_permission Verifier.fnmatch_glob
    [Types.PermStr "read"] "any" "write" None
  = Return (PermSpec.no_permission "any" "write").
Proof. reflexivity. Qed.

Example test_structured_permission_resource_match :
  Verifier.check_permission Verifier.fnmatch_glob
    [Types.PermObj Samples.users_read]
    "https://api.example.com/users/123" "read" None
  = Return Verifier.grant.
Proof. reflexivity. Qed.

Example test_structured_permission_resource_no_match :
  Verifier.check_permission Verifier.fnmatch_glob
    [Types.PermObj Samples.users_read]
    "https://api.example.com/admin/settings" "read" None
  = Return (PermSpec.no_permission "https://api.example.com/admin/settings" "read").
Proof. reflexivity. Qed.

Example test_structured_permission_within_limit :
  Verifier.check_permission Verifier.fnmatch_glob
    [Types.PermObj Samples.payments]
    "https://api.example.com/payments/new" "write"
    (Some {[ "amount" := PInt 5000 ]})
  = Return Verifier.grant.
Proof. vm_compute. reflexivity. Qed.

Example test_structured_permission_region_restriction :
  Verifier.check_permission Verifier.fnmatch_glob
    [Types.PermObj Samples.payments]
    "https://api.example.com/payments/new" "write"
    (Some {[ "region" := PStr "CN" ]})
  = Return (Verifier.deny [Lit "Region "; Fmt (PStr "CN"); Lit " not allowed"]).
Proof. vm_compute. reflexivity. Qed.

(** ** The credential handle: typed errors of [load] *)

Section LoadFacts.
Implicit Types (self : Credential.AgentCredential).
Implicit Types (cache : Cache.CredentialCache Types.dump).





End LoadFacts.




(** A [Retry-After] header that is an HTTP date, not a number of seconds:
    [int] raises [ValueError] in place of the [RateLimitError]. *)
Example load_rate_limited_with_http_date :
  Credential.returned
    (Credential.load Samples.handle 1700000000 1700000001
       (Http.Responded
          {| Http.status_code := 429;
             Http.retry_after := Some "Wed, 21 Oct 2015 07:28:00 GMT";
             Http.body := Http.NotJson "" |})
       true Samples.empty_cache)
  = Raise ValueError.
Proof. reflexivity. Qed.

(** The cases of [tests/test_credential.py]. *)
Example test_load_success :
  Credential.returned
    (Credential.load Samples.handle 1700000000 1700000001
       (Http.Responded Samples.ok_response) false Samples.empty_cache)
  = Return Samples.payload.
Proof. vm_compute. reflexivity. Qed.

Example test_load_not_found :
  Credential.returned
    (Credential.load Samples.handle 1700000000 1700000001
       (Http.Responded
          (Samples.failure_response 200 (Some "Credential not found")
             (Some "CREDENTIAL_NOT_FOUND")))
       false Samples.empty_cache)
  = Raise (CredentialNotFoundError "Credential not found: cred_X").
Proof. vm_compute. reflexivity. Qed.

Example test_load_revoked :
  Credential.returned
    (Credential.load Samples.handle 1700000000 1700000001
       (Http.Responded
          (Samples.failure_response 200 (Some "Credential revoked")
             (Some "CREDENTIAL_REVOKED")))
       false Samples.empty_cache)
  = Raise (CredentialRevokedError "Credential revoked").
Proof. vm_compute. reflexivity. Qed.

(** ** The revocation watch *)

Section RevocationFacts.
Implicit Types (self : Revocation.RevocationSubscriber).
Implicit Types (event : Revocation.RevocationEvent).
Implicit Types (cache : Cache.CredentialCache Types.dump).

Lemma delete_store {V} key (c : Cache.CredentialCache V) :
  Cache._cache (Cache.delete key c).1 = delete key (Cache._cache c).
Proof.
  unfold Cache.delete. destruct (Cache._cache c !! key) eqn:Hk; simpl; [done|].
  symmetry. by apply delete_id.
Qed.

Lemma revocation_store self event cache :
  Cache._cache (Revocation._handle_revocation_event self event cache).2
  = delete ("cred:" ++ Revocation.credential_id event)%string
      (delete ("verify:" ++ Revocation.credential_id event)%string
         (Cache._cache cache)).
Proof.
  unfold Revocation._handle_revocation_event. simpl.
  by rewrite !delete_store.
Qed.

(** What the handler does: the id joins the revoked set, no other id
    does, and the keys [verify:<id>] and [cred:<id>] leave the cache. *)
Lemma revocation_event_effects self event cache :
  let '(self', cache') := Revocation._handle_revocation_event self event cache in
  Revocation.is_revoked self' (Revocation.credential_id event) = true
  ∧ (∀ other, other ≠ Revocation.credential_id event ->
       Revocation.is_revoked self' other = Revocation.is_revoked self other)
  ∧ Cache._cache cache' !! ("verify:" ++ Revocation.credential_id event)%string
    = None
  ∧ Cache._cache cache' !! ("cred:" ++ Revocation.credential_id event)%string
    = None.
Proof.
  pose proof (revocation_store self event cache) as Hstore.
  destruct (Revocation._handle_revocation_event self event cache)
    as [self' cache'] eqn:Hrun.
  simpl in Hstore.
  unfold Revocation._handle_revocation_event in Hrun.
  injection Hrun as <- _.
  unfold Revocation.is_revoked. simpl. split; [|split; [|split]].
  - apply bool_decide_eq_true. apply elem_of_union_l. by apply elem_of_singleton.
  - intros other Hother. apply bool_decide_ext.
    rewrite elem_of_union, elem_of_singleton.
    split; [intros [Heq|Hin]; [contradiction | exact Hin] | intros Hin; by right].
  - rewrite Hstore. destruct (decide
      (("cred:" ++ Revocation.credential_id event)%string
       = ("verify:" ++ Revocation.credential_id event)%string)) as [Heq|Hne];
      [discriminate Heq|].
    by rewrite lookup_delete_ne, lookup_delete_eq.
  - rewrite Hstore. apply lookup_delete_eq.
Qed.

(** The key under which a credential handle files its payload is not one of
    the two keys that the handler deletes. *)
Lemma revocation_keeps_handle_entry self event cache handle :
  Credential.credential_id handle = Revocation.credential_id event ->
  Cache._cache (Revocation._handle_revocation_event self event cache).2
    !! Credential.cache_key handle
  = Cache._cache cache !! Credential.cache_key handle.
Proof.
  intros Hid. rewrite revocation_store. unfold Credential.cache_key. rewrite Hid.
  rewrite !lookup_delete_ne; [done | discriminate | discriminate].
Qed.

End RevocationFacts.

(** C8, the code at the failing input.  A handle loads [cred_X] and files
    the payload under [credential:cred_X]; the verifier files its result
    under [verify:cred_X]; then the revocation event for [cred_X] arrives.
    Afterwards [cred_X] is in the revoked set and [cred_Y] is not, and
    [verify:cred_X] is gone, but the payload is still in the cache under
    [credential:cred_X], and a new handle loads the revoked credential from
    it without any request. *)
Theorem revocation_leaves_credential_payload_cached :
  let loaded :=
    Credential.load Samples.handle 1700000000 1700000001
      (Http.Responded Samples.ok_response) false Samples.empty_cache in
  let verified :=
    Verifier.verify_credential Samples.verifier 1700000002 1700000003
      (Http.Responded Samples.ok_response) "cred_X" true
      (Credential.cache_after loaded) in
  let before := Verifier.cache_after verified in
  let '(watch, after) :=
    Revocation._handle_revocation_event Samples.subscriber
      Samples.revocation_of_cred_X before in
  let again :=
    Credential.load Samples.handle 1700000010 1700000011
      (Http.RequestError "unreachable") false after in
  Cache.value <$> Cache._cache before !! "verify:cred_X"
    = Some (Types.DumpVerification
              (Types.Build_VerificationResult true (Some Samples.payload) None
                 None (Some 85) None None None))
  ∧ Cache.value <$> Cache._cache before !! Credential.cache_key Samples.handle
    = Some (Types.DumpCredential Samples.payload)
  ∧ Revocation.is_revoked watch "cred_X" = true
  ∧ Revocation.is_revoked watch "cred_Y" = false
  ∧ Cache._cache after !! "verify:cred_X" = None
  ∧ Cache._cache after !! "cred:cred_X" = None
  ∧ Cache.value <$> Cache._cache after !! Credential.cache_key Samples.handle
    = Some (Types.DumpCredential Samples.payload)
  ∧ Credential.calls again = []
  ∧ Credential.returned again = Return Samples.payload.
Proof. vm_compute. repeat split. Qed.

(** ** The cache: deletion, clean-up and remaining time *)

Section CacheOperations.
Context {V : Type}.
Implicit Types (c : Cache.CredentialCache V) (e : Cache.CacheEntry V).

Lemma cleanup_lookup now c k :
  Cache._cache (Cache.cleanup_expired now c).1 !! k
  = Cache._cache c !! k ≫= λ e, if Cache.is_expired now e then None else Some e.
Proof.
  unfold Cache.cleanup_expired. simpl.
  destruct (Cache._cache c !! k) as [e|] eqn:Hk; simpl.
  - destruct (Cache.is_expired now e) eqn:He.
    + apply map_lookup_filter_None. right. intros e' He'. simpl.
      rewrite Hk in He'. injection He' as <-. by rewrite He.
    + apply map_lookup_filter_Some. by split.
  - apply map_lookup_filter_None. by left.
Qed.

Lemma cleanup_count now c :
  ((Cache.cleanup_expired now c).2 + Cache.size (Cache.cleanup_expired now c).1
   = Cache.size c)%nat.
Proof.
  unfold Cache.cleanup_expired, Cache.size. simpl.
  rewrite <- (map_filter_union_complement
                (λ kv, Cache.is_expired now kv.2 = true) (Cache._cache c)) at 3.
  rewrite map_size_disj_union by apply map_disjoint_filter_complement.
  f_equal. f_equal. apply map_filter_ext. intros k e _. simpl.
  by destruct (Cache.is_expired now e).
Qed.

Lemma get_result now k c :
  (Cache.get now k c).2
  = Cache._cache c !! k
      ≫= λ e, if Cache.is_expired now e then None else Some (Cache.value e).
Proof.
  unfold Cache.get. destruct (Cache._cache c !! k) as [e|]; [|done].
  simpl. by destruct (Cache.is_expired now e).
Qed.

Lemma is_expired_mono now later e :
  (now <= later)%Q -> Cache.is_expired now e = true ->
  Cache.is_expired later e = true.
Proof. rewrite !is_expired_true. intros. lra. Qed.

End CacheOperations.

(** X1.  [cleanup_expired] removes exactly the entries that have expired
    at the clock reading and keeps the others as they are; the number it
    returns is the number of entries removed; the default TTL is kept, and
    a second clean-up at the same reading removes nothing. *)
Theorem cleanup_expired_removes_exactly_the_expired {V : Type}
    (c : Cache.CredentialCache V) (now : Q) :
  let c' := (Cache.cleanup_expired now c).1 in
  let removed := (Cache.cleanup_expired now c).2 in
  (∀ k, Cache._cache c' !! k
        = Cache._cache c !! k
            ≫= λ e, if Cache.is_expired now e then None else Some e)
  ∧ (removed + Cache.size c' = Cache.size c)%nat
  ∧ Cache._default_ttl c' = Cache._default_ttl c
  ∧ Cache.cleanup_expired now c' = (c', 0%nat).
Proof.
  intros c' removed. split; [|split; [|split]].
  - intros k. apply cleanup_lookup.
  - apply cleanup_count.
  - reflexivity.
  - assert (Hsame : Cache._cache (Cache.cleanup_expired now c').1
                    = Cache._cache c').
    { apply map_eq. intros k. rewrite cleanup_lookup.
      subst c'. rewrite cleanup_lookup.
      destruct (Cache._cache c !! k) as [e|]; [|done]. simpl.
      destruct (Cache.is_expired now e) eqn:He; [done|]. simpl. by rewrite He. }
    pose proof (cleanup_count now c') as Hcount.
    unfold Cache.size in Hcount. rewrite Hsame in Hcount.
    clearbody c'. clear removed.
    destruct (Cache.cleanup_expired now c') as [c'' n] eqn:Hc.
    simpl in Hsame, Hcount. f_equal; [|lia].
    unfold Cache.cleanup_expired in Hc. injection Hc as <- _.
    simpl in Hsame. unfold Cache.with_store. rewrite Hsame. by destruct c'.
Qed.

(** X2.  A clean-up is invisible to readers: at the clock reading of the
    clean-up and at every later one, [get] and [get_ttl] answer for every
    key what they would have answered without it. *)
Theorem cleanup_expired_is_invisible_to_readers {V : Type}
    (c : Cache.CredentialCache V) (now t : Q) (k : string) :
  (now <= t)%Q ->
  (Cache.get t k (Cache.cleanup_expired now c).1).2 = (Cache.get t k c).2
  ∧ Cache.get_ttl t k (Cache.cleanup_expired now c).1 = Cache.get_ttl t k c.
Proof.
  intros Hle. unfold Cache.get_ttl. rewrite !get_result, cleanup_lookup.
  destruct (Cache._cache c !! k) as [e|]; [|done]. simpl.
  destruct (Cache.is_expired now e) eqn:He; [|done]. simpl.
  by rewrite (is_expired_mono now t e Hle He).
Qed.

Lemma cleanup_expired_is_invisible_to_readers_witness :
  let c := Cache.set 0 "b" 2%nat (Some 50%Q)
             (Cache.set 0 "a" 1%nat (Some 10%Q) (Cache.new 300)) in
  (Cache.get 20 "a" (Cache.cleanup_expired 15 c).1).2 = (Cache.get 20 "a" c).2
  ∧ Cache.get_ttl 20 "a" (Cache.cleanup_expired 15 c).1 = Cache.get_ttl 20 "a" c.
Proof.
  intros c.
  apply (cleanup_expired_is_invisible_to_readers c 15 20 "a").
  vm_compute. discriminate.
Defined.

(** X3.  [delete] reports whether the key was stored, whether or not the
    entry had expired; afterwards the key is gone for every reader and a
    second [delete] reports [False]; the other keys are untouched and the
    size drops by one exactly when [True] was reported. *)
Theorem delete_reports_presence {V : Type}
    (c : Cache.CredentialCache V) (k : string) :
  let c' := (Cache.delete k c).1 in
  ((Cache.delete k c).2 = true <-> is_Some (Cache._cache c !! k))
  ∧ Cache._cache c' !! k = None
  ∧ (∀ t, Cache.get t k c' = (c', None))
  ∧ Cache.delete k c' = (c', false)
  ∧ (∀ k', k' ≠ k -> Cache._cache c' !! k' = Cache._cache c !! k')
  ∧ (Cache.size c' + (if (Cache.delete k c).2 then 1 else 0) = Cache.size c)%nat.
Proof.
  intros c'. subst c'. unfold Cache.delete.
  destruct (Cache._cache c !! k) as [e|] eqn:Hk; simpl.
  - assert (Hgone : delete k (Cache._cache c) !! k = None)
      by apply lookup_delete_eq.
    split; [split; [by eexists | done]|]. split; [done|].
    split; [intros t; by apply get_miss|].
    split; [by rewrite Hgone|].
    split; [intros k' Hne; by apply lookup_delete_ne|].
    unfold Cache.size. simpl.
    rewrite <- (insert_delete_id (Cache._cache c) k e Hk) at 2.
    rewrite map_size_insert_None by done. lia.
  - split; [split; [done | by intros [? ?]]|]. split; [done|].
    split; [intros t; by apply get_miss|].
    split; [by rewrite Hk|].
    split; [done|]. lia.
Qed.


(** X5.  A second [set] of a key replaces the first altogether: the
    cache is the one that the second [set] alone would have given, and it
    holds one entry for the key.  A [set] changes what no reader sees of
    any other key. *)
Theorem set_replaces_the_entry {V : Type}
    (c : Cache.CredentialCache V) (k : string) (v1 v2 : V)
    (ttl1 ttl2 : option Q) (now1 now2 : Q) :
  let c1 := Cache.set now1 k v1 ttl1 c in
  let c2 := Cache.set now2 k v2 ttl2 c1 in
  c2 = Cache.set now2 k v2 ttl2 c
  ∧ Cache.size c2 = Cache.size c1
  ∧ (∀ k' t, k' ≠ k ->
       (Cache.get t k' c1).2 = (Cache.get t k' c).2
       ∧ Cache.get_ttl t k' c1 = Cache.get_ttl t k' c).
Proof.
  intros c1 c2. subst c1 c2. split; [|split].
  - unfold Cache.set, Cache.with_store. simpl. f_equal. apply insert_insert_eq.
  - unfold Cache.size, Cache.set. simpl.
    by rewrite map_size_insert_Some by (rewrite lookup_insert_eq; by eexists).
  - intros k' t Hne. unfold Cache.get_ttl. rewrite !get_result.
    by rewrite set_lookup_ne.
Qed.

(** X6.  A TTL of zero or less is kept as given, it does not select the
    default: the value stored with it is read by no [get] and no
    [get_ttl] at the clock reading of the [set] or later, and the first
    such [get] removes the entry. *)
Theorem set_with_nonpositive_ttl_is_never_read {V : Type}
    (c : Cache.CredentialCache V) (k : string) (v : V) (ttl now t : Q) :
  (ttl <= 0)%Q -> (now <= t)%Q ->
  let stored := Cache.set now k v (Some ttl) c in
  Cache._cache stored !! k = Some (Cache.mkEntry v (now + ttl) now)
  ∧ (Cache.get t k stored).2 = None
  ∧ Cache.get_ttl t k stored = None
  ∧ Cache._cache (Cache.get t k stored).1 !! k = None.
Proof.
  intros Httl Hle stored. subst stored.
  pose proof (set_lookup now k v (Some ttl) c) as Hk.
  assert (Hexp : (Cache.expires_at (Cache.mkEntry v (now + ttl) now) <= t)%Q)
    by (simpl; lra).
  split; [exact Hk|]. split; [|split].
  - by rewrite (get_expired _ _ _ _ Hk Hexp).
  - unfold Cache.get_ttl. rewrite Hk.
    by apply is_expired_true in Hexp as ->.
  - rewrite (get_expired _ _ _ _ Hk Hexp). apply lookup_delete_eq.
Qed.

Lemma set_with_nonpositive_ttl_is_never_read_witness :
  let stored := Cache.set 100 "k" 7%nat (Some 0%Q) (Cache.new 300) in
  Cache._cache stored !! "k" = Some (Cache.mkEntry 7%nat (100 + 0) 100)
  ∧ (Cache.get 100 "k" stored).2 = None
  ∧ Cache.get_ttl 100 "k" stored = None
  ∧ Cache._cache (Cache.get 100 "k" stored).1 !! "k" = None.
Proof.
  apply (set_with_nonpositive_ttl_is_never_read (Cache.new 300) "k" 7%nat
           0 100 100); vm_compute; discriminate.
Defined.

(** X7.  Without a [set] in between, time only takes values away: a key
    that [get] does not find is not found at any later clock reading, and
    a value that [get] returns at a later reading is the one it returns at
    every earlier one, where it leaves the cache as it is. *)
Theorem cached_value_never_reappears {V : Type}
    (c : Cache.CredentialCache V) (k : string) (now later : Q) :
  (now <= later)%Q ->
  ((Cache.get now k c).2 = None ->
   (Cache.get later k c).2 = None
   ∧ (Cache.get later k (Cache.get now k c).1).2 = None)
  ∧ (∀ v, (Cache.get later k c).2 = Some v -> Cache.get now k c = (c, Some v)).
Proof.
  intros Hle. split.
  - rewrite !get_result. unfold Cache.get.
    destruct (Cache._cache c !! k) as [e|] eqn:Hk; simpl; [|by rewrite Hk].
    destruct (Cache.is_expired now e) eqn:He; [|done]. simpl. intros _.
    rewrite (is_expired_mono now later e Hle He).
    by rewrite lookup_delete_eq.
  - intros v. rewrite get_result. unfold Cache.get.
    destruct (Cache._cache c !! k) as [e|]; [|done]. simpl.
    destruct (Cache.is_expired later e) eqn:Hlater; [done|].
    intros [= <-].
    destruct (Cache.is_expired now e) eqn:Hnow; [|done].
    by rewrite (is_expired_mono now later e Hle Hnow) in Hlater.
Qed.

Lemma cached_value_never_reappears_witness :
  let c := Cache.set 0 "k" 7%nat (Some 10%Q) (Cache.new 300) in
  ((Cache.get 10 "k" c).2 = None ->
   (Cache.get 20 "k" c).2 = None
   ∧ (Cache.get 20 "k" (Cache.get 10 "k" c).1).2 = None)
  ∧ (∀ v, (Cache.get 20 "k" c).2 = Some v -> Cache.get 10 "k" c = (c, Some v)).
Proof.
  intros c. apply (cached_value_never_reappears c "k" 10 20).
  vm_compute. discriminate.
Defined.

(** ** Request signing: what a signature determines *)

Section SigningString.

Lemma one_line_cons c s :
  SignSpec.one_line (String c s)
  = negb (Ascii.eqb c (ascii_of_nat 10)) && SignSpec.one_line s.
Proof. reflexivity. Qed.

Lemma append_cons c (s t : string) :
  (String c s ++ t)%string = String c (s ++ t)%string.
Proof. reflexivity. Qed.

Lemma append_nil (t : string) : ("" ++ t)%string = t.
Proof. reflexivity. Qed.

(** A text without line feed ends at the first line feed that follows
    it. *)
Lemma one_line_split_at a a' r r' :
  SignSpec.one_line a = true -> SignSpec.one_line a' = true ->
  (a ++ String (ascii_of_nat 10) r)%string
  = (a' ++ String (ascii_of_nat 10) r')%string ->
  a = a' ∧ r = r'.
Proof.
  revert a'. induction a as [|c a IH]; intros [|c' a'] Ha Ha';
    rewrite ?append_cons, ?append_nil.
  - by intros [= ->].
  - intros [= <- _]. by rewrite one_line_cons, Ascii.eqb_refl in Ha'.
  - intros [= -> _]. by rewrite one_line_cons, Ascii.eqb_refl in Ha.
  - intros [= -> H]. rewrite one_line_cons in Ha, Ha'.
    apply andb_true_iff in Ha as [_ Ha]. apply andb_true_iff in Ha' as [_ Ha'].
    destruct (IH a' Ha Ha' H) as [-> ->]. done.
Qed.

Lemma one_line_split a a' r r' :
  SignSpec.one_line a = true -> SignSpec.one_line a' = true ->
  (a ++ Signature.nl ++ r)%string = (a' ++ Signature.nl ++ r')%string ->
  a = a' ∧ r = r'.
Proof. apply one_line_split_at. Qed.

Lemma upper_char_not_nl c :
  Ascii.eqb c (ascii_of_nat 10) = false ->
  Ascii.eqb (Py.upper_char c) (ascii_of_nat 10) = false.
Proof.
  destruct c as [[] [] [] [] [] [] [] []]; vm_compute; congruence.
Qed.

Lemma one_line_upper s :
  SignSpec.one_line s = true -> SignSpec.one_line (Py.upper s) = true.
Proof.
  induction s as [|c s IH]; [done|].
  change (Py.upper (String c s)) with (String (Py.upper_char c) (Py.upper s)).
  rewrite !one_line_cons. intros [Hc Hs]%andb_true_iff.
  apply negb_true_iff in Hc.
  by rewrite (upper_char_not_nl c Hc), IH.
Qed.

Lemma digit_not_nl c :
  Py.is_digit c = true -> Ascii.eqb c (ascii_of_nat 10) = false.
Proof.
  destruct c as [[] [] [] [] [] [] [] []]; vm_compute; congruence.
Qed.

Lemma one_line_digits s : Py.only_digits s -> SignSpec.one_line s = true.
Proof.
  induction s as [|c s IH]; [done|].
  intros H. apply only_digits_cons in H as [Hc Hs].
  rewrite one_line_cons, (digit_not_nl c Hc). by apply IH.
Qed.

Lemma one_line_str_of_int z : SignSpec.one_line (Py.str_of_int z) = true.
Proof.
  unfold Py.str_of_int. destruct (Z.to_int z) as [d|d]; simpl.
  - destruct d; try done; apply one_line_digits, string_of_uint_digits.
  - destruct d; try done;
      apply (one_line_digits (NilEmpty.string_of_uint _)), string_of_uint_digits.
Qed.

Lemma str_of_int_inj z1 z2 : Py.str_of_int z1 = Py.str_of_int z2 -> z1 = z2.
Proof.
  intros H. apply (f_equal Py.int) in H. rewrite !int_str_of_int in H.
  by injection H.
Qed.

End SigningString.

(** X8.  A signature determines the request: when the methods, the URLs
    and the credential ids hold no line feed, two requests signed under
    the same secret have the same signature only if they have the same
    method up to case, the same URL, timestamp and credential id, and the
    same body hash, as long as the signing digest does not collide on
    their two signing strings. *)
Theorem signature_determines_the_request
    (sha256_digest : string -> string)
    (hmac_sha256 : string -> string -> string)
    (m1 m2 u1 u2 : string) (b1 b2 : option Signature.payload) (t1 t2 : Z)
    (c1 c2 : string) (secret : option string) :
  SignSpec.one_line m1 = true -> SignSpec.one_line m2 = true ->
  SignSpec.one_line u1 = true -> SignSpec.one_line u2 = true ->
  SignSpec.one_line c1 = true -> SignSpec.one_line c2 = true ->
  Spec.collision_free (Spec.mac sha256_digest hmac_sha256 secret)
    (Signature.signing_string sha256_digest m1 u1 b1 t1 c1)
    (Signature.signing_string sha256_digest m2 u2 b2 t2 c2) ->
  Signature.generate_request_signature sha256_digest hmac_sha256 m1 u1 b1 t1
    c1 secret
  = Signature.generate_request_signature sha256_digest hmac_sha256 m2 u2 b2
      t2 c2 secret ->
  Py.upper m1 = Py.upper m2 ∧ u1 = u2 ∧ t1 = t2 ∧ c1 = c2
  ∧ Signature.body_hash sha256_digest b1 = Signature.body_hash sha256_digest b2.
Proof.
  intros Hm1 Hm2 Hu1 Hu2 Hc1 Hc2 Hfree Hsame.
  rewrite !generate_mac in Hsame. apply b64encode_inj in Hsame.
  destruct (decide (Signature.signing_string sha256_digest m1 u1 b1 t1 c1
                    = Signature.signing_string sha256_digest m2 u2 b2 t2 c2))
    as [Heq|Hne]; [|by destruct (Hfree Hne)].
  unfold Signature.signing_string in Heq.
  apply one_line_split in Heq as [Hm Heq]; [|by apply one_line_upper..].
  apply one_line_split in Heq as [Hu Heq]; [|done..].
  apply one_line_split in Heq as [Ht Heq]; [|apply one_line_str_of_int..].
  apply one_line_split in Heq as [Hc Heq]; [|done..].
  apply str_of_int_inj in Ht. done.
Qed.

Lemma signature_determines_the_request_witness :
  Py.upper "get" = Py.upper "GET"
  ∧ "https://api.example.com/data" = "https://api.example.com/data"
  ∧ 1234567890 = 1234567890 ∧ "cred_test" = "cred_test"
  ∧ Signature.body_hash Hashlib.sha256_digest None
    = Signature.body_hash Hashlib.sha256_digest None.
Proof.
  apply (signature_determines_the_request Hashlib.sha256_digest
           Hashlib.hmac_sha256 "get" "GET" "https://api.example.com/data"
           "https://api.example.com/data" None None 1234567890 1234567890
           "cred_test" "cred_test" (Some "secret")).
  1-6: reflexivity.
  - intros Hne. destruct Hne. vm_compute. reflexivity.
  - vm_compute. reflexivity.
Defined.

Lemma body_hash_same sha256_digest b1 b2 :
  SignSpec.same_body b1 b2 ->
  Signature.body_hash sha256_digest b1 = Signature.body_hash sha256_digest b2.
Proof.
  unfold Signature.body_hash.
  intros [[H1 H2]|(x & y & -> & -> & Hxy)].
  - rewrite H1, H2. by destruct b1, b2.
  - unfold Signature.body_truthy. by rewrite Hxy.
Qed.

(** X9.  What a signature does not tell apart: the case of the letters
    of the method; a [str] body from the [bytes] of the same text, and an
    empty body from an absent one; an empty secret from an absent one.
    Requests that differ in these only have the same signature, and
    [verify_request_signature] answers the same for both. *)
Theorem signature_does_not_distinguish
    (sha256_digest : string -> string)
    (hmac_sha256 : string -> string -> string)
    (m1 m2 url : string) (b1 b2 : option Signature.payload) (timestamp : Z)
    (credential_id : string) (s1 s2 : option string) :
  SignSpec.same_method m1 m2 ->
  SignSpec.same_body b1 b2 ->
  SignSpec.same_secret s1 s2 ->
  Signature.generate_request_signature sha256_digest hmac_sha256 m1 url b1
    timestamp credential_id s1
  = Signature.generate_request_signature sha256_digest hmac_sha256 m2 url b2
      timestamp credential_id s2
  ∧ ∀ now signature max_age_seconds,
      Signature.verify_request_signature sha256_digest hmac_sha256 now
        signature m1 url b1 timestamp credential_id s1 max_age_seconds
      = Signature.verify_request_signature sha256_digest hmac_sha256 now
          signature m2 url b2 timestamp credential_id s2 max_age_seconds.
Proof.
  intros Hm Hb Hs.
  assert (Hgen :
    Signature.generate_request_signature sha256_digest hmac_sha256 m1 url b1
      timestamp credential_id s1
    = Signature.generate_request_signature sha256_digest hmac_sha256 m2 url
        b2 timestamp credential_id s2).
  { unfold Signature.generate_request_signature, Signature.signing_string.
    rewrite Hm, (body_hash_same sha256_digest b1 b2 Hb).
    destruct Hs as [->|[H1 H2]]; [done|].
    destruct s1 as [[|? ?]|], s2 as [[|? ?]|]; done. }
  split; [exact Hgen|].
  intros now signature max_age_seconds.
  unfold Signature.verify_request_signature. by rewrite Hgen.
Qed.

Lemma signature_does_not_distinguish_witness :
  Signature.generate_request_signature Hashlib.sha256_digest
    Hashlib.hmac_sha256 "post" "https://api.example.com/data" None
    1234567890 "cred_test" None
  = Signature.generate_request_signature Hashlib.sha256_digest
      Hashlib.hmac_sha256 "POST" "https://api.example.com/data"
      (Some (Signature.Bytes "")) 1234567890 "cred_test" (Some "")
  ∧ ∀ now signature max_age_seconds,
      Signature.verify_request_signature Hashlib.sha256_digest
        Hashlib.hmac_sha256 now signature "post"
        "https://api.example.com/data" None 1234567890 "cred_test" None
        max_age_seconds
      = Signature.verify_request_signature Hashlib.sha256_digest
          Hashlib.hmac_sha256 now signature "POST"
          "https://api.example.com/data" (Some (Signature.Bytes ""))
          1234567890 "cred_test" (Some "") max_age_seconds.
Proof.
  apply (signature_does_not_distinguish Hashlib.sha256_digest
           Hashlib.hmac_sha256 "post" "POST" "https://api.example.com/data"
           None (Some (Signature.Bytes "")) 1234567890 "cred_test" None
           (Some "")).
  - reflexivity.
  - left. split; reflexivity.
  - right. split; reflexivity.
Defined.

(** ** The verifier: cache hits, cache bypass and failures *)

Section VerifierCalls.
Implicit Types (self : Verifier.CredentialVerifier).
Implicit Types (cache : Cache.CredentialCache Types.dump).

(** What the remote authority answers to a verification request. *)
Lemma verify_credential_miss self t_get t_set net id (use_cache : bool) cache
    (c1 : Cache.CredentialCache Types.dump) :
  (if use_cache then Cache.get t_get (Verifier.cache_key id) cache
   else (cache, None)) = (c1, @None Types.dump) ->
  Verifier.verify_credential self t_get t_set net id use_cache cache
  = match net with
    | Http.RequestError e =>
        Verifier.mkOutcome c1 [Verifier.verify_request_to self id]
          (Raise (NetworkError ("Failed to verify credential: " ++ e)))
    | Http.Responded response =>
        match Verifier._handle_response response with
        | Raise e =>
            Verifier.mkOutcome c1 [Verifier.verify_request_to self id] (Raise e)
        | Return result =>
            Verifier.mkOutcome
              (if use_cache && Types.valid result
               then Cache.set t_set (Verifier.cache_key id)
                      (Types.DumpVerification result)
                      (Some (Verifier.cache_ttl self)) c1
               else c1)
              [Verifier.verify_request_to self id] (Return result)
        end
    end.
Proof. intros H. unfold Verifier.verify_credential. by rewrite H. Qed.

End VerifierCalls.



(** X11.  With [use_cache=False] the cache is neither read nor written:
    one request is sent, the cache is left as it is, and the outcome is
    the answer of the remote authority, whatever the cache holds and
    whatever the clock reads. *)
Theorem verify_credential_without_cache
    (self : Verifier.CredentialVerifier) (id : string) (t_get t_set : Q)
    (net : Http.Outcome) (cache : Cache.CredentialCache Types.dump) :
  let out := Verifier.verify_credential self t_get t_set net id false cache in
  Verifier.cache_after out = cache
  ∧ Verifier.calls out = [Verifier.verify_request_to self id]
  ∧ Verifier.returned out
    = match net with
      | Http.RequestError e =>
          Raise (NetworkError ("Failed to verify credential: " ++ e))
      | Http.Responded response => Verifier._handle_response response
      end
  ∧ Verifier.verify_credential_async self t_get t_set net id false cache = out.
Proof.
  intros out. subst out. rewrite verify_credential_async_eq.
  rewrite (verify_credential_miss self t_get t_set net id false cache cache)
    by done.
  destruct net as [e|response]; [done|].
  by destruct (Verifier._handle_response response).
Qed.

(** X12.  The verifier reads the status of a response only to tell 429
    from the rest: two responses with the same body and statuses other
    than 429 give the same outcome, so that a body with [valid=True] is
    accepted and cached under any such status. *)
Theorem verifier_ignores_the_http_status
    (self : Verifier.CredentialVerifier) (r1 r2 : Http.Response)
    (t_get t_set : Q) (id : string) (use_cache : bool)
    (cache : Cache.CredentialCache Types.dump) :
  Http.status_code r1 ≠ 429 -> Http.status_code r2 ≠ 429 ->
  Http.body r1 = Http.body r2 ->
  Verifier._handle_response r1 = Verifier._handle_response r2
  ∧ Verifier.verify_credential self t_get t_set (Http.Responded r1) id
      use_cache cache
    = Verifier.verify_credential self t_get t_set (Http.Responded r2) id
        use_cache cache.
Proof.
  intros H1 H2 Hbody.
  assert (Hsame : Verifier._handle_response r1 = Verifier._handle_response r2).
  { unfold Verifier._handle_response.
    rewrite (proj2 (Z.eqb_neq _ _) H1), (proj2 (Z.eqb_neq _ _) H2).
    by rewrite Hbody. }
  split; [exact Hsame|].
  unfold Verifier.verify_credential. by rewrite Hsame.
Qed.

Lemma verifier_ignores_the_http_status_witness :
  let server_error :=
    {| Http.status_code := 500; Http.retry_after := None;
       Http.body := Http.body Samples.ok_response |} in
  Verifier._handle_response server_error
  = Verifier._handle_response Samples.ok_response
  ∧ Verifier.verify_credential Samples.verifier 1000 1001
      (Http.Responded server_error) "cred_X" true Samples.empty_cache
    = Verifier.verify_credential Samples.verifier 1000 1001
        (Http.Responded Samples.ok_response) "cred_X" true Samples.empty_cache.
Proof.
  intros server_error.
  apply (verifier_ignores_the_http_status Samples.verifier server_error
           Samples.ok_response 1000 1001 "cred_X" true Samples.empty_cache).
  - discriminate.
  - discriminate.
  - reflexivity.
Defined.

(** X13.  A verification that raises has written nothing: the cache
    holds no entry that it did not hold before.  What is raised is a
    [NetworkError] for a request that failed, a [RateLimitError] or a
    [ValueError] for a 429 response, an [AgentIDError] for a body that is
    not JSON, and a [TypeError] or a [ValidationError] for JSON that is
    not a verification result. *)
Theorem verify_credential_raises_without_writing
    (self : Verifier.CredentialVerifier) (id : string) (t_get t_set : Q)
    (net : Http.Outcome) (use_cache : bool)
    (cache : Cache.CredentialCache Types.dump) (e : exn) :
  let out := Verifier.verify_credential self t_get t_set net id use_cache cache in
  Verifier.returned out = Raise e ->
  Cache._cache (Verifier.cache_after out) ⊆ Cache._cache cache
  ∧ match e with
    | NetworkError message =>
        ∃ text, net = Http.RequestError text
                ∧ message = ("Failed to verify credential: " ++ text)%string
    | RateLimitError _ _ | ValueError =>
        ∃ response, net = Http.Responded response
                    ∧ Http.status_code response = 429
    | AgentIDError _ _ | TypeError | ValidationError => True
    | _ => False
    end.
Proof.
  intros out. subst out. unfold Verifier.verify_credential.
  set (looked := if use_cache
                 then Cache.get t_get (Verifier.cache_key id) cache
                 else (cache, None)).
  assert (Hsub : Cache._cache looked.1 ⊆ Cache._cache cache).
  { subst looked. destruct use_cache; [apply get_store_subseteq | done]. }
  destruct looked as [c1 [d|]]; simpl in Hsub.
  - simpl. destruct d; simpl; [done|]. by intros [= <-].
  - destruct net as [text|response]; simpl.
    + intros [= <-]. split; [done|]. by exists text.
    + destruct (Verifier._handle_response response) as [r|e'] eqn:Hresp;
        simpl; [done|].
      intros [= ->]. split; [done|].
      unfold Verifier._handle_response in Hresp.
      destruct (Http.status_code response =? 429) eqn:Hstatus.
      * apply Z.eqb_eq in Hstatus. injection Hresp as <-.
        unfold Http.rate_limited.
        destruct (Http.retry_after response) as [[|c s]|];
          try (by exists response).
        destruct (Py.int (String c s)); by exists response.
      * unfold Http.validate in Hresp.
        destruct (Http.body response) as [text| |d];
          [by injection Hresp as <- ..|].
        destruct (Http.d_valid d); [done|]. by injection Hresp as <-.
Qed.

Lemma verify_credential_raises_without_writing_witness :
  let out :=
    Verifier.verify_credential Samples.verifier 1000 1001
      (Http.RequestError "connection refused") "cred_X" true
      Samples.empty_cache in
  Cache._cache (Verifier.cache_after out) ⊆ Cache._cache Samples.empty_cache
  ∧ ∃ text, Http.RequestError "connection refused" = Http.RequestError text
            ∧ "Failed to verify credential: connection refused"
              = ("Failed to verify credential: " ++ text)%string.
Proof.
  apply (verify_credential_raises_without_writing Samples.verifier "cred_X"
           1000 1001 (Http.RequestError "connection refused") true
           Samples.empty_cache
           (NetworkError "Failed to verify credential: connection refused")).
  reflexivity.
Defined.

(** ** The verifier: header extraction *)

Lemma foldl_normalized_same h1 h2 (m : gmap string string) :
  Forall2 (λ a b : string * string, Py.lower a.1 = Py.lower b.1 ∧ a.2 = b.2)
    h1 h2 ->
  foldl (λ m kv, <[Py.lower kv.1 := kv.2]> m) m h1
  = foldl (λ m kv, <[Py.lower kv.1 := kv.2]> m) m h2.
Proof.
  intros H. revert m. induction H as [|a b h1 h2 [Hk Hv] _ IH]; intros m; [done|].
  simpl. rewrite Hk, Hv. apply IH.
Qed.

Lemma normalized_app headers name v :
  Verifier.normalized (headers ++ [(name, v)])
  = <[Py.lower name := v]> (Verifier.normalized headers).
Proof. unfold Verifier.normalized. by rewrite foldl_app. Qed.

(** X14.  Header extraction sees the names of the headers in lower case
    only: two header lists whose names agree up to the case of their
    letters, with the same values in the same order, give the same
    credential id, timestamp, nonce and signature, and [verify_request]
    the same outcome. *)
Theorem extract_credential_info_ignores_case
    (h1 h2 : list (string * string)) :
  Forall2 (λ a b : string * string, Py.lower a.1 = Py.lower b.1 ∧ a.2 = b.2)
    h1 h2 ->
  Verifier._extract_credential_info h1 = Verifier._extract_credential_info h2
  ∧ ∀ self now t_get t_set net method url body cache,
      Verifier.verify_request self now t_get t_set net h1 method url body cache
      = Verifier.verify_request self now t_get t_set net h2 method url body
          cache.
Proof.
  intros H.
  assert (Hsame : Verifier._extract_credential_info h1
                  = Verifier._extract_credential_info h2).
  { unfold Verifier._extract_credential_info, Verifier.normalized.
    by rewrite (foldl_normalized_same h1 h2 ∅ H). }
  split; [exact Hsame|]. intros.
  unfold Verifier.verify_request. by rewrite Hsame.
Qed.

Lemma extract_credential_info_ignores_case_witness :
  let h1 := [("X-AgentID-Credential", "cred_123");
             ("X-AgentID-Timestamp", "1234567890")] in
  let h2 := [("x-agentid-credential", "cred_123");
             ("X-AGENTID-TIMESTAMP", "1234567890")] in
  Verifier._extract_credential_info h1 = Verifier._extract_credential_info h2
  ∧ ∀ self now t_get t_set net method url body cache,
      Verifier.verify_request self now t_get t_set net h1 method url body cache
      = Verifier.verify_request self now t_get t_set net h2 method url body
          cache.
Proof.
  apply (extract_credential_info_ignores_case
           [("X-AgentID-Credential", "cred_123");
            ("X-AgentID-Timestamp", "1234567890")]
           [("x-agentid-credential", "cred_123");
            ("X-AGENTID-TIMESTAMP", "1234567890")]).
  repeat constructor.
Defined.

(** X15.  Of several headers whose names are equal up to case, the last
    one is the one extracted: a credential header appended to any header
    list gives the credential id, whatever credential headers come before
    it, and leaves the timestamp, the nonce and the signature as they
    were. *)
Theorem extract_credential_info_takes_the_last_header
    (headers : list (string * string)) (name value : string) :
  Py.lower name = "x-agentid-credential" ->
  Verifier._extract_credential_info (headers ++ [(name, value)])
  = let '(_, timestamp, nonce, signature) :=
      Verifier._extract_credential_info headers in
    (Some value, timestamp, nonce, signature).
Proof.
  intros Hname. unfold Verifier._extract_credential_info.
  rewrite normalized_app, Hname.
  rewrite lookup_insert_eq. by rewrite !lookup_insert_ne.
Qed.

Lemma extract_credential_info_takes_the_last_header_witness :
  Verifier._extract_credential_info
    ([("X-AgentID-Credential", "cred_123"); ("X-AgentID-Nonce", "abc123")]
       ++ [("x-agentid-credential", "cred_456")])
  = (Some "cred_456", None, Some "abc123", None).
Proof.
  apply (extract_credential_info_takes_the_last_header
           [("X-AgentID-Credential", "cred_123"); ("X-AgentID-Nonce", "abc123")]
           "x-agentid-credential" "cred_456").
  reflexivity.
Defined.

(** ** The permission evaluator: no context, and what it returns *)

Section EvaluatorResults.
Variable fnmatch : string -> string -> bool.





End EvaluatorResults.




(** ** The credential handle: expiry, the cached payload, repeated loads *)

Section HandleFacts.
Implicit Types (self : Credential.AgentCredential).
Implicit Types (cache : Cache.CredentialCache Types.dump).

Lemma Qle_bool_false x y : Qle_bool x y = false <-> (y < x)%Q.
Proof.
  rewrite <- not_true_iff_false, Qle_bool_iff. split.
  - apply Qnot_le_lt.
  - apply Qlt_not_le.
Qed.

(** What a fetch that returns a payload has done: the handle holds the
    payload, is active and was fetched at the clock reading; the cache
    holds the payload under the handle's key, for the time that the
    credential has left and an hour at most. *)
Lemma fetch_returns_state self t_upd net cache p :
  Credential.returned (Credential.fetch_and_update self t_upd net cache)
  = Return p ->
  Credential.self_after (Credential.fetch_and_update self t_upd net cache)
  = Credential.with_state self (Some p) t_upd (Some Types.ACTIVE)
  ∧ Credential.cache_after (Credential.fetch_and_update self t_upd net cache)
    = Cache.set t_upd (Credential.cache_key self) (Types.DumpCredential p)
        (Some (Qmin (Qmax 0 (Types.valid_until (Types.constraints p) - t_upd))
                 3600)) cache.
Proof.
  unfold Credential.fetch_and_update.
  destruct (Credential._fetch_credential self net) as [result|e]; [|done].
  unfold Credential._update_from_result.
  destruct (Types.valid result); simpl.
  - destruct (Types.credential result) as [data|]; simpl; [|done].
    by intros [= <-].
  - by repeat case_bool_decide.
Qed.


Lemma fetch_calls self t_upd net cache :
  Credential.calls (Credential.fetch_and_update self t_upd net cache)
  = [Credential.fetch_request self].
Proof.
  unfold Credential.fetch_and_update.
  destruct (Credential._fetch_credential self net) as [result|e]; [|done].
  destruct (Credential._update_from_result self t_upd result cache)
    as [[self' cache'] [e|]]; [done|].
  by destruct (Credential._credential_data self').
Qed.

Lemma is_active_iff self now :
  Credential.is_active self now = true
  <-> Credential._status self = Some Types.ACTIVE
      ∧ Credential.is_expired self now = false.
Proof.
  unfold Credential.is_active.
  destruct (Credential._status self) as [[]|]; rewrite ?negb_true_iff;
    (split; [intros H; first [discriminate H | by split]
            | intros [Hs He]; first [discriminate Hs | exact He]]).
Qed.

End HandleFacts.

(** X18.  The expiry properties of a handle agree with one another: the
    time to expiry is never negative and is zero exactly when the handle
    is expired; a handle is active exactly when its status is [ACTIVE] and
    it is not expired; a handle without payload is expired, not active
    and has no time left; an expired handle needs a refresh whenever the
    refresh threshold is positive. *)
Theorem handle_expiry_properties_agree
    (self : Credential.AgentCredential) (now : Q) :
  (0 <= Credential.time_to_expiry self now)%Q
  ∧ (Credential.is_expired self now = true
     <-> (Credential.time_to_expiry self now == 0)%Q)
  ∧ (Credential.is_active self now = true
     <-> Credential._status self = Some Types.ACTIVE
         ∧ Credential.is_expired self now = false)
  ∧ (Credential.is_loaded self = false ->
     Credential.is_expired self now = true
     ∧ Credential.is_active self now = false
     ∧ Credential.time_to_expiry self now = 0%Q)
  ∧ (Credential.is_expired self now = true ->
     (0 < Credential.refresh_threshold self)%Q ->
     Credential.needs_refresh self now = true).
Proof.
  split; [|split; [|split; [apply is_active_iff|]]].
  - unfold Credential.time_to_expiry.
    destruct (Credential._credential_data self); [apply Q.le_max_l | lra].
  - unfold Credential.time_to_expiry, Credential.is_expired.
    destruct (Credential._credential_data self) as [data|]; [|done].
    rewrite Qle_bool_iff.
    destruct (Q.max_spec 0 (Types.valid_until (Types.constraints data) - now))
      as [[Hlt ->]|[Hle ->]]; split; intros; lra.
  - split.
    + intros Hloaded. unfold Credential.is_active, Credential.is_expired,
        Credential.time_to_expiry, Credential.is_loaded in *.
      destruct (Credential._credential_data self); [done|].
      by destruct (Credential._status self) as [[]|].
    + unfold Credential.needs_refresh, Credential.time_to_expiry,
        Credential.is_expired.
      intros Hexpired Hpos. apply negb_true_iff, Qle_bool_false.
      destruct (Credential._credential_data self) as [data|]; [|done].
      apply Qle_bool_iff in Hexpired.
      destruct (Q.max_spec 0 (Types.valid_until (Types.constraints data) - now))
        as [[Hlt ->]|[Hle ->]]; lra.
Qed.



(** X20.  A payload that [load] fetched is served from the cache
    afterwards: a second [load] without [force], made before the cache
    entry expires and while the credential has at least the refresh
    threshold left, returns the same payload, sends no request and leaves
    the handle and the cache as they are, whatever the network would
    answer. *)
Theorem load_second_call_is_cached
    (self : Credential.AgentCredential) (t_get1 t_upd1 : Q)
    (net1 : Http.Outcome) (force : bool)
    (cache : Cache.CredentialCache Types.dump) (p : Types.CredentialPayload)
    (t_get2 t_upd2 : Q) (net2 : Http.Outcome) :
  let first := Credential.load self t_get1 t_upd1 net1 force cache in
  Credential.calls first = [Credential.fetch_request self] ->
  Credential.returned first = Return p ->
  (t_get2 < t_upd1 + 3600)%Q ->
  (t_get2 < Types.valid_until (Types.constraints p))%Q ->
  (Credential.refresh_threshold self
   <= Types.valid_until (Types.constraints p) - t_get2)%Q ->
  Credential.load (Credential.self_after first) t_get2 t_upd2 net2 false
    (Credential.cache_after first)
  = Credential.mkOutcome (Credential.self_after first)
      (Credential.cache_after first) [] (Return p).
Proof.
  intros first Hcalls Hret Hhour Huntil Hthreshold.
  assert (Hstate : ∃ self' c1,
    Credential.cache_key self' = Credential.cache_key self
    ∧ Credential.refresh_threshold self' = Credential.refresh_threshold self
    ∧ Credential.self_after first
      = Credential.with_state self' (Some p) t_upd1 (Some Types.ACTIVE)
    ∧ Credential.cache_after first
      = Cache.set t_upd1 (Credential.cache_key self) (Types.DumpCredential p)
          (Some (Qmin (Qmax 0 (Types.valid_until (Types.constraints p)
                               - t_upd1)) 3600)) c1).
  { subst first. unfold Credential.load in *.
    destruct force.
    { apply fetch_returns_state in Hret as [-> ->]. by exists self, cache. }
    destruct (Cache.get t_get1 (Credential.cache_key self) cache)
      as [c1 [d|]].
    - destruct (Types.load_credential d) as [data|e]; [|discriminate Hret].
      destruct (negb _); [discriminate Hcalls|].
      apply fetch_returns_state in Hret as [-> ->].
      by eexists _, c1.
    - apply fetch_returns_state in Hret as [-> ->]. by exists self, c1. }
  destruct Hstate as (self' & c1 & Hkey & Hthr & -> & ->).
  unfold Credential.load.
  change (Credential.cache_key
            (Credential.with_state self' (Some p) t_upd1 (Some Types.ACTIVE)))
    with (Credential.cache_key self').
  rewrite Hkey.
  assert (Hfresh :
    (t_get2 < t_upd1 + Qmin (Qmax 0 (Types.valid_until (Types.constraints p)
                                    - t_upd1)) 3600)%Q).
  { destruct (Q.min_spec (Qmax 0 (Types.valid_until (Types.constraints p)
                                  - t_upd1)) 3600) as [[? ->]|[? ->]];
      [|lra].
    pose proof (Q.le_max_r 0 (Types.valid_until (Types.constraints p)
                              - t_upd1)).
    lra. }
  rewrite (get_set_before_expiry _ _ _ _ _ _ Hfresh). simpl.
  assert (Hrefresh :
    Credential.needs_refresh
      (Credential.with_state
         (Credential.with_state self' (Some p) t_upd1 (Some Types.ACTIVE))
         (Some p) t_upd1 (Some Types.ACTIVE)) t_get2 = false).
  { unfold Credential.needs_refresh, Credential.time_to_expiry. simpl.
    apply negb_false_iff, Qle_bool_iff. rewrite Hthr.
    pose proof (Q.le_max_r 0 (Types.valid_until (Types.constraints p)
                              - t_get2)).
    lra. }
  by rewrite Hrefresh.
Qed.

Lemma load_second_call_is_cached_witness :
  let first :=
    Credential.load Samples.handle 1700000100 1700000101
      (Http.Responded Samples.ok_response) false Samples.empty_cache in
  Credential.load (Credential.self_after first) 1700003000 1700003001
    (Http.RequestError "connection refused") false
    (Credential.cache_after first)
  = Credential.mkOutcome (Credential.self_after first)
      (Credential.cache_after first) [] (Return Samples.payload).
Proof.
  apply (load_second_call_is_cached Samples.handle 1700000100 1700000101
           (Http.Responded Samples.ok_response) false Samples.empty_cache
           Samples.payload 1700003000 1700003001
           (Http.RequestError "connection refused")).
  - reflexivity.
  - reflexivity.
  - vm_compute. reflexivity.
  - vm_compute. reflexivity.
  - vm_compute. discriminate.
Defined.

(** X21.  A [load] that raises has written nothing to the cache.  After
    a [CredentialExpiredError] the status of the handle is [EXPIRED], after
    a [CredentialRevokedError] it is [REVOKED], and in both cases the handle
    is not active at any clock reading.  A payload that the handle held
    is still held, except after the error of a valid result without
    payload. *)
Theorem load_raises_without_writing
    (self : Credential.AgentCredential) (t_get t_upd : Q)
    (net : Http.Outcome) (force : bool)
    (cache : Cache.CredentialCache Types.dump) (e : exn) :
  let out := Credential.load self t_get t_upd net force cache in
  Credential.returned out = Raise e ->
  Cache._cache (Credential.cache_after out) ⊆ Cache._cache cache
  ∧ match e with
    | CredentialExpiredError _ =>
        Credential._status (Credential.self_after out) = Some Types.EXPIRED
        ∧ ∀ t, Credential.is_active (Credential.self_after out) t = false
    | CredentialRevokedError _ =>
        Credential._status (Credential.self_after out) = Some Types.REVOKED
        ∧ ∀ t, Credential.is_active (Credential.self_after out) t = false
    | _ => True
    end
  ∧ (e ≠ CredentialInvalidError "No credential data returned" ->
     Credential.is_loaded self = true ->
     Credential.is_loaded (Credential.self_after out) = true).
Proof.
  intros out.
  assert (Hfetch : ∀ self' c1,
    Cache._cache c1 ⊆ Cache._cache cache ->
    (Credential.is_loaded self = true -> Credential.is_loaded self' = true) ->
    let out := Credential.fetch_and_update self' t_upd net c1 in
    Credential.returned out = Raise e ->
    Cache._cache (Credential.cache_after out) ⊆ Cache._cache cache
    ∧ match e with
      | CredentialExpiredError _ =>
          Credential._status (Credential.self_after out) = Some Types.EXPIRED
          ∧ ∀ t, Credential.is_active (Credential.self_after out) t = false
      | CredentialRevokedError _ =>
          Credential._status (Credential.self_after out) = Some Types.REVOKED
          ∧ ∀ t, Credential.is_active (Credential.self_after out) t = false
      | _ => True
      end
    ∧ (e ≠ CredentialInvalidError "No credential data returned" ->
       Credential.is_loaded self = true ->
       Credential.is_loaded (Credential.self_after out) = true)).
  { intros self' c1 Hsub Hloaded. unfold Credential.fetch_and_update.
    destruct (Credential._fetch_credential self' net) as [result|e'] eqn:Hnet.
    - unfold Credential._update_from_result.
      destruct (Types.valid result); simpl.
      + destruct (Types.credential result) as [data|]; simpl; [done|].
        intros [= <-]. split; [done|]. split; [done|]. by intros [].
      + repeat case_bool_decide; simpl; intros [= <-]; (split; [done|]);
          (split; [done | intros _; exact Hloaded]).
    - simpl. intros [= ->]. split; [done|]. split; [|intros _; exact Hloaded].
      destruct net as [text|response]; simpl in Hnet;
        [by injection Hnet as <-|].
      unfold Credential._handle_verify_response, Http.rate_limited,
        Http.validate in Hnet.
      repeat case_match; by simplify_eq. }
  subst out. unfold Credential.load. destruct force.
  { by apply Hfetch. }
  pose proof (get_store_subseteq t_get (Credential.cache_key self) cache)
    as Hsub.
  destruct (Cache.get t_get (Credential.cache_key self) cache) as [c1 [d|]];
    simpl in Hsub.
  - destruct (Types.load_credential d) as [data|e'] eqn:Hd.
    + destruct (negb _).
      * simpl. done.
      * by apply Hfetch.
    + simpl. intros [= ->]. split; [done|]. split; [|done].
      destruct d; simpl in Hd; by simplify_eq.
  - by apply Hfetch.
Qed.

Lemma load_raises_without_writing_witness :
  let out :=
    Credential.load Samples.handle 1700000100 1700000101
      (Http.Responded
         (Samples.failure_response 200 (Some "Credential was revoked")
            (Some "CREDENTIAL_REVOKED")))
      false Samples.empty_cache in
  Cache._cache (Credential.cache_after out) ⊆ Cache._cache Samples.empty_cache
  ∧ (Credential._status (Credential.self_after out) = Some Types.REVOKED
     ∧ ∀ t, Credential.is_active (Credential.self_after out) t = false)
  ∧ (CredentialRevokedError "Credential was revoked"
     ≠ CredentialInvalidError "No credential data returned" ->
     Credential.is_loaded Samples.handle = true ->
     Credential.is_loaded (Credential.self_after out) = true).
Proof.
  apply (load_raises_without_writing Samples.handle 1700000100 1700000101
           (Http.Responded
              (Samples.failure_response 200 (Some "Credential was revoked")
                 (Some "CREDENTIAL_REVOKED")))
           false Samples.empty_cache
           (CredentialRevokedError "Credential was revoked")).
  reflexivity.
Defined.

(** ** From the handle to the verifier *)

Lemma extract_signed_headers (id timestamp nonce signature : string) :
  Verifier._extract_credential_info
    [ ("X-AgentID-Credential", id); ("X-AgentID-Timestamp", timestamp);
      ("X-AgentID-Nonce", nonce); ("X-AgentID-Signature", signature) ]
  = (Some id, Some timestamp, Some nonce, Some signature).
Proof.
  unfold Verifier._extract_credential_info, Verifier.normalized. simpl.
  change (Py.lower "X-AgentID-Credential") with "x-agentid-credential".
  change (Py.lower "X-AgentID-Timestamp") with "x-agentid-timestamp".
  change (Py.lower "X-AgentID-Nonce") with "x-agentid-nonce".
  change (Py.lower "X-AgentID-Signature") with "x-agentid-signature".
  repeat f_equal;
    repeat first [ rewrite lookup_insert_eq | rewrite lookup_insert_ne by done ];
    reflexivity.
Qed.

Lemma str_of_int_nonempty z : Py.str_of_int z ≠ "".
Proof.
  intros H. pose proof (int_str_of_int z) as Hint. rewrite H in Hint.
  discriminate Hint.
Qed.

Lemma b64encode_nonempty s : s ≠ "" -> Encoding.b64encode s ≠ "".
Proof. intros Hs H. apply Hs. by apply b64encode_inj. Qed.

(** X22.  The headers that a handle makes pass the local checks of a
    verifier: when the credential id and the signing digest are not
    empty and the verifier reads the clock within [signature_max_age]
    seconds of the signed timestamp, [verify_request] on these headers is
    the verification of the credential id, whatever nonce the headers
    carry and whatever method, URL and body the verifier is given. *)
Theorem signed_headers_pass_the_local_checks
    (sha256_digest : string -> string)
    (hmac_sha256 : string -> string -> string)
    (handle : Credential.AgentCredential) (signed_at : Q)
    (nonce method url : string) (body : option Signature.payload)
    (self : Verifier.CredentialVerifier) (now t_get t_set : Q)
    (net : Http.Outcome) (method' url' : string)
    (body' : option Signature.payload)
    (cache : Cache.CredentialCache Types.dump) :
  let signer := Credential._signer handle in
  let timestamp := Py.int_of_float signed_at in
  let headers :=
    Credential.get_headers sha256_digest hmac_sha256 handle signed_at nonce
      method url body in
  Signature.credential_id signer ≠ "" ->
  Spec.mac sha256_digest hmac_sha256 (Signature.signing_secret signer)
    (Signature.signing_string sha256_digest method url body timestamp
       (Signature.credential_id signer)) ≠ "" ->
  Z.abs timestamp < Py.float_limit ->
  (Qabs (now - inject_Z timestamp)
   <= inject_Z (Verifier.signature_max_age self))%Q ->
  Verifier.verify_request self now t_get t_set net headers method' url' body'
    cache
  = Verifier.verify_credential self t_get t_set net
      (Signature.credential_id signer) true cache.
Proof.
  intros signer timestamp headers Hid Hmac Hfits Hfresh. subst headers.
  unfold Credential.get_headers, Signature.sign_request,
    Verifier.verify_request.
  fold signer. fold timestamp. rewrite extract_signed_headers.
  destruct (Signature.credential_id signer) as [|c id] eqn:Hcid; [done|].
  destruct (Verifier.verify_signature self); [|done].
  pose proof (str_of_int_nonempty timestamp) as Htext.
  pose proof (int_str_of_int timestamp) as Hint.
  destruct (Py.str_of_int timestamp) as [|d text]; [done|].
  rewrite generate_mac.
  apply b64encode_nonempty in Hmac.
  destruct (Encoding.b64encode _) as [|? ?]; [done|].
  rewrite Hint, (float_of_int_fits timestamp Hfits).
  assert (Hstale : Verifier.stale self now (inject_Z timestamp) = false).
  { unfold Verifier.stale. by apply negb_false_iff, Qle_bool_iff. }
  by rewrite Hstale.
Qed.

Lemma signed_headers_pass_the_local_checks_witness :
  let handle := Credential.new "cred_test" (Some "secret") in
  Verifier.verify_request Samples.verifier 1234568000 1234568000 1234568001
    (Http.Responded Samples.ok_response)
    (Credential.get_headers Hashlib.sha256_digest Hashlib.hmac_sha256 handle
       1234567890 "Zm9vYmFy" "POST" "https://api.example.com/data"
       (Some (Signature.Text "amount=100&to=alice")))
    "GET" "https://api.example.com/other" None Samples.empty_cache
  = Verifier.verify_credential Samples.verifier 1234568000 1234568001
      (Http.Responded Samples.ok_response) "cred_test" true
      Samples.empty_cache.
Proof.
  apply (signed_headers_pass_the_local_checks Hashlib.sha256_digest
           Hashlib.hmac_sha256 (Credential.new "cred_test" (Some "secret"))
           1234567890 "Zm9vYmFy" "POST" "https://api.example.com/data"
           (Some (Signature.Text "amount=100&to=alice"))
           Samples.verifier 1234568000 1234568000 1234568001
           (Http.Responded Samples.ok_response) "GET"
           "https://api.example.com/other" None Samples.empty_cache).
  - discriminate.
  - vm_compute. discriminate.
  - vm_compute. reflexivity.
  - vm_compute. discriminate.
Defined.

(** ** The revocation watch and the verifier *)

(** X23.  After a revocation event the verifier asks the remote
    authority again: on the cache that the handler leaves, a
    [verify_credential] for the revoked id finds nothing, sends its
    request and returns what a verification without cache returns,
    whatever had been cached for the id and whatever the clock reads.
    The verifier does not look at the revoked set. *)
Theorem revoked_credential_is_verified_remotely
    (subscriber : Revocation.RevocationSubscriber)
    (event : Revocation.RevocationEvent)
    (cache : Cache.CredentialCache Types.dump)
    (self : Verifier.CredentialVerifier) (t_get t_set : Q)
    (net : Http.Outcome) :
  let id := Revocation.credential_id event in
  let handled := Revocation._handle_revocation_event subscriber event cache in
  let out := Verifier.verify_credential self t_get t_set net id true handled.2 in
  Revocation.is_revoked handled.1 id = true
  ∧ Verifier.calls out = [Verifier.verify_request_to self id]
  ∧ Verifier.returned out
    = Verifier.returned
        (Verifier.verify_credential self t_get t_set net id false cache)
  ∧ Verifier.verify_credential_async self t_get t_set net id true handled.2
    = out.
Proof.
  intros id handled out.
  pose proof (revocation_event_effects subscriber event cache) as Heffects.
  fold handled in Heffects. destruct handled as [subscriber' cache'] eqn:Hrun.
  destruct Heffects as (Hrevoked & _ & Hverify & _).
  split; [exact Hrevoked|]. subst out. simpl.
  rewrite verify_credential_async_eq.
  assert (Hmiss : Cache.get t_get (Verifier.cache_key id) cache'
                  = (cache', None)) by (by apply get_miss).
  rewrite (verify_credential_miss self t_get t_set net id true cache' cache'
             Hmiss).
  rewrite (verify_credential_miss self t_get t_set net id false cache cache)
    by done.
  destruct net as [text|response]; [done|].
  by destruct (Verifier._handle_response response).
Qed.

(** ** The revocation watch: connection state *)

Section ConnectionFacts.
Implicit Types (self : Watch.RevocationSubscriber).

Lemma set_state_state self state :
  Watch._state (Watch._set_state self state).1 = state
  ∧ Watch.on_connection_change (Watch._set_state self state).1
    = Watch.on_connection_change self.
Proof.
  unfold Watch._set_state. destruct (negb _); [|done].
  simpl. destruct (Watch.on_connection_change self) eqn:Hcb;
    (split; [reflexivity | exact Hcb]).
Qed.

Lemma set_state_notes self state :
  (Watch._set_state self state).2
  = if negb (Bool.eqb (Watch.is_connected self) (Watch.connected state))
    then match Watch.on_connection_change self with
         | Some _ => [Watch.connected state]
         | None => []
         end
    else [].
Proof.
  unfold Watch._set_state, Watch.is_connected. destruct (negb _); [|done].
  simpl. by destruct (Watch.on_connection_change self).
Qed.

Lemma set_states_cons self state rest :
  WatchSpec.set_states self (state :: rest)
  = ((WatchSpec.set_states (Watch._set_state self state).1 rest).1,
     ((Watch._set_state self state).2
      ++ (WatchSpec.set_states (Watch._set_state self state).1 rest).2)%list).
Proof.
  simpl. destruct (Watch._set_state self state) as [self' first]. simpl.
  by destruct (WatchSpec.set_states self' rest).
Qed.

Lemma set_states_alternates self states :
  is_Some (Watch.on_connection_change self) ->
  WatchSpec.alternates (Watch.is_connected self)
    (WatchSpec.set_states self states).2
  ∧ default (Watch.is_connected self) (last (WatchSpec.set_states self states).2)
    = Watch.is_connected (WatchSpec.set_states self states).1.
Proof.
  revert self. induction states as [|state rest IH]; intros self Hcb; [done|].
  rewrite set_states_cons. cbn [fst snd].
  destruct (set_state_state self state) as [Hstate Hsame].
  destruct (IH (Watch._set_state self state).1) as [Halt Hlast];
    [by rewrite Hsame|].
  assert (Hnow : Watch.is_connected (Watch._set_state self state).1
                 = Watch.connected state)
    by (unfold Watch.is_connected; by rewrite Hstate).
  rewrite Hnow in Halt, Hlast. rewrite set_state_notes.
  destruct Hcb as [callback Hcb]. rewrite Hcb.
  destruct (Bool.eqb (Watch.is_connected self) (Watch.connected state))
    eqn:Hsame'; simpl.
  - apply Bool.eqb_prop in Hsame'. rewrite Hsame'. by split.
  - apply Bool.eqb_false_iff in Hsame'.
    split.
    + split; [|exact Halt]. clear -Hsame'.
      destruct (Watch.is_connected self), (Watch.connected state);
        first [reflexivity | by destruct Hsame'].
    + rewrite <- Hlast.
      set (later := (WatchSpec.set_states (Watch._set_state self state).1
                       rest).2).
      destruct later as [|b later]; [done|].
      change (last (Watch.connected state :: b :: later))
        with (last (b :: later)).
      destruct (last (b :: later)) eqn:Hb; [done|].
      by apply last_None in Hb.
Qed.

Lemma set_states_silent self states :
  Watch.on_connection_change self = None ->
  (WatchSpec.set_states self states).2 = [].
Proof.
  revert self. induction states as [|state rest IH]; intros self Hcb; [done|].
  rewrite set_states_cons. cbn [fst snd].
  destruct (set_state_state self state) as [_ Hsame].
  rewrite IH by (by rewrite Hsame).
  rewrite set_state_notes, Hcb. by destruct (negb _).
Qed.

Lemma set_states_final self states :
  Watch._state (WatchSpec.set_states self states).1
  = default (Watch._state self) (last states).
Proof.
  revert self. induction states as [|state rest IH]; intros self; [done|].
  rewrite set_states_cons. cbn [fst snd]. rewrite IH.
  destruct (set_state_state self state) as [-> _].
  destruct rest as [|b rest]; [done|].
  change (last (state :: b :: rest)) with (last (b :: rest)).
  destruct (last (b :: rest)) eqn:Hb; [done|].
  by apply last_None in Hb.
Qed.

End ConnectionFacts.

(** X24.  Over any sequence of [_set_state] calls the connection
    callback is told of every change between connected and not connected
    and of nothing else: its notifications alternate, the first one
    negating the connectedness at the start, and the last one is the
    connectedness at the end.  Without a callback nothing is notified.
    The state at the end is the last state set. *)
Theorem connection_notifications_alternate
    (self : Watch.RevocationSubscriber) (states : list Watch.ConnectionState) :
  let final := (WatchSpec.set_states self states).1 in
  let notes := (WatchSpec.set_states self states).2 in
  Watch._state final = default (Watch._state self) (last states)
  ∧ match Watch.on_connection_change self with
    | Some _ =>
        WatchSpec.alternates (Watch.is_connected self) notes
        ∧ default (Watch.is_connected self) (last notes)
          = Watch.is_connected final
    | None => notes = []
    end.
Proof.
  intros final notes. split; [apply set_states_final|].
  destruct (Watch.on_connection_change self) as [callback|] eqn:Hcb.
  - apply set_states_alternates. by rewrite Hcb.
  - by apply set_states_silent.
Qed.

(** ** The revocation watch: polling *)

Section PollFacts.
Implicit Types (h : Revocation.RevocationSubscriber).
Implicit Types (cache : Cache.CredentialCache Types.dump).







End PollFacts.



(** ** The client: building the URL *)

Section StripFacts.

Lemma prefix_app p s :
  String.prefix p s = true <-> ∃ rest, s = (p ++ rest)%string.
Proof.
  revert s. induction p as [|c p IH]; intros s.
  - split; [intros _; by exists s | intros _; by destruct s].
  - destruct s as [|d s]; simpl.
    + split; [intros H; discriminate H | intros [rest Hrest]; discriminate Hrest].
    + destruct (ascii_dec c d) as [->|Hne].
      * rewrite IH. split.
        -- intros [rest ->]. by exists rest.
        -- intros [rest Hrest]. injection Hrest as ->. by exists rest.
      * split; [intros H; discriminate H|].
        intros [rest Hrest]. injection Hrest as <- _. by destruct Hne.
Qed.

Lemma rstrip_nil c s :
  Str.rstrip c s = "" <-> Forall (λ d, d = c) (list_ascii_of_string s).
Proof.
  induction s as [|d s IH]; simpl; [done|].
  destruct (Str.rstrip c s) as [|e r] eqn:Hs.
  - destruct (Ascii.eqb d c) eqn:Hd.
    + apply Ascii.eqb_eq in Hd as ->. split; [|done].
      intros _. constructor; [done|]. by apply IH.
    + apply Ascii.eqb_neq in Hd. split; [done|]. by inversion 1.
  - split; [done|]. inversion 1 as [|? ? _ Hall]. by apply IH in Hall.
Qed.

Lemma rstrip_idem c s : Str.rstrip c (Str.rstrip c s) = Str.rstrip c s.
Proof.
  induction s as [|d s IH]; simpl; [done|].
  destruct (Str.rstrip c s) as [|e r] eqn:Hs.
  - destruct (Ascii.eqb d c) eqn:Hd; simpl; [done|]. by rewrite Hd.
  - simpl in *. by rewrite IH.
Qed.

Lemma rstrip_app_char c s :
  Str.rstrip c (s ++ String c "") = Str.rstrip c s.
Proof.
  induction s as [|d s IH]; simpl.
  - by rewrite Ascii.eqb_refl.
  - by rewrite IH.
Qed.

Lemma lstrip_stripped c s :
  Str.startswith (String c "") (Str.lstrip c s) = false.
Proof.
  unfold Str.startswith.
  induction s as [|d s IH]; simpl; [done|].
  destruct (Ascii.eqb d c) eqn:Hd; [exact IH|].
  simpl. apply Ascii.eqb_neq in Hd.
  by destruct (ascii_dec c d) as [->|Hne].
Qed.

End StripFacts.

(** X27.  [_build_url] keeps an absolute URL, and without a base URL it
    keeps the path.  Otherwise it joins the base URL and the path with
    exactly one slash: the slashes at the end of the base URL and at the
    start of the path are dropped first, so that one more slash on
    either side gives the same URL. *)
Theorem build_url_joins_with_one_slash
    (self : Client.AgentClient) (path : string) :
  if WebSpec.absolute path then Client._build_url self path = path
  else
    match Client.base_url self with
    | Some (String _ _ as base) =>
        ∃ stem rest,
          Client._build_url self path = (stem ++ "/" ++ rest)%string
          ∧ stem = Str.rstrip "/" base
          ∧ rest = Str.lstrip "/" path
          ∧ Str.rstrip "/" stem = stem
          ∧ Str.startswith "/" rest = false
          ∧ ∀ other,
              Client.base_url other = Some (base ++ "/")%string ->
              Client._build_url other ("/" ++ path)
              = Client._build_url self path
    | _ => Client._build_url self path = path
    end.
Proof.
  unfold Client._build_url, WebSpec.absolute.
  destruct (Str.startswith "http://" path || Str.startswith "https://" path)
    eqn:Habsolute; [done|].
  destruct (Client.base_url self) as [[|c base]|]; [done| |done].
  exists (Str.rstrip "/" (String c base)), (Str.lstrip "/" path).
  split; [done|]. split; [done|]. split; [done|].
  split; [apply rstrip_idem|]. split; [apply lstrip_stripped|].
  intros other ->.
  change (String c base ++ "/")%string with (String c (base ++ "/")).
  change (Str.startswith "http://" ("/" ++ path)
          || Str.startswith "https://" ("/" ++ path)) with false.
  cbv iota.
  change (String c (base ++ "/")) with (String c base ++ "/")%string.
  by rewrite rstrip_app_char.
Qed.

(** The URLs of a client with the base URL of the API. *)
Example build_url_examples :
  let client := WebSpec.client "cred_X" (Some "https://api.example.com/v1/") in
  Client._build_url client "/users" = "https://api.example.com/v1/users"
  ∧ Client._build_url client "users" = "https://api.example.com/v1/users"
  ∧ Client._build_url client "http://other.example.com/x"
    = "http://other.example.com/x"
  ∧ Client._build_url (WebSpec.client "cred_X" None) "/users" = "/users".
Proof. vm_compute. repeat split. Qed.

(** ** The FastAPI middleware: excluded paths *)

Lemma append_assoc (a b c : string) :
  ((a ++ b) ++ c)%string = (a ++ b ++ c)%string.
Proof. induction a as [|x a IH]; [done|]. rewrite !append_cons. by rewrite IH. Qed.

Lemma append_inj_r (p s1 s2 : string) :
  (p ++ s1)%string = (p ++ s2)%string -> s1 = s2.
Proof.
  induction p as [|c p IH]; [done|]. rewrite !append_cons.
  intros [= H]. by apply IH.
Qed.

(** X28.  What [_is_excluded] excludes: a path is excluded exactly when
    some entry of [exclude_paths] equals it or, with the slashes at its
    end dropped, is followed in it by a slash.  So an entry without slash
    at its end excludes itself and what lies below it and nothing that
    merely begins with it, and an entry made of slashes only, or empty,
    excludes every path that begins with a slash. *)
Theorem is_excluded_by_entry_or_subtree
    (config : FastApi.AgentIDConfig) (path : string) :
  (FastApi._is_excluded config path = true
   <-> ∃ excluded,
         excluded ∈ FastApi.exclude_paths config
         ∧ (path = excluded
            ∨ ∃ rest, path = (Str.rstrip "/" excluded ++ "/" ++ rest)%string))
  ∧ (∀ excluded c rest,
       FastApi.exclude_paths config = [excluded] ->
       Str.rstrip "/" excluded = excluded ->
       path = (excluded ++ String c rest)%string ->
       FastApi._is_excluded config path = bool_decide (c = "/"%char))
  ∧ (∀ excluded,
       excluded ∈ FastApi.exclude_paths config ->
       Str.rstrip "/" excluded = "" ->
       Str.startswith "/" path = true ->
       FastApi._is_excluded config path = true).
Proof.
  assert (Hspec :
    FastApi._is_excluded config path = true
    <-> ∃ excluded,
          excluded ∈ FastApi.exclude_paths config
          ∧ (path = excluded
             ∨ ∃ rest,
                 path = (Str.rstrip "/" excluded ++ "/" ++ rest)%string)).
  { unfold FastApi._is_excluded. rewrite existsb_exists. split.
    - intros (excluded & Hin & Hmatch). exists excluded.
      split; [by apply list_elem_of_In|].
      apply orb_true_iff in Hmatch as [Heq|Hprefix].
      + left. by apply String.eqb_eq.
      + right. apply prefix_app in Hprefix as [rest ->]. exists rest.
        by rewrite append_assoc.
    - intros (excluded & Hin & Hmatch). exists excluded.
      split; [by apply list_elem_of_In|].
      apply orb_true_iff. destruct Hmatch as [->|[rest ->]].
      + left. apply String.eqb_refl.
      + right. apply prefix_app. exists rest. by rewrite append_assoc. }
  split; [exact Hspec|]. split.
  - intros excluded c rest Hlist Hstripped ->.
    destruct (bool_decide (c = "/"%char)) eqn:Hc.
    + apply bool_decide_eq_true in Hc as ->. apply Hspec.
      exists excluded. split; [rewrite Hlist; by left|].
      right. exists rest. by rewrite Hstripped.
    + apply bool_decide_eq_false in Hc. apply not_true_iff_false.
      rewrite Hspec. intros (e & Hin & Hmatch).
      rewrite Hlist in Hin. apply list_elem_of_singleton in Hin as ->.
      rewrite Hstripped in Hmatch. destruct Hmatch as [Heq|[rest' Heq]].
      * rewrite <- (append_empty_r excluded) in Heq at 2.
        apply append_inj_r in Heq. discriminate Heq.
      * apply append_inj_r in Heq. injection Heq as -> _. done.
  - intros excluded Hin Hslashes Hstart. apply Hspec.
    exists excluded. split; [exact Hin|]. right.
    apply prefix_app in Hstart as [rest ->]. exists rest.
    by rewrite Hslashes.
Qed.

(** The exclusions of the documented configuration. *)
Example is_excluded_examples :
  let config := WebSpec.config true None [] ["/health"; "/docs/"] true in
  FastApi._is_excluded config "/health" = true
  ∧ FastApi._is_excluded config "/health/live" = true
  ∧ FastApi._is_excluded config "/healthz" = false
  ∧ FastApi._is_excluded config "/docs/index.html" = true
  ∧ FastApi._is_excluded config "/docs" = false
  ∧ FastApi._is_excluded (WebSpec.config true None [] ["/"] true) "/api/data"
    = true.
Proof. vm_compute. repeat split. Qed.

(** ** The FastAPI middleware: what it lets through *)

Section MiddlewareFacts.
Variable fnmatch : string -> string -> bool.
Implicit Types (config : FastApi.AgentIDConfig) (request : FastApi.Request).

Lemma first_denied_none permissions resource required :
  FastApi.first_denied fnmatch permissions resource required = Return None
  <-> ∀ permission, permission ∈ required ->
        ∃ d, Verifier.check_permission fnmatch permissions resource
               permission None = Return d
             ∧ Verifier.granted d = true.
Proof.
  induction required as [|permission rest IH]; simpl.
  - split; [|done]. by intros _ permission ?%elem_of_nil.
  - destruct (Verifier.check_permission fnmatch permissions resource
                permission None) as [d|e] eqn:Hcheck.
    + destruct (Verifier.granted d) eqn:Hgranted; simpl.
      * rewrite IH. split.
        -- intros Hrest p [->|Hin]%elem_of_cons; [by exists d | by apply Hrest].
        -- intros Hall p Hin. apply Hall. by right.
      * split; [done|]. intros Hall.
        destruct (Hall permission) as (d' & Hd' & Hg'); [by left|].
        rewrite Hcheck in Hd'. injection Hd' as <-. congruence.
    + split; [done|]. intros Hall.
      destruct (Hall permission) as (d' & Hd' & _); [by left|].
      rewrite Hcheck in Hd'. discriminate Hd'.
Qed.

(** What a result has passed when [dispatch] hands the request on, in a
    configuration that requires credentials. *)
Lemma enforce_passes config request verified state :
  FastApi.required config = true ->
  FastApi.enforce fnmatch config request verified
  = Return (FastApi.CallNext state) ->
  Types.valid verified = true
  ∧ state = {| FastApi._agentid_verification := Some verified;
               FastApi._agentid_credential := Types.credential verified |}
  ∧ (∀ minimum, FastApi.min_trust_score config = Some minimum ->
       ∃ score, Types.trust_score verified = Some score ∧ minimum <= score)
  ∧ (∀ credential, Types.credential verified = Some credential ->
       (∀ permission, permission ∈ FastApi.required_permissions config ->
          WebSpec.granted fnmatch credential (FastApi.path request) permission)
       ∧ (∀ policy, FastApi.policy config = Some policy ->
            policy credential request = Return true)).
Proof.
  intros Hrequired. unfold FastApi.enforce. rewrite Hrequired.
  destruct (Types.valid verified); cbn [negb]; [|done].
  set (low := match FastApi.min_trust_score config with
              | Some minimum =>
                  if FastApi.below (Types.trust_score verified) minimum
                  then Some minimum else None
              | None => None
              end).
  assert (Hlow : low = None ->
            ∀ minimum, FastApi.min_trust_score config = Some minimum ->
              ∃ score, Types.trust_score verified = Some score
                       ∧ minimum <= score).
  { subst low. destruct (FastApi.min_trust_score config) as [m|]; [|done].
    unfold FastApi.below.
    destruct (Types.trust_score verified) as [score|]; [|done].
    destruct (score <? m) eqn:Hlt; [done|]. apply Z.ltb_ge in Hlt.
    intros _ minimum [= <-]. by exists score. }
  destruct low as [m|]; [done|]. specialize (Hlow eq_refl).
  set (denied := match FastApi.required_permissions config,
                       Types.credential verified with
                 | _ :: _, Some credential =>
                     FastApi.first_denied fnmatch
                       (Types.permissions credential) (FastApi.path request)
                       (FastApi.required_permissions config)
                 | _, _ => Return None
                 end).
  assert (Hdenied : denied = Return None ->
            ∀ credential, Types.credential verified = Some credential ->
              ∀ permission,
                permission ∈ FastApi.required_permissions config ->
                WebSpec.granted fnmatch credential (FastApi.path request)
                  permission).
  { subst denied.
    destruct (FastApi.required_permissions config) as [|p ps] eqn:Hps.
    { intros _ credential _ permission Hin. by apply elem_of_nil in Hin. }
    destruct (Types.credential verified) as [c|]; [|done].
    intros Hnone credential [= <-].
    by apply first_denied_none. }
  destruct denied as [[d|]|e]; [done| |done]. specialize (Hdenied eq_refl).
  destruct (FastApi.policy config) as [policy|];
    destruct (Types.credential verified) as [credential|].
  - destruct (policy credential request) as [[]|text] eqn:Hrun;
      cbn [negb]; [|done|done].
    intros [= <-]. split; [done|]. split; [done|]. split; [exact Hlow|].
    intros c [= <-]. split; [by apply Hdenied|]. by intros p [= <-].
  - intros [= <-]. split; [done|]. split; [done|]. split; [exact Hlow|].
    intros c [=].
  - intros [= <-]. split; [done|]. split; [done|]. split; [exact Hlow|].
    intros c [= <-]. split; [by apply Hdenied|]. intros p [=].
  - intros [= <-]. split; [done|]. split; [done|]. split; [exact Hlow|].
    intros c [=].
Qed.

(** [dispatch] on a path that is not excluded, when the verification
    returned a result. *)
Lemma dispatch_returned config now t_get t_set net request cache :
  FastApi._is_excluded config (FastApi.path request) = false ->
  FastApi.dispatch fnmatch config now t_get t_set net request cache
  = let out := WebSpec.verification config now t_get t_set net request cache in
    Verifier.mkOutcome (Verifier.cache_after out) (Verifier.calls out)
      match Verifier.returned out with
      | Return verified => FastApi.enforce fnmatch config request verified
      | Raise e =>
          match FastApi.agentid_error e with
          | Some text =>
              if FastApi.required config
              then Return
                     (FastApi.JSONResponse 500
                        [ ("error", FastApi.VStr text);
                          ("code", FastApi.VStr "INTERNAL_ERROR") ])
              else FastApi.enforce fnmatch config request
                     {| Types.valid := false; Types.credential := None;
                        Types.error := Some text; Types.error_code := None;
                        Types.trust_score := None;
                        Types.issuer_verified := None;
                        Types.permission_policy := None;
                        Types.live_permissions := None |}
          | None => Raise e
          end
      end.
Proof. intros Hpath. unfold FastApi.dispatch. by rewrite Hpath. Qed.

Lemma dispatch_passes config now t_get t_set net request cache state :
  FastApi.required config = true ->
  FastApi._is_excluded config (FastApi.path request) = false ->
  Verifier.returned
    (FastApi.dispatch fnmatch config now t_get t_set net request cache)
  = Return (FastApi.CallNext state) ->
  ∃ verified,
    Verifier.returned
      (WebSpec.verification config now t_get t_set net request cache)
    = Return verified
    ∧ FastApi.enforce fnmatch config request verified
      = Return (FastApi.CallNext state).
Proof.
  intros Hrequired Hpath. rewrite dispatch_returned by done.
  cbv zeta. cbn [Verifier.returned]. rewrite Hrequired.
  destruct (Verifier.returned
              (WebSpec.verification config now t_get t_set net request cache))
    as [verified|e].
  - intros Hpass. by exists verified.
  - by destruct (FastApi.agentid_error e).
Qed.

End MiddlewareFacts.

(** X29.  A middleware that requires credentials hands on to the
    application only what it verified: when [dispatch] calls the next
    handler for a path that is not excluded, the verification returned a
    result with [valid=True], which is on the request state with its
    credential; the trust score is known and not below the minimum
    configured; and when the result carries a credential,
    [check_permission] grants every required permission on the path and
    the policy returned [True]. *)
Theorem dispatch_lets_through_only_the_verified
    (fnmatch : string -> string -> bool) (config : FastApi.AgentIDConfig)
    (now t_get t_set : Q) (net : Http.Outcome) (request : FastApi.Request)
    (cache : Cache.CredentialCache Types.dump) (state : FastApi.State) :
  FastApi.required config = true ->
  FastApi._is_excluded config (FastApi.path request) = false ->
  Verifier.returned
    (FastApi.dispatch fnmatch config now t_get t_set net request cache)
  = Return (FastApi.CallNext state) ->
  ∃ verified,
    Verifier.returned
      (WebSpec.verification config now t_get t_set net request cache)
    = Return verified
    ∧ Types.valid verified = true
    ∧ state = {| FastApi._agentid_verification := Some verified;
                 FastApi._agentid_credential := Types.credential verified |}
    ∧ (∀ minimum, FastApi.min_trust_score config = Some minimum ->
         ∃ score, Types.trust_score verified = Some score ∧ minimum <= score)
    ∧ (∀ credential, Types.credential verified = Some credential ->
         (∀ permission, permission ∈ FastApi.required_permissions config ->
            WebSpec.granted fnmatch credential (FastApi.path request)
              permission)
         ∧ (∀ policy, FastApi.policy config = Some policy ->
              policy credential request = Return true)).
Proof.
  intros Hrequired Hpath Hpass.
  destruct (dispatch_passes fnmatch config now t_get t_set net request cache
              state Hrequired Hpath Hpass) as (verified & Hverified & Henforce).
  exists verified. split; [exact Hverified|].
  by apply (enforce_passes fnmatch config request).
Qed.

Lemma dispatch_lets_through_only_the_verified_witness :
  let config := WebSpec.config true (Some 50) ["read"] ["/health"] false in
  let request :=
    {| FastApi.path := "/api/data"; FastApi.method := "GET";
       FastApi.url := "https://service.example.com/api/data";
       FastApi.headers := [("x-agentid-credential", "cred_X")];
       FastApi.body := "" |} in
  ∃ verified,
    Verifier.returned
      (WebSpec.verification config 1700000100 1700000100 1700000101
         (Http.Responded Samples.ok_response) request Samples.empty_cache)
    = Return verified
    ∧ Types.valid verified = true
    ∧ {| FastApi._agentid_verification :=
           Some {| Types.valid := true;
                   Types.credential := Some Samples.payload;
                   Types.error := None; Types.error_code := None;
                   Types.trust_score := Some 85;
                   Types.issuer_verified := None;
                   Types.permission_policy := None;
                   Types.live_permissions := None |};
         FastApi._agentid_credential := Some Samples.payload |}
      = {| FastApi._agentid_verification := Some verified;
           FastApi._agentid_credential := Types.credential verified |}
    ∧ (∀ minimum, FastApi.min_trust_score config = Some minimum ->
         ∃ score, Types.trust_score verified = Some score ∧ minimum <= score)
    ∧ (∀ credential, Types.credential verified = Some credential ->
         (∀ permission, permission ∈ FastApi.required_permissions config ->
            WebSpec.granted Verifier.fnmatch_glob credential
              (FastApi.path request) permission)
         ∧ (∀ policy, FastApi.policy config = Some policy ->
              policy credential request = Return true)).
Proof.
  intros config request.
  apply (dispatch_lets_through_only_the_verified Verifier.fnmatch_glob config
           1700000100 1700000100 1700000101
           (Http.Responded Samples.ok_response) request Samples.empty_cache).
  - reflexivity.
  - reflexivity.
  - vm_compute. reflexivity.
Defined.

(** X30.  The dependencies agree with the middleware.  On the state of
    a request that a middleware requiring credentials handed on, with a
    credential, [require_credential] with the minimum trust score of the
    configuration and [require_permission] with its required permissions
    return that credential; on a state without credential, which a valid
    result without payload leaves, every dependency raises 401. *)
Theorem dependencies_agree_with_the_middleware
    (fnmatch : string -> string -> bool) (config : FastApi.AgentIDConfig)
    (now t_get t_set : Q) (net : Http.Outcome) (request : FastApi.Request)
    (cache : Cache.CredentialCache Types.dump) (state : FastApi.State) :
  FastApi.required config = true ->
  FastApi._is_excluded config (FastApi.path request) = false ->
  Verifier.returned
    (FastApi.dispatch fnmatch config now t_get t_set net request cache)
  = Return (FastApi.CallNext state) ->
  match FastApi._agentid_credential state with
  | Some credential =>
      FastApi.require_credential (FastApi.min_trust_score config) state
      = Return credential
      ∧ FastApi.require_permission fnmatch
          (FastApi.required_permissions config) state (FastApi.path request)
        = Return (Return credential)
  | None =>
      (∀ minimum, FastApi.require_credential minimum state
                  = Raise FastApi.no_credential)
      ∧ (∀ permissions path,
           FastApi.require_permission fnmatch permissions state path
           = Return (Raise FastApi.no_credential))
      ∧ FastApi.require_verified_issuer state = Raise FastApi.no_credential
  end.
Proof.
  intros Hrequired Hpath Hpass.
  destruct (dispatch_passes fnmatch config now t_get t_set net request cache
              state Hrequired Hpath Hpass) as (verified & _ & Henforce).
  destruct (enforce_passes fnmatch config request verified state Hrequired
              Henforce) as (_ & -> & Htrust & Hchecks).
  cbn [FastApi._agentid_credential].
  destruct (Types.credential verified) as [credential|] eqn:Hcredential.
  - destruct (Hchecks credential eq_refl) as [Hgranted _]. split.
    + unfold FastApi.require_credential.
      cbn [FastApi._agentid_credential FastApi._agentid_verification].
      destruct (FastApi.min_trust_score config) as [minimum|]; [|done].
      destruct (Htrust minimum eq_refl) as (score & -> & Hle).
      unfold FastApi.below. by rewrite (proj2 (Z.ltb_ge _ _) Hle).
    + unfold FastApi.require_permission.
      cbn [FastApi._agentid_credential].
      by rewrite (proj2 (first_denied_none fnmatch _ _ _) Hgranted).
  - done.
Qed.

Lemma dependencies_agree_with_the_middleware_witness :
  let config := WebSpec.config true (Some 50) ["read"] ["/health"] false in
  let state :=
    {| FastApi._agentid_verification :=
         Some {| Types.valid := true;
                 Types.credential := Some Samples.payload;
                 Types.error := None; Types.error_code := None;
                 Types.trust_score := Some 85;
                 Types.issuer_verified := None;
                 Types.permission_policy := None;
                 Types.live_permissions := None |};
       FastApi._agentid_credential := Some Samples.payload |} in
  FastApi.require_credential (FastApi.min_trust_score config) state
  = Return Samples.payload
  ∧ FastApi.require_permission Verifier.fnmatch_glob
      (FastApi.required_permissions config) state "/api/data"
    = Return (Return Samples.payload).
Proof.
  intros config state.
  apply (dependencies_agree_with_the_middleware Verifier.fnmatch_glob config
           1700000100 1700000100 1700000101
           (Http.Responded Samples.ok_response)
           {| FastApi.path := "/api/data"; FastApi.method := "GET";
              FastApi.url := "https://service.example.com/api/data";
              FastApi.headers := [("x-agentid-credential", "cred_X")];
              FastApi.body := "" |}
           Samples.empty_cache state).
  - reflexivity.
  - reflexivity.
  - vm_compute. reflexivity.
Defined.

(** What the middleware answers to requests that it does not hand on. *)
Example dispatch_answers :
  let request headers :=
    {| FastApi.path := "/api/data"; FastApi.method := "GET";
       FastApi.url := "https://service.example.com/api/data";
       FastApi.headers := headers; FastApi.body := "" |} in
  let run config headers :=
    Verifier.returned
      (FastApi.dispatch Verifier.fnmatch_glob config 1700000100 1700000100
         1700000101 (Http.Responded Samples.ok_response) (request headers)
         Samples.empty_cache) in
  run (WebSpec.config true None [] [] false) []
  = Return (FastApi.JSONResponse 401
              [ ("error", FastApi.VStr "Missing X-AgentID-Credential header");
                ("code", FastApi.VStr "MISSING_CREDENTIAL") ])
  ∧ run (WebSpec.config true (Some 90) [] [] false)
      [("x-agentid-credential", "cred_X")]
    = Return (FastApi.JSONResponse 403
                (FastApi.insufficient_trust 90 (Some 85)))
  ∧ run (WebSpec.config true None ["delete"] [] false)
      [("x-agentid-credential", "cred_X")]
    = Return (FastApi.JSONResponse 403
                (FastApi.permission_denied
                   ("delete", PermSpec.no_permission "/api/data" "delete")))
  ∧ run (WebSpec.config false None [] [] false) []
    = Return (FastApi.CallNext
                {| FastApi._agentid_verification :=
                     Some (Types.rejected "Missing X-AgentID-Credential header"
                             "MISSING_CREDENTIAL");
                   FastApi._agentid_credential := None |}).
Proof. vm_compute. repeat split. Qed.
